(** * PyLav setup script ([app/functions/pylav_setup.py])

    A shallow embedding of the start-up script that synchronises the PyLav
    cogs of a Red-DiscordBot container, and the properties of its
    specification.

    Modelling conventions.
    - Text is a [string]; a file holds its decoded text.  Reading in text mode
      applies Python's universal-newline translation ([universal_newlines]).
    - The file system is a tree of [node]s addressed by a [path], the list of
      the components of an absolute path.  Only the shape of the tree can make
      an operation fail: permissions, quotas and I/O errors are outside the
      model, and so are symbolic links.
    - [json.load] and [json.dump] belong to Python's library; they are taken
      as the two operations of a [JsonCodec].  Every theorem holds for every
      codec; a small concrete codec is used where a statement is evaluated.
    - Python exceptions, [sys.exit] and the effects on the file system and on
      child processes are threaded through the monad [M]; every effect of the
      script on the outside world is appended to a [trace].
    - [git] and [pip] are external programs: the [world] in which the script
      runs says what they do.  [git] works on the entries of its working
      directory; [pip] prints a finite list of lines, and what it installs
      is not part of the file system of the model. *)

From Stdlib Require Import ZArith String Ascii List Bool Lia.
From stdpp Require Import base option list strings gmap.
Local Open Scope string_scope.
Set Warnings "-register-all".

(** ** Text *)

(** [sub in s] on Python strings. *)
Fixpoint contains (sub s : string) : bool :=
  String.prefix sub s ||
  match s with
  | EmptyString => false
  | String _ s' => contains sub s'
  end.

(** [s.startswith(p)]. *)
Definition startswith (p s : string) : bool := String.prefix p s.

Definition CR : ascii := ascii_of_nat 13.
Definition LF : ascii := ascii_of_nat 10.

(** What [open(..., "r")] (newline=None) does to the text it reads: the line
    ends [\r\n] and [\r] both become [\n]. *)
Fixpoint universal_newlines (s : string) : string :=
  match s with
  | EmptyString => EmptyString
  | String c s' =>
      if Ascii.eqb c CR then
        match s' with
        | String c' s'' =>
            if Ascii.eqb c' LF then String LF (universal_newlines s'')
            else String LF (universal_newlines s')
        | EmptyString => String LF EmptyString
        end
      else String c (universal_newlines s')
  end.

Fixpoint has_cr (s : string) : bool :=
  match s with
  | EmptyString => false
  | String c s' => Ascii.eqb c CR || has_cr s'
  end.

(** [str.isspace] on the characters below 256. *)
Definition isspace (c : ascii) : bool :=
  let n := nat_of_ascii c in
  ((9 <=? n)%nat && (n <=? 13)%nat) || ((28 <=? n)%nat && (n <=? 32)%nat)
  || (n =? 133)%nat || (n =? 160)%nat.

Fixpoint lstrip_with (f : ascii → bool) (s : string) : string :=
  match s with
  | EmptyString => EmptyString
  | String c s' => if f c then lstrip_with f s' else s
  end.

Fixpoint rstrip_with (f : ascii → bool) (s : string) : string :=
  match s with
  | EmptyString => EmptyString
  | String c s' =>
      match rstrip_with f s' with
      | EmptyString => if f c then EmptyString else String c EmptyString
      | r => String c r
      end
  end.

(** [s.strip()] and [s.strip("\n")]. *)
Definition strip (s : string) : string := rstrip_with isspace (lstrip_with isspace s).
Definition strip_newlines (s : string) : string :=
  rstrip_with (Ascii.eqb LF) (lstrip_with (Ascii.eqb LF) s).

(** [s.upper()] on ASCII letters.  The script only compares the result with
    ["JSON"], and below code point 256 no other character is mapped to one of
    these four letters. *)
Definition upper_ascii (c : ascii) : ascii :=
  let n := nat_of_ascii c in
  if (97 <=? n)%nat && (n <=? 122)%nat then ascii_of_nat (n - 32) else c.

Fixpoint upper (s : string) : string :=
  match s with
  | EmptyString => EmptyString
  | String c s' => String (upper_ascii c) (upper s')
  end.

(** ** Exceptions and results *)

(** The exception classes the script can meet; all of them derive from
    [Exception].  [OSError] stands for its subclasses [FileNotFoundError],
    [NotADirectoryError], [IsADirectoryError] and [FileExistsError], which the
    script never tells apart. *)
Inductive exn :=
  | OSError
  | JSONDecodeError
  | KeyError
  | TypeError
  | AttributeError
  | CalledProcessError.

(** The three ways a computation ends: with a value, with an exception, or
    with [sys.exit(code)] ([SystemExit] is not an [Exception]). *)
Inductive res (A : Type) :=
  | Ret (a : A)
  | Raise (e : exn)
  | Exit (code : Z).
Arguments Ret {A} a.
Arguments Raise {A} e.
Arguments Exit {A} code.

#[global] Instance res_ret : MRet res := λ A a, Ret a.
#[global] Instance res_bind : MBind res := λ A B f r,
  match r with
  | Ret a => f a
  | Raise e => Raise e
  | Exit c => Exit c
  end.

(** The exit status the caller of the interpreter observes. *)
Definition exit_status {A} (r : res A) : Z :=
  match r with
  | Ret _ => 0
  | Exit c => c
  | Raise _ => 1
  end.

(** ** Python dictionaries

    A [dict] keeps its keys in insertion order; assigning to a key that is
    present replaces the value where it stands. *)
Section dict.
Context {V : Type}.

Fixpoint dict_get (k : string) (d : list (string * V)) : option V :=
  match d with
  | [] => None
  | (k', v) :: d' => if String.eqb k k' then Some v else dict_get k d'
  end.

Fixpoint dict_set (k : string) (v : V) (d : list (string * V)) : list (string * V) :=
  match d with
  | [] => [(k, v)]
  | (k', v') :: d' =>
      if String.eqb k k' then (k', v) :: d' else (k', v') :: dict_set k v d'
  end.

Fixpoint dict_del (k : string) (d : list (string * V)) : list (string * V) :=
  match d with
  | [] => []
  | (k', v') :: d' =>
      if String.eqb k k' then dict_del k d' else (k', v') :: dict_del k d'
  end.

Definition dict_mem (k : string) (d : list (string * V)) : bool :=
  match dict_get k d with Some _ => true | None => false end.

Definition dict_keys (d : list (string * V)) : list string := map fst d.
Definition dict_values (d : list (string * V)) : list V := map snd d.
End dict.

(** ** JSON documents, as [json.load] returns them *)
Inductive json :=
  | JNull
  | JBool (b : bool)
  | JNum (n : Z)
  | JStr (s : string)
  | JArr (items : list json)
  | JObj (members : list (string * json)).

Class JsonCodec := {
  json_load : string → option json;   (* [None]: JSONDecodeError *)
  json_dump : json → string
}.

(** [k in j] for a string [k]. *)
Definition py_contains (k : string) (j : json) : res bool :=
  match j with
  | JObj d => Ret (dict_mem k d)
  | JArr l => Ret (existsb (λ x, match x with JStr s => String.eqb s k | _ => false end) l)
  | JStr s => Ret (contains k s)
  | _ => Raise TypeError
  end.

(** [j[k]] for a string [k]. *)
Definition py_getitem (j : json) (k : string) : res json :=
  match j with
  | JObj d => match dict_get k d with Some v => Ret v | None => Raise KeyError end
  | _ => Raise TypeError
  end.

(** [j[k] = v] for a string [k]; the result is the object after the
    assignment. *)
Definition py_setitem (j : json) (k : string) (v : json) : res json :=
  match j with
  | JObj d => Ret (JObj (dict_set k v d))
  | _ => Raise TypeError
  end.

(** [doc[k1]...[kn][k] = v].  [json.load] builds a tree whose objects are not
    shared, so the assignment through the innermost object is this update of
    the document, every object staying where it is. *)
Fixpoint json_assign (keys : list string) (k : string) (v : json) (doc : json) : res json :=
  match keys with
  | [] => py_setitem doc k v
  | key :: keys' =>
      child ← py_getitem doc key;
      child' ← json_assign keys' k v child;
      py_setitem doc key child'
  end.

(** [doc[k1]...[kn]]. *)
Fixpoint json_path (keys : list string) (doc : json) : res json :=
  match keys with
  | [] => Ret doc
  | key :: keys' => child ← py_getitem doc key; json_path keys' child
  end.

(** The values [for x in j] goes through. *)
Definition py_iter (j : json) : res (list json) :=
  match j with
  | JArr l => Ret l
  | JStr s => Ret (map (λ c, JStr (String c EmptyString)) (list_ascii_of_string s))
  | JObj d => Ret (map JStr (dict_keys d))
  | _ => Raise TypeError
  end.

(** The members of a Python [set]: hashable values.  [True] and [False] are
    equal to [1] and [0] and hash alike, so a set holds one of the two. *)
Inductive atom :=
  | AStr (s : string)
  | AInt (n : Z)
  | ANone.

#[global] Instance atom_eq_dec : EqDecision atom.
Proof. solve_decision. Defined.

#[global] Instance atom_countable : Countable atom :=
  inj_countable'
    (λ a, match a with
          | AStr s => inl s
          | AInt n => inr (Some n)
          | ANone => inr None
          end)
    (λ x, match x with
          | inl s => AStr s
          | inr (Some n) => AInt n
          | inr None => ANone
          end)
    (λ a, match a with AStr _ | AInt _ | ANone => eq_refl end).

(** What [set.add(j)] inserts; lists and dictionaries are unhashable. *)
Definition py_hashable (j : json) : res atom :=
  match j with
  | JStr s => Ret (AStr s)
  | JNum n => Ret (AInt n)
  | JBool b => Ret (AInt (if b then 1 else 0))
  | JNull => Ret ANone
  | _ => Raise TypeError
  end.

(** ** The file system *)

Inductive node :=
  | File (text : string)
  | Dir (entries : list (string * node)).

(** [pathlib.Path]: the components of an absolute path. *)
Abbreviation path := (list string).

Definition path_name (p : path) : string := List.last p EmptyString.

(** [p / name]. *)
Definition path_child (p : path) (name : string) : path := (p ++ [name])%list.
Infix "</>" := path_child (at level 40, left associativity).

Fixpoint path_str (p : path) : string :=
  match p with
  | [] => EmptyString
  | k :: p' => "/" ++ k ++ path_str p'
  end.

Fixpoint fs_lookup (n : node) (p : path) : option node :=
  match p with
  | [] => Some n
  | k :: p' =>
      match n with
      | Dir es =>
          match dict_get k es with
          | Some c => fs_lookup c p'
          | None => None
          end
      | File _ => None
      end
  end.

(** Bind the name at [p] to [x]; every directory above [p] has to exist. *)
Fixpoint fs_put (n : node) (p : path) (x : node) : option node :=
  match p with
  | [] => Some x
  | k :: p' =>
      match n with
      | File _ => None
      | Dir es =>
          match p' with
          | [] => Some (Dir (dict_set k x es))
          | _ :: _ =>
              match dict_get k es with
              | Some c =>
                  match fs_put c p' x with
                  | Some c' => Some (Dir (dict_set k c' es))
                  | None => None
                  end
              | None => None
              end
          end
      end
  end.

(** Unbind the name at [p]. *)
Fixpoint fs_remove (n : node) (p : path) : node :=
  match p with
  | [] => n
  | k :: p' =>
      match n with
      | File _ => n
      | Dir es =>
          match p' with
          | [] => Dir (dict_del k es)
          | _ :: _ =>
              match dict_get k es with
              | Some c => Dir (dict_set k (fs_remove c p') es)
              | None => n
              end
          end
      end
  end.

(** [mkdir -p]: create the directories of [p] that are missing; [None] when a
    component of [p] is a regular file. *)
Fixpoint fs_mkdir_p (n : node) (p : path) : option node :=
  match n with
  | File _ => None
  | Dir es =>
      match p with
      | [] => Some n
      | k :: p' =>
          match fs_mkdir_p (default (Dir []) (dict_get k es)) p' with
          | Some c' => Some (Dir (dict_set k c' es))
          | None => None
          end
      end
  end.

Definition fs_exists (n : node) (p : path) : bool :=
  match fs_lookup n p with Some _ => true | None => false end.

Definition fs_is_dir (n : node) (p : path) : bool :=
  match fs_lookup n p with Some (Dir _) => true | _ => false end.

(** ** Effects *)

(** The child process [subprocess.Popen] returns. *)
Inductive Popen := PipProcess.

Inductive log_arg :=
  | LStr (s : string)
  | LPath (p : path)
  | LSet (s : gset atom)
  | LJson (j : json)
  | LExn (e : exn).

Inductive event :=
  | EvLog (format : string) (args : list log_arg)       (* log.info *)
  | EvMkdir (p : path)                                  (* Path.mkdir *)
  | EvWrite (p : path) (text : string)                  (* open(p, "w") and write *)
  | EvRmtree (p : path)                                 (* shutil.rmtree *)
  | EvCopytree (src dst : path)                         (* shutil.copytree *)
  | EvGit (args : list string) (cwd : path)             (* subprocess.call / check_output *)
  | EvPopen (requirements : gset atom)                  (* subprocess.Popen of pip *)
  | EvWait (p : Popen)
  | EvKill (p : Popen)
  | EvTerminate (p : Popen).

Record state := { fs : node; trace : list event }.

(** What the script cannot decide: its environment variables and the two
    programs it runs.
    - [git env args entries]: [git] run with the arguments [args] in a working
      directory that holds [entries]; [None] when the program cannot be
      started, otherwise its exit status, the entries it leaves in the working
      directory and its standard output.
    - [pip env requirements]: [None] when [/data/venv/bin/pip] cannot be
      started, otherwise the lines it prints, each with its line end. *)
Record world := {
  environ : gmap string string;
  git : gmap string string → list string → list (string * node) →
        option (Z * list (string * node) * string);
  pip : gmap string string → gset atom → option (list string)
}.

Definition M (A : Type) : Type := state → res A * state.

#[global] Instance M_ret : MRet M := λ A a st, (Ret a, st).
#[global] Instance M_bind : MBind M := λ A B f m st,
  match m st with
  | (Ret a, st') => f a st'
  | (Raise e, st') => (Raise e, st')
  | (Exit c, st') => (Exit c, st')
  end.

Definition raise {A} (e : exn) : M A := λ st, (Raise e, st).
Definition sys_exit {A} (code : Z) : M A := λ st, (Exit code, st).
Definition lift {A} (r : res A) : M A := λ st, (r, st).

Definition emit (e : event) : M unit :=
  λ st, (Ret tt, {| fs := fs st; trace := (trace st ++ [e])%list |}).

Definition log_info (format : string) (args : list log_arg) : M unit :=
  emit (EvLog format args).

(** [try: body  except Exception as e: handler(e)]. *)
Definition try_except {A} (body : M A) (handler : exn → M A) : M A :=
  λ st,
    match body st with
    | (Raise e, st') => handler e st'
    | r => r
    end.

(** [try: body  finally: final]: [final] runs however [body] ends, and an
    exception or exit of [final] replaces the outcome of [body]. *)
Definition try_finally {A} (body : M A) (final : M unit) : M A :=
  λ st,
    let '(r, st') := body st in
    match final st' with
    | (Ret _, st'') => (r, st'')
    | (Raise e, st'') => (Raise e, st'')
    | (Exit c, st'') => (Exit c, st'')
    end.

(** [for x in xs: body(x)]. *)
Fixpoint for_each {A} (xs : list A) (body : A → M unit) : M unit :=
  match xs with
  | [] => mret tt
  | x :: xs' => body x;; for_each xs' body
  end.

(** [Path.exists] and [os.path.exists]. *)
Definition path_exists (p : path) : M bool :=
  λ st, (Ret (fs_exists (fs st) p), st).

(** [with p.open("r", encoding="utf-8") as f: f.read()]. *)
Definition read_text (p : path) : M string :=
  λ st,
    match fs_lookup (fs st) p with
    | Some (File text) => (Ret (universal_newlines text), st)
    | _ => (Raise OSError, st)
    end.

(** [with p.open("w", encoding="utf-8") as f: f.write(text)]: the directory of
    [p] has to exist and [p] must not be a directory. *)
Definition write_text (p : path) (text : string) : M unit :=
  λ st,
    match fs_lookup (fs st) p with
    | Some (Dir _) => (Raise OSError, st)
    | _ =>
        match fs_put (fs st) p (File text) with
        | Some n => (Ret tt, {| fs := n; trace := (trace st ++ [EvWrite p text])%list |})
        | None => (Raise OSError, st)
        end
    end.

(** [json.load(f)] on the text of [f]. *)
Definition load_json `{JsonCodec} (text : string) : M json :=
  match json_load text with
  | Some j => mret j
  | None => raise JSONDecodeError
  end.

(** [p.mkdir(parents=True, mode=0o776)]. *)
Definition mkdir (p : path) : M unit :=
  λ st,
    match fs_lookup (fs st) p with
    | Some _ => (Raise OSError, st)
    | None =>
        match fs_mkdir_p (fs st) p with
        | Some n => (Ret tt, {| fs := n; trace := (trace st ++ [EvMkdir p])%list |})
        | None => (Raise OSError, st)
        end
    end.

(** The names [p.iterdir()] yields. *)
Definition iterdir (p : path) : M (list string) :=
  λ st,
    match fs_lookup (fs st) p with
    | Some (Dir es) => (Ret (dict_keys es), st)
    | _ => (Raise OSError, st)
    end.

Definition is_dir (p : path) : M bool :=
  λ st, (Ret (fs_is_dir (fs st) p), st).

(** [shutil.rmtree(p)]: [p] has to be a directory. *)
Definition rmtree (p : path) : M unit :=
  λ st,
    match fs_lookup (fs st) p with
    | Some (Dir _) =>
        (Ret tt, {| fs := fs_remove (fs st) p; trace := (trace st ++ [EvRmtree p])%list |})
    | _ => (Raise OSError, st)
    end.

(** [shutil.copytree(src, dst)]: [src] has to be a directory and [dst] must
    not exist; the directories above [dst] are created when missing.  The
    entries of [src] are copied once, which is what [shutil.copytree] does
    for the calls of the script, whose destination is never below its
    source; for a destination below an existing directory of the source
    [shutil.copytree] would descend into its own copy, and the statements
    about a copy ask that the two paths part ways. *)
Definition copytree (src dst : path) : M unit :=
  λ st,
    match fs_lookup (fs st) src, fs_lookup (fs st) dst with
    | Some (Dir es), None =>
        match fs_mkdir_p (fs st) dst with
        | Some n =>
            match fs_put n dst (Dir es) with
            | Some n' =>
                (Ret tt, {| fs := n'; trace := (trace st ++ [EvCopytree src dst])%list |})
            | None => (Raise OSError, st)
            end
        | None => (Raise OSError, st)
        end
    | _, _ => (Raise OSError, st)
    end.

(** [for x in xs: acc = body(acc, x)]. *)
Fixpoint fold_m {A B} (body : B → A → M B) (xs : list A) (acc : B) : M B :=
  match xs with
  | [] => mret acc
  | x :: xs' => acc' ← body acc x; fold_m body xs' acc'
  end.

(** [git] run with [subprocess]: the working directory has to be a directory
    and the program has to start. *)
Definition run_git (w : world) (env : gmap string string) (args : list string)
    (cwd : path) : M (Z * string) :=
  λ st,
    match fs_lookup (fs st) cwd with
    | Some (Dir es) =>
        match git w env args es with
        | Some (code, es', out) =>
            match fs_put (fs st) cwd (Dir es') with
            | Some n =>
                (Ret (code, out), {| fs := n; trace := (trace st ++ [EvGit args cwd])%list |})
            | None => (Raise OSError, st)
            end
        | None => (Raise OSError, st)
        end
    | _ => (Raise OSError, st)
    end.

(** [subprocess.call]: the exit status is returned, whatever it is. *)
Definition subprocess_call (w : world) (env : gmap string string)
    (args : list string) (cwd : path) : M Z :=
  r ← run_git w env args cwd; mret r.1.

(** [subprocess.check_output]: a status other than 0 raises. *)
Definition subprocess_check_output (w : world) (env : gmap string string)
    (args : list string) (cwd : path) : M string :=
  r ← run_git w env args cwd;
  if (r.1 =? 0)%Z then mret r.2 else raise CalledProcessError.

Definition is_str (a : atom) : bool :=
  match a with AStr _ => true | _ => false end.

(** [subprocess.Popen] of pip with the requirements as arguments; an argument
    that is not a string is a [TypeError].  The lines of its standard output
    come with the handle. *)
Definition popen_pip (w : world) (env : gmap string string)
    (requirements : gset atom) : M (Popen * list string) :=
  λ st,
    if forallb is_str (elements requirements) then
      match pip w env requirements with
      | Some lines =>
          (Ret (PipProcess, lines),
           {| fs := fs st; trace := (trace st ++ [EvPopen requirements])%list |})
      | None => (Raise OSError, st)
      end
    else (Raise TypeError, st).

(** ** The script *)

Definition RepoManagerSetting : path := ["data"; "cogs"; "RepoManager"; "settings.json"].
Definition DownloaderSetting : path := ["data"; "cogs"; "Downloader"; "settings.json"].
Definition DownloaderLibFolder : path := ["data"; "cogs"; "Downloader"; "lib"].
Definition CogManagerCogFolder : path := ["data"; "cogs"; "CogManager"; "cogs"].
Definition CogRepoURL : string := "https://github.com/PyLav/Red-Cogs".
Definition PyLavHashFile : path := ["data"; "pylav"; ".hashfile"].

(** The two module-level names that depend on the storage type. *)
Record config := {
  IS_JSON : bool;
  RepoManagerRepoFolder : path
}.

Section script.
Context `{JsonCodec}.

(** Lines 22-33, run when the module is loaded. *)
Definition module_init (w : world) : M config :=
  STORAGE_TYPE ←
    match environ w !! "STORAGE_TYPE" with
    | Some (String c s) => mret (JStr (String c s))
    | _ =>
        text ← read_text ["data"; "config.json"];
        doc ← load_json text;
        docker ← lift (py_getitem doc "docker");
        lift (py_getitem docker "STORAGE_TYPE")
    end;
  up ← match STORAGE_TYPE with
       | JStr s => mret (upper s)
       | _ => raise AttributeError
       end;
  let is_json := String.eqb up "JSON" in
  mret {| IS_JSON := is_json;
          RepoManagerRepoFolder :=
            if is_json then ["data"; "cogs"; "RepoManager"; "repos"; "pylav"]
            else ["data"; "pylav"; "cogs"] |}.

Definition get_git_env (w : world) : gmap string string :=
  <["LANGUAGE" := "C"]>
    (<["LC_ALL" := "C"]>
       (delete "GIT_ASKPASS" (<["GIT_TERMINAL_PROMPT" := "0"]> (environ w)))).

Definition create_or_update_repo_manager_setting : M unit :=
  ex ← path_exists RepoManagerSetting;
  if negb ex then
    log_info "Creating RepoManager setting" [];;
    write_text RepoManagerSetting
      (json_dump
         (JObj [("170708480",
                 JObj [("GLOBAL", JObj [("repos", JObj [("pylav", JStr "master")])])])]))
  else
    log_info "Updating RepoManager setting" [];;
    text ← read_text RepoManagerSetting;
    exiting_data ← load_json text;
    repos ← lift (json_path ["170708480"; "GLOBAL"; "repos"] exiting_data);
    present ← lift (py_contains "pylav" repos);
    if negb present then
      exiting_data' ←
        lift (json_assign ["170708480"; "GLOBAL"; "repos"] "pylav" (JStr "master")
                exiting_data);
      write_text RepoManagerSetting (json_dump exiting_data')
    else mret tt.

Definition create_or_update_downloader_setting (data : json) : M unit :=
  ex ← path_exists DownloaderSetting;
  if negb ex then
    log_info "Creating Downloader setting" [];;
    write_text DownloaderSetting
      (json_dump
         (JObj [("998240343",
                 JObj [("GLOBAL", JObj [("installed_cogs", JObj [("pylav", data)])])])]))
  else
    log_info "Updating Downloader setting" [];;
    text ← read_text DownloaderSetting;
    exiting_data ← load_json text;
    exiting_data' ←
      lift (json_assign ["998240343"; "GLOBAL"; "installed_cogs"] "pylav" data
              exiting_data);
    write_text DownloaderSetting (json_dump exiting_data').

Definition clone_or_update_pylav_repo (w : world) (cfg : config) : M string :=
  let env := get_git_env w in
  let repo := RepoManagerRepoFolder cfg in
  ex ← path_exists (repo </> ".git");
  ((if (ex : bool) then
     log_info "Updating PyLav repo" [];;
     subprocess_call w env ["git"; "reset"; "--hard"; "HEAD"; "-q"] repo;;
     subprocess_call w env ["git"; "clean"; "-f"; "-d"; "-q"] repo;;
     subprocess_call w env ["git"; "pull"; "-q"; "--rebase"; "--autostash"] repo;;
     mret tt
   else
     log_info "Cloning PyLav repo" [];;
     subprocess_call w env ["git"; "clone"; CogRepoURL; path_str repo] repo;;
     mret tt) : M unit);;
  out ← subprocess_check_output w env ["git"; "rev-parse"; "HEAD"] repo;
  mret (strip out).

Definition get_pylav_cogs (cfg : config) : M (list (string * path)) :=
  names ← iterdir (RepoManagerRepoFolder cfg);
  fold_m
    (λ cogs name,
       let cog := RepoManagerRepoFolder cfg </> name in
       d ← is_dir cog;
       if d && (startswith "pl" name || String.eqb name "audio")
       then mret (dict_set name cog cogs)
       else mret cogs)
    names [].

Definition copy_and_overwrite (from_path to_path : path) : M unit :=
  ex ← path_exists to_path;
  ((if (ex : bool) then rmtree to_path else mret tt) : M unit);;
  log_info "Copying %s to %s" [LPath from_path; LPath to_path];;
  copytree from_path to_path.

Definition install_or_update_pylav_cogs (cogs : list (string * path)) : M unit :=
  for_each (dict_values cogs)
    (λ cog, copy_and_overwrite cog (CogManagerCogFolder </> path_name cog)).

Definition get_requirements_for_all_cogs (cogs : list (string * path))
    : M (gset atom) :=
  fold_m
    (λ requirements cog,
       ex ← path_exists (cog </> "info.json");
       if (ex : bool) then
         text ← read_text (cog </> "info.json");
         data ← load_json text;
         declared ← lift (py_contains "requirements" data);
         if (declared : bool) then
           field ← lift (py_getitem data "requirements");
           reqs ← lift (py_iter field);
           fold_m
             (λ requirements req,
                a ← lift (py_hashable req); mret (requirements ∪ {[a]}))
             reqs requirements
         else mret requirements
       else mret requirements)
    (dict_values cogs) ∅.

(** The loop that follows the output of pip: it stops at the end of the
    stream or after the line that starts with the sentinel. *)
Fixpoint tail_output (lines : list string) : M unit :=
  match lines with
  | [] => mret tt
  | line :: rest =>
      match line with
      | EmptyString => mret tt
      | _ =>
          log_info (strip_newlines line) [];;
          if startswith "Successfully installed" line then mret tt
          else tail_output rest
      end
  end.

Definition install_requirements (w : world) (cogs : list (string * path))
    : M (option Popen) :=
  requirements ← get_requirements_for_all_cogs cogs;
  if bool_decide (requirements = ∅) then
    log_info "Requirements installed" [];;
    mret None
  else
    log_info "Installing requirements: %s" [LSet requirements];;
    started ← popen_pip w (get_git_env w) requirements;
    tail_output started.2;;
    mret (Some started.1).

Definition generate_updated_downloader_setting (cogs : list (string * path))
    (commit_hash : string) : json :=
  JObj
    (fold_left
       (λ acc cog,
          dict_set (path_name cog)
            (JObj [("repo_name", JStr "pylav");
                   ("module_name", JStr (path_name cog));
                   ("commit", JStr commit_hash);
                   ("pinned", JBool true)])
            acc)
       (dict_values cogs) []).

Definition get_existing_commit : M string :=
  ex ← path_exists PyLavHashFile;
  if (ex : bool) then read_text PyLavHashFile else mret EmptyString.

Definition update_existing_commit (commit_hash : string) : M unit :=
  write_text PyLavHashFile commit_hash.

(** Lines 177-180. *)
Definition gate (w : world) : M unit :=
  match environ w !! "PCX_DISCORDBOT_TAG" with
  | Some tag =>
      if contains "pylav" tag then mret tt
      else log_info "Skipping PyLav setup and update" [];; sys_exit 0
  | None => log_info "Skipping PyLav setup and update" [];; sys_exit 0
  end.

(** Lines 181-183. *)
Definition make_folders (cfg : config) : M unit :=
  for_each [DownloaderLibFolder; RepoManagerRepoFolder cfg; CogManagerCogFolder]
    (λ folder, ex ← path_exists folder; if (ex : bool) then mret tt else mkdir folder).

(** Lines 191-193, the branch taken when the commit has changed. *)
Definition install_phase (w : world) (cfg : config) (cogs : list (string * path))
    : M (option Popen) :=
  ((if IS_JSON cfg then install_or_update_pylav_cogs cogs else mret tt) : M unit);;
  install_requirements w cogs.

(** Lines 195-205, the body of the [try]. *)
Definition guarded_body (cfg : config) (cogs : list (string * path))
    (current_commit : string) (process : option Popen) : M unit :=
  log_info "Current PyLav-Cogs Commit: %s" [LStr current_commit];;
  let downloader_data := generate_updated_downloader_setting cogs current_commit in
  log_info "Updated Downloader Data: %s" [LJson downloader_data];;
  ((if IS_JSON cfg then
      create_or_update_downloader_setting downloader_data;;
      create_or_update_repo_manager_setting
    else mret tt) : M unit);;
  update_existing_commit current_commit;;
  (match process with
   | Some p =>
       log_info "Waiting for requirements to finish installing" [];;
       emit (EvWait p)
   | None => mret tt
   end : M unit);;
  log_info "PyLav setup and update finished" [].

(** Lines 208-212, the [finally] clause. *)
Definition cleanup (process : option Popen) : M unit :=
  (match process with
   | Some p => emit (EvKill p);; emit (EvTerminate p)
   | None => mret tt
   end : M unit);;
  sys_exit 0.

(** Lines 194-212. *)
Definition guarded_phase (cfg : config) (cogs : list (string * path))
    (current_commit : string) (process : option Popen) : M unit :=
  try_finally
    (try_except
       (guarded_body cfg cogs current_commit process)
       (λ e, log_info "PyLav setup and update failed: %s" [LExn e]))
    (cleanup process).

(** Lines 187-212: the comparison of the two commits and what follows. *)
Definition compare_phase (w : world) (cfg : config) (current_commit existing_commit : string)
    (cogs_mapping : list (string * path)) : M unit :=
  if String.eqb current_commit existing_commit then
    log_info "PyLav is up to date" [];;
    sys_exit 0
  else
    process ← install_phase w cfg cogs_mapping;
    guarded_phase cfg cogs_mapping current_commit process.

(** The whole run: the module-level statements, then the [__main__]
    block. *)
Definition main (w : world) : M unit :=
  cfg ← module_init w;
  gate w;;
  make_folders cfg;;
  current_commit ← clone_or_update_pylav_repo w cfg;
  existing_commit ← get_existing_commit;
  cogs_mapping ← get_pylav_cogs cfg;
  compare_phase w cfg current_commit existing_commit cogs_mapping.

(** The run up to the comparison (lines 22-186), with what it hands to
    [compare_phase]. *)
Definition sync_phase (w : world)
    : M (config * string * string * list (string * path)) :=
  cfg ← module_init w;
  gate w;;
  make_folders cfg;;
  current_commit ← clone_or_update_pylav_repo w cfg;
  existing_commit ← get_existing_commit;
  cogs_mapping ← get_pylav_cogs cfg;
  mret (cfg, current_commit, existing_commit, cogs_mapping).
End script.

(** ** A concrete codec

    A printer in the layout of [json.dump] and a reader of JSON text, for the
    statements that are evaluated on concrete files.  Numbers are integers;
    the escapes are those of the quote, the backslash and the usual control
    characters. *)
Module SimpleJson.
Definition DQ : ascii := ascii_of_nat 34.
Definition BS : ascii := ascii_of_nat 92.
Definition HT : ascii := ascii_of_nat 9.

Fixpoint escape (s : string) : string :=
  match s with
  | EmptyString => EmptyString
  | String c s' =>
      if Ascii.eqb c DQ then String BS (String DQ (escape s'))
      else if Ascii.eqb c BS then String BS (String BS (escape s'))
      else if Ascii.eqb c LF then String BS (String "n" (escape s'))
      else if Ascii.eqb c CR then String BS (String "r" (escape s'))
      else if Ascii.eqb c HT then String BS (String "t" (escape s'))
      else String c (escape s')
  end.

Definition quote (s : string) : string :=
  String DQ (escape s ++ String DQ EmptyString).

Fixpoint join (sep : string) (l : list string) : string :=
  match l with
  | [] => EmptyString
  | [x] => x
  | x :: l' => x ++ sep ++ join sep l'
  end.

Definition digit (n : Z) : ascii := ascii_of_nat (48 + Z.to_nat n).

Fixpoint digits (fuel : nat) (n : Z) (acc : string) : string :=
  match fuel with
  | O => acc
  | S fuel' =>
      let acc' := String (digit (n mod 10)) acc in
      if (n <? 10)%Z then acc' else digits fuel' (n / 10) acc'
  end.

Definition show_Z (n : Z) : string :=
  if (n <? 0)%Z then String "-" (digits (Z.to_nat (- n)) (- n) EmptyString)
  else digits (S (Z.to_nat n)) n EmptyString.

Fixpoint dumps (j : json) : string :=
  match j with
  | JNull => "null"
  | JBool true => "true"
  | JBool false => "false"
  | JNum n => show_Z n
  | JStr s => quote s
  | JArr l => "[" ++ join ", " (map dumps l) ++ "]"
  | JObj d => "{" ++ join ", " (map (λ kv, quote kv.1 ++ ": " ++ dumps kv.2) d) ++ "}"
  end.

Definition is_ws (c : ascii) : bool :=
  Ascii.eqb c " " || Ascii.eqb c LF || Ascii.eqb c CR || Ascii.eqb c HT.

Fixpoint skip_ws (s : string) : string :=
  match s with
  | String c s' => if is_ws c then skip_ws s' else s
  | EmptyString => EmptyString
  end.

(** The text of a string after its opening quote, and what follows it. *)
Fixpoint read_string (s : string) : option (string * string) :=
  match s with
  | EmptyString => None
  | String c s' =>
      if Ascii.eqb c DQ then Some (EmptyString, s')
      else if Ascii.eqb c BS then
        match s' with
        | String e s'' =>
            let c' := if Ascii.eqb e "n" then Some LF
                      else if Ascii.eqb e "r" then Some CR
                      else if Ascii.eqb e "t" then Some HT
                      else if Ascii.eqb e DQ || Ascii.eqb e BS || Ascii.eqb e "/"
                      then Some e else None in
            match c', read_string s'' with
            | Some c', Some (r, rest) => Some (String c' r, rest)
            | _, _ => None
            end
        | EmptyString => None
        end
      else
        match read_string s' with
        | Some (r, rest) => Some (String c r, rest)
        | None => None
        end
  end.

Definition is_digit (c : ascii) : bool :=
  let n := nat_of_ascii c in (48 <=? n)%nat && (n <=? 57)%nat.

Fixpoint read_digits (s : string) (acc : Z) : Z * string :=
  match s with
  | String c s' =>
      if is_digit c
      then read_digits s' (10 * acc + Z.of_nat (nat_of_ascii c - 48))
      else (acc, s)
  | EmptyString => (acc, s)
  end.

Definition read_number (s : string) : option (Z * string) :=
  match s with
  | String "-" (String c s') =>
      if is_digit c then
        let r := read_digits (String c s') 0 in Some (- r.1, r.2)%Z
      else None
  | String c _ =>
      if is_digit c then Some (read_digits s 0) else None
  | EmptyString => None
  end.

Definition read_literal (lit : string) (v : json) (s : string) : option (json * string) :=
  if String.prefix lit s
  then Some (v, String.substring (String.length lit) (String.length s - String.length lit) s)
  else None.

Fixpoint read_value (fuel : nat) (s : string) : option (json * string) :=
  match fuel with
  | O => None
  | S fuel' =>
      match skip_ws s with
      | EmptyString => None
      | String c s' =>
          if Ascii.eqb c DQ then
            match read_string s' with
            | Some (r, rest) => Some (JStr r, rest)
            | None => None
            end
          else if Ascii.eqb c "[" then
            match skip_ws s' with
            | String "]" rest => Some (JArr [], rest)
            | _ =>
                match read_items fuel' s' with
                | Some (l, rest) => Some (JArr l, rest)
                | None => None
                end
            end
          else if Ascii.eqb c "{" then
            match skip_ws s' with
            | String "}" rest => Some (JObj [], rest)
            | _ =>
                match read_members fuel' s' with
                | Some (d, rest) =>
                    Some (JObj (fold_left (λ acc kv, dict_set kv.1 kv.2 acc) d []), rest)
                | None => None
                end
            end
          else if Ascii.eqb c "n" then read_literal "null" JNull (String c s')
          else if Ascii.eqb c "t" then read_literal "true" (JBool true) (String c s')
          else if Ascii.eqb c "f" then read_literal "false" (JBool false) (String c s')
          else
            match read_number (String c s') with
            | Some (n, rest) => Some (JNum n, rest)
            | None => None
            end
      end
  end
with read_items (fuel : nat) (s : string) : option (list json * string) :=
  match fuel with
  | O => None
  | S fuel' =>
      match read_value fuel' s with
      | Some (v, rest) =>
          match skip_ws rest with
          | String "," rest' =>
              match read_items fuel' rest' with
              | Some (l, rest'') => Some (v :: l, rest'')
              | None => None
              end
          | String "]" rest' => Some ([v], rest')
          | _ => None
          end
      | None => None
      end
  end
with read_members (fuel : nat) (s : string) : option (list (string * json) * string) :=
  match fuel with
  | O => None
  | S fuel' =>
      match skip_ws s with
      | String c s' =>
          if Ascii.eqb c DQ then
            match read_string s' with
            | Some (k, rest) =>
                match skip_ws rest with
                | String ":" rest' =>
                    match read_value fuel' rest' with
                    | Some (v, rest'') =>
                        match skip_ws rest'' with
                        | String "," r =>
                            match read_members fuel' r with
                            | Some (d, r') => Some ((k, v) :: d, r')
                            | None => None
                            end
                        | String "}" r => Some ([(k, v)], r)
                        | _ => None
                        end
                    | None => None
                    end
                | _ => None
                end
            | None => None
            end
          else None
      | EmptyString => None
      end
  end.

Definition loads (s : string) : option json :=
  match read_value (2 * String.length s + 2) s with
  | Some (j, rest) =>
      match skip_ws rest with
      | EmptyString => Some j
      | _ => None
      end
  | None => None
  end.

Definition codec : JsonCodec := {| json_load := loads; json_dump := dumps |}.
End SimpleJson.

(** ** Predicates of the statements *)

(** The gate of line 177 lets the run through. *)
Definition gate_open (w : world) : bool :=
  match environ w !! "PCX_DISCORDBOT_TAG" with
  | Some tag => contains "pylav" tag
  | None => false
  end.

(** The module-level statements (lines 22-26) find a storage type: the
    environment has a non-empty [STORAGE_TYPE], or [/data/config.json] is a
    file that holds a JSON document with a string under
    ["docker"]["STORAGE_TYPE"]. *)
Definition storage_type_known `{JsonCodec} (w : world) (root : node) : Prop :=
  (∃ c s, environ w !! "STORAGE_TYPE" = Some (String c s))
  ∨ (∃ text doc docker s,
       fs_lookup root ["data"; "config.json"] = Some (File text)
       ∧ json_load (universal_newlines text) = Some doc
       ∧ py_getitem doc "docker" = Ret docker
       ∧ py_getitem docker "STORAGE_TYPE" = Ret (JStr s)).

(** Two paths part ways: at the first place where they differ, both still
    have a component (neither is a prefix of the other). *)
Fixpoint diverge (p q : list string) : bool :=
  match p, q with
  | a :: p', b :: q' => if String.eqb a b then diverge p' q' else true
  | _, _ => false
  end.

(** The effects that change the file system. *)
Definition is_fs_write (e : event) : bool :=
  match e with
  | EvMkdir _ | EvWrite _ _ | EvRmtree _ | EvCopytree _ _ | EvGit _ _ => true
  | _ => false
  end.

(** The effects of the install path: writing a file (the registries and the
    commit file are the only files the script writes), deleting or copying a
    plugin directory, starting or signalling the installer. *)
Definition is_install_effect (e : event) : bool :=
  match e with
  | EvWrite _ _ | EvRmtree _ | EvCopytree _ _ | EvPopen _
  | EvWait _ | EvKill _ | EvTerminate _ => true
  | _ => false
  end.

Definition is_popen (e : event) : bool :=
  match e with EvPopen _ => true | _ => false end.

(** The set member of a JSON string. *)
Definition string_atom (j : json) : option atom :=
  match j with JStr s => Some (AStr s) | _ => None end.

(** The requirements the manifest of a plugin declares, in the words of the
    specification: the strings of the list under ["requirements"] when the
    manifest exists and has the field, nothing otherwise. *)
Definition declared_requirements `{JsonCodec} (n : node) (cog : path) : gset atom :=
  match fs_lookup n (cog </> "info.json") with
  | Some (File text) =>
      match json_load (universal_newlines text) with
      | Some (JObj d) =>
          match dict_get "requirements" d with
          | Some (JArr l) => list_to_set (omap string_atom l)
          | _ => ∅
          end
      | _ => ∅
      end
  | _ => ∅
  end.

Definition is_jstr (j : json) : bool :=
  match j with JStr _ => true | _ => false end.

(** A plugin has no manifest, or a manifest that is a JSON object whose
    ["requirements"], when present, is a list of strings. *)
Definition manifest_ok `{JsonCodec} (n : node) (cog : path) : bool :=
  match fs_lookup n (cog </> "info.json") with
  | None => true
  | Some (File text) =>
      match json_load (universal_newlines text) with
      | Some (JObj d) =>
          match dict_get "requirements" d with
          | None => true
          | Some (JArr l) => forallb is_jstr l
          | Some _ => false
          end
      | _ => false
      end
  | Some (Dir _) => false
  end.

(** A computation that leaves the state as it is. *)
Definition reads {A} (m : M A) : Prop := ∀ st, (m st).2 = st.

(** A computation whose effects all satisfy [P]. *)
Definition emits {A} (P : event → bool) (m : M A) : Prop :=
  ∀ st, ∃ evs, trace (m st).2 = (trace st ++ evs)%list ∧ forallb P evs = true.

(** A computation that leaves what is found at the path [q] as it is. *)
Definition keeps {A} (q : path) (m : M A) : Prop :=
  ∀ st, fs_lookup (fs (m st).2) q = fs_lookup (fs st) q.

(** The effects of the final clean-up on the installer. *)
Definition cleanup_events (process : option Popen) : list event :=
  match process with
  | Some p => [EvKill p; EvTerminate p]
  | None => []
  end.

(** The log line of the [except] clause. *)
Definition failure_log {A} (r : res A) : list event :=
  match r with
  | Raise x => [EvLog "PyLav setup and update failed: %s" [LExn x]]
  | _ => []
  end.

(** The paths the run up to the comparison leaves alone: those that part
    ways with the three start-up folders, wherever the working copy is. *)
Definition outside_folders (q : path) : bool :=
  diverge DownloaderLibFolder q && diverge CogManagerCogFolder q
  && diverge ["data"; "cogs"; "RepoManager"; "repos"; "pylav"] q
  && diverge ["data"; "pylav"; "cogs"] q.

(** ** Predicates of the further properties *)

Definition is_log (e : event) : bool :=
  match e with EvLog _ _ => true | _ => false end.

(** The log lines with the text [format]. *)
Definition logs (format : string) (e : event) : bool :=
  match e with EvLog f _ => String.eqb f format | _ => false end.

(** A computation that does not bring the path [q] into being. *)
Definition leaves_absent {A} (q : path) (m : M A) : Prop :=
  ∀ st, fs_lookup (fs st) q = None → fs_lookup (fs (m st).2) q = None.

Definition tail_goes_on (line : string) : bool :=
  match line with
  | EmptyString => false
  | _ => negb (startswith "Successfully installed" line)
  end.

(** Nothing but directories has been added. *)
Definition grown (root root' : node) : Prop :=
  (∀ q t, fs_lookup root q = Some (File t) ↔ fs_lookup root' q = Some (File t))
  ∧ (∀ q, fs_is_dir root q = true → fs_is_dir root' q = true).

(** The documents the two registries start from (lines 48 and 63). *)
Definition repo_manager_default : json :=
  JObj [("170708480", JObj [("GLOBAL", JObj [("repos", JObj [("pylav", JStr "master")])])])].

Definition downloader_default (data : json) : json :=
  JObj [("998240343", JObj [("GLOBAL", JObj [("installed_cogs", JObj [("pylav", data)])])])].

(** The record of a plugin in the downloader registry (lines 154-159). *)
Definition cog_record (name commit_hash : string) : json :=
  JObj [("repo_name", JStr "pylav");
        ("module_name", JStr name);
        ("commit", JStr commit_hash);
        ("pinned", JBool true)].

(** The effects of a run whose storage type is not JSON, after the
    comparison: log lines, the installer, and the write of the commit
    [commit_hash] to the commit file. *)
Definition direct_mode_effect (commit_hash : string) (e : event) : bool :=
  match e with
  | EvLog _ _ | EvPopen _ | EvWait _ | EvKill _ | EvTerminate _ => true
  | EvWrite p text => bool_decide (p = PyLavHashFile) && String.eqb text commit_hash
  | _ => false
  end.

(** The values a Python [set] refuses: lists and dictionaries. *)
Definition unhashable (j : json) : bool :=
  match j with JArr _ | JObj _ => true | _ => false end.

(** A value [for req in value] cannot go through. *)
Definition not_iterable (j : json) : bool :=
  match j with JNum _ | JBool _ | JNull => true | _ => false end.

(** The one-character strings of a text, as members of a set. *)
Definition characters (s : string) : gset atom :=
  list_to_set (map (λ c, AStr (String c EmptyString)) (list_ascii_of_string s)).

(** ** Scenarios

    Concrete containers on which the statements are evaluated. *)
Module Scenario.
Import SimpleJson.

(** The manifest [{"requirements": reqs}]. *)
Definition manifest (reqs : list string) : node :=
  File (dumps (JObj [("requirements", JArr (map JStr reqs))])).

(** The working copy [git] leaves behind. *)
Definition checkout : list (string * node) :=
  [ (".git", Dir []);
    ("audio", Dir [("info.json", manifest ["a"; "b"]);
                   ("plugins", Dir [])]);
    ("plcontroller", Dir [("info.json", manifest ["b"; "c"])]);
    ("plutils", Dir []);
    ("plsearch", Dir [("info.json", File (dumps (JObj [("name", JStr "plsearch")])))]);
    ("pylav-core", Dir []);
    ("plnotes.txt", File "notes");
    ("docs", Dir []);
    ("notanaudioplugin_other", Dir []) ].

Definition head : string := "4f2a9c01".

(** A [git] that always succeeds: it leaves [tree] in the working directory
    and reports [commit] for [rev-parse]. *)
Definition git_ok (tree : list (string * node)) (commit : string)
    (env : gmap string string) (args : list string) (entries : list (string * node))
    : option (Z * list (string * node) * string) :=
  match args with
  | ["git"; "rev-parse"; "HEAD"] => Some (0%Z, entries, commit ++ String LF EmptyString)
  | _ => Some (0%Z, tree, EmptyString)
  end.

Definition pip_ok (env : gmap string string) (reqs : gset atom) : option (list string) :=
  Some [ "Collecting packages" ++ String LF EmptyString;
         "Successfully installed packages" ++ String LF EmptyString;
         "trailing line" ++ String LF EmptyString ].

Definition env_pylav : gmap string string :=
  <["PCX_DISCORDBOT_TAG" := "pylav"]> (<["STORAGE_TYPE" := "json"]> ∅).

Definition world_of (env : gmap string string) (tree : list (string * node)) : world :=
  {| environ := env; git := git_ok tree head; pip := pip_ok |}.

Definition start (root : node) : state := {| fs := root; trace := [] |}.

(** A fresh volume: nothing under [/data]. *)
Definition fresh : node := Dir [("data", Dir [])].

(** A volume on which the commit of [head] has been recorded. *)
Definition recorded (commit : string) : node :=
  Dir [("data", Dir [("pylav", Dir [(".hashfile", File commit)])])].

(** A volume with the directory of the commit file, and no commit file. *)
Definition state_dir : node := Dir [("data", Dir [("pylav", Dir [])])].

(** A commit text with a carriage return in it. *)
Definition with_cr : string := String "a" (String CR (String "b" EmptyString)).

(** An environment with the storage type and without the gate variable. *)
Definition env_no_gate : gmap string string := <["STORAGE_TYPE" := "json"]> ∅.

(** A plugin whose manifest is not JSON. *)
Definition broken_checkout : list (string * node) :=
  [ (".git", Dir []); ("audio", Dir [("info.json", File "{requirements")]) ].

(** A volume whose downloader registry is not JSON. *)
Definition broken_registry : node :=
  Dir [("data",
        Dir [("cogs", Dir [("Downloader", Dir [("settings.json", File "]")])]);
             ("pylav", Dir [])])].

Definition repo_manager_doc : json :=
  JObj [("170708480",
         JObj [("GLOBAL", JObj [("repos", JObj [("other", JStr "main");
                                                ("pylav", JStr "master")])])]);
        ("1", JNum 7)].

Definition with_repo_manager : node :=
  Dir [("data",
        Dir [("cogs", Dir [("RepoManager",
                            Dir [("settings.json", File (dumps repo_manager_doc))])])])].

Definition downloader_doc : json :=
  JObj [("schema", JNum 2);
        ("998240343",
         JObj [("GLOBAL",
                JObj [("installed_cogs",
                       JObj [("pylav", JObj [("old", JNull)]);
                             ("otherrepo", JObj [("cog", JObj [("pinned", JBool false)])])]);
                      ("installed_libraries", JObj [])])])].

Definition with_downloader : node :=
  Dir [("data",
        Dir [("cogs", Dir [("Downloader",
                            Dir [("settings.json", File (dumps downloader_doc))])])])].

Definition json_cfg : config :=
  {| IS_JSON := true;
     RepoManagerRepoFolder := ["data"; "cogs"; "RepoManager"; "repos"; "pylav"] |}.

Definition other_cfg : config :=
  {| IS_JSON := false; RepoManagerRepoFolder := ["data"; "pylav"; "cogs"] |}.

(** A volume that holds the working copy, for the storage type that is not
    JSON. *)
Definition with_checkout (tree : list (string * node)) : node :=
  Dir [("data", Dir [("pylav", Dir [("cogs", Dir tree)])])].
End Scenario.

(** Further containers, for the properties beyond the statements. *)
Module Cases.
Import SimpleJson Scenario.

(** A repo manager registry that lists another repository only. *)
Definition registry_without_pylav : json :=
  JObj [("170708480", JObj [("GLOBAL", JObj [("repos", JObj [("other", JStr "main")])])]);
        ("1", JNum 7)].

Definition with_other_repos : node :=
  Dir [("data",
        Dir [("cogs", Dir [("RepoManager",
                            Dir [("settings.json", File (dumps registry_without_pylav))])])])].

(** The directories of the two registries, without a settings file. *)
Definition registry_dirs : node :=
  Dir [("data", Dir [("cogs", Dir [("RepoManager", Dir []); ("Downloader", Dir [])])])].

(** A downloader registry that is an empty object. *)
Definition empty_registry : node :=
  Dir [("data",
        Dir [("cogs", Dir [("Downloader", Dir [("settings.json", File (dumps (JObj [])))])])])].

(** A [git] without a network: every command fails with status 128 and
    leaves the directory as it is. *)
Definition git_offline (env : gmap string string) (args : list string)
    (entries : list (string * node)) : option (Z * list (string * node) * string) :=
  Some (128%Z, entries, EmptyString).

Definition offline : world :=
  {| environ := env_pylav; git := git_offline; pip := pip_ok |}.

(** A world in which pip cannot be started. *)
Definition no_pip : world :=
  {| environ := env_pylav; git := git_ok checkout head; pip := λ _ _, None |}.

(** A volume with the working copy and an older copy of a plugin in the
    plugin folder. *)
Definition installed_volume : node :=
  Dir [("data",
        Dir [("pylav", Dir [("cogs", Dir checkout)]);
             ("cogs",
              Dir [("CogManager",
                    Dir [("cogs", Dir [("audio", Dir [("stale.py", File "old")])])])])])].

(** A volume on which a regular file has the place of a plugin. *)
Definition file_in_the_way : node :=
  Dir [("data",
        Dir [("pylav", Dir [("cogs", Dir checkout)]);
             ("cogs", Dir [("CogManager", Dir [("cogs", Dir [("audio", File "x")])])])])].

(** A working copy whose one plugin declares [field] as its requirements. *)
Definition declaring (field : json) : node :=
  with_checkout
    [("audio", Dir [("info.json", File (dumps (JObj [("requirements", field)])))])].

Definition audio_only : list (string * path) :=
  [("audio", ["data"; "pylav"; "cogs"; "audio"])].

(** The first run of a container whose storage type is JSON on a fresh
    volume, and the run that follows it on the volume the first has left,
    with the repository at the same commit. *)
Definition first_run : res unit * state :=
  @main SimpleJson.codec (world_of env_pylav checkout) (start fresh).

Definition second_run : res unit * state :=
  @main SimpleJson.codec (world_of env_pylav checkout) (start (fs first_run.2)).
End Cases.

(** * Properties *)

(** ** Dictionaries and documents *)

Lemma dict_get_set_eq {V} (k : string) (v : V) d : dict_get k (dict_set k v d) = Some v.
Proof.
  induction d as [|[k' v'] d IH]; simpl.
  - by rewrite String.eqb_refl.
  - destruct (String.eqb k k') eqn:E; simpl; rewrite E; [done | apply IH].
Qed.

Lemma dict_get_set_ne {V} (k k0 : string) (v : V) d :
  k ≠ k0 → dict_get k (dict_set k0 v d) = dict_get k d.
Proof.
  intros Hne. induction d as [|[k' v'] d IH]; simpl.
  - destruct (String.eqb_spec k k0); [done | reflexivity].
  - destruct (String.eqb_spec k0 k') as [->|Hk]; simpl.
    + by destruct (String.eqb_spec k k').
    + destruct (String.eqb k k'); [reflexivity | apply IH].
Qed.

Lemma diverge_cons_inv (a : string) p q :
  diverge (a :: p) q = true →
  ∃ b q', q = b :: q' ∧ (a ≠ b ∨ (a = b ∧ diverge p q' = true)).
Proof.
  destruct q as [|b q']; simpl; [done|].
  destruct (String.eqb_spec a b) as [->|Hne]; intros Hd; exists b, q'; split; auto.
Qed.

Lemma py_getitem_setitem_ne doc doc' k0 v k :
  py_setitem doc k0 v = Ret doc' → k ≠ k0 → py_getitem doc' k = py_getitem doc k.
Proof.
  destruct doc; simpl; try done.
  intros [= <-] Hne. simpl. by rewrite dict_get_set_ne.
Qed.

Lemma py_getitem_setitem_eq doc doc' k v :
  py_setitem doc k v = Ret doc' → py_getitem doc' k = Ret v.
Proof.
  destruct doc; simpl; try done.
  intros [= <-]. simpl. by rewrite dict_get_set_eq.
Qed.

(** An assignment through a chain of keys is read back through the same
    chain. *)
Lemma json_assign_path_eq keys k v doc doc' :
  json_assign keys k v doc = Ret doc' → json_path (keys ++ [k])%list doc' = Ret v.
Proof.
  revert doc doc'. induction keys as [|key keys IH]; intros doc doc'; simpl.
  - intros Hset. by rewrite (py_getitem_setitem_eq _ _ _ _ Hset).
  - destruct (py_getitem doc key) as [child| |] eqn:Hget; simpl; try done.
    destruct (json_assign keys k v child) as [child'| |] eqn:Hrec; simpl; try done.
    intros Hset. rewrite (py_getitem_setitem_eq _ _ _ _ Hset). simpl.
    by apply (IH child).
Qed.

(** An assignment through a chain of keys leaves what is read through every
    chain that parts ways with it as it was. *)
Lemma json_assign_frame keys k v doc doc' q :
  json_assign keys k v doc = Ret doc' →
  diverge (keys ++ [k])%list q = true →
  json_path q doc' = json_path q doc.
Proof.
  revert doc doc' q. induction keys as [|key keys IH]; intros doc doc' q Hset Hd.
  - simpl in Hset.
    apply (diverge_cons_inv k []) in Hd as (b & q' & -> & [Hne|[_ Hd]]).
    + simpl. by rewrite (py_getitem_setitem_ne _ _ _ _ _ Hset).
    + by destruct q'.
  - simpl in Hset.
    destruct (py_getitem doc key) as [child| |] eqn:Hget; simpl in Hset; try done.
    destruct (json_assign keys k v child) as [child'| |] eqn:Hrec; simpl in Hset; try done.
    apply (diverge_cons_inv key (keys ++ [k])%list) in Hd
      as (b & q' & -> & [Hne|[<- Hd]]).
    + simpl. by rewrite (py_getitem_setitem_ne _ _ _ _ _ Hset).
    + simpl. rewrite (py_getitem_setitem_eq _ _ _ _ Hset), Hget. simpl.
      by apply (IH child).
Qed.

(** ** The monad *)

Lemma bind_ret {A B} (m : M A) (f : A → M B) st a st' :
  m st = (Ret a, st') → (m ≫= f) st = f a st'.
Proof. intros Hm. unfold mbind, M_bind. by rewrite Hm. Qed.

Lemma bind_raise {A B} (m : M A) (f : A → M B) st e st' :
  m st = (Raise e, st') → (m ≫= f) st = (Raise e, st').
Proof. intros Hm. unfold mbind, M_bind. by rewrite Hm. Qed.

Lemma bind_exit {A B} (m : M A) (f : A → M B) st c st' :
  m st = (Exit c, st') → (m ≫= f) st = (Exit c, st').
Proof. intros Hm. unfold mbind, M_bind. by rewrite Hm. Qed.

(** One step of a computation whose first action returns. *)
Ltac mstep tac := erewrite bind_ret; [ | solve [tac]]; cbv beta iota.

(** ** The file system *)

Lemma fs_lookup_app n p q :
  fs_lookup n (p ++ q)%list =
  match fs_lookup n p with Some c => fs_lookup c q | None => None end.
Proof.
  revert n. induction p as [|k p IH]; intros n; simpl; [done|].
  destruct n as [|es]; [done|]. destruct (dict_get k es); [apply IH | done].
Qed.

Lemma fs_put_lookup_eq n p x n' : fs_put n p x = Some n' → fs_lookup n' p = Some x.
Proof.
  revert n n'. induction p as [|k p IH]; intros n n'; simpl.
  - by intros [= <-].
  - destruct n as [|es]; [done|]. destruct p as [|k' p].
    + intros [= <-]. simpl. by rewrite dict_get_set_eq.
    + destruct (dict_get k es) as [c|]; [|done].
      destruct (fs_put c (k' :: p) x) as [c'|] eqn:Hc; [|done].
      intros [= <-]. cbn [fs_lookup]. rewrite dict_get_set_eq. by apply (IH c).
Qed.

Lemma fs_put_exists n p y x : fs_lookup n p = Some y → is_Some (fs_put n p x).
Proof.
  revert n. induction p as [|k p IH]; intros n; simpl; [by eauto|].
  destruct n as [|es]; [done|]. destruct (dict_get k es) as [c|] eqn:Hk; [|done].
  destruct p as [|k' p]; [by eauto|].
  intros Hc. destruct (IH c Hc) as [c' Hc']. rewrite Hc'. by eauto.
Qed.

(** A name can be bound in every directory that exists. *)
Lemma fs_put_child n p es k x :
  fs_lookup n p = Some (Dir es) → is_Some (fs_put n (p </> k) x).
Proof.
  unfold path_child. revert n. induction p as [|k' p IH]; intros n; simpl.
  - intros [= ->]. by eauto.
  - destruct n as [|es']; [done|]. destruct (dict_get k' es') as [c|] eqn:Hk; [|done].
    intros Hc. destruct (IH c Hc) as [c' Hc'].
    destruct (p ++ [k])%list eqn:Hp; [by destruct p|].
    rewrite Hc'. by eauto.
Qed.

(** Binding a name leaves every path that parts ways with it as it was. *)
Lemma fs_put_frame n p x n' q :
  fs_put n p x = Some n' → diverge p q = true → fs_lookup n' q = fs_lookup n q.
Proof.
  revert n n' q. induction p as [|k p IH]; intros n n' q Hput Hd; [done|].
  apply diverge_cons_inv in Hd as (b & q' & -> & Hd).
  simpl in Hput. destruct n as [|es]; [done|]. destruct p as [|k' p].
  - injection Hput as <-. destruct Hd as [Hne|[_ Hd]]; [|done].
    simpl. by rewrite dict_get_set_ne.
  - destruct (dict_get k es) as [c|] eqn:Hk; [|done].
    destruct (fs_put c (k' :: p) x) as [c'|] eqn:Hc; [|done].
    injection Hput as <-. destruct Hd as [Hne|[<- Hd]].
    + simpl. by rewrite dict_get_set_ne.
    + cbn [fs_lookup]. rewrite dict_get_set_eq, Hk. by apply (IH c).
Qed.

(** Creating directories leaves every path that parts ways with theirs as it
    was. *)
Lemma fs_mkdir_p_frame n p n' q :
  fs_mkdir_p n p = Some n' → diverge p q = true → fs_lookup n' q = fs_lookup n q.
Proof.
  revert n n' q. induction p as [|k p IH]; intros n n' q Hmk Hd; [done|].
  apply diverge_cons_inv in Hd as (b & q' & -> & Hd).
  simpl in Hmk. destruct n as [|es]; [done|].
  destruct (fs_mkdir_p (default (Dir []) (dict_get k es)) p) as [c'|] eqn:Hc; [|done].
  injection Hmk as <-. destruct Hd as [Hne|[<- Hd]].
  - simpl. by rewrite dict_get_set_ne.
  - cbn [fs_lookup]. rewrite dict_get_set_eq.
    rewrite (IH _ _ _ Hc Hd). destruct (dict_get k es) as [c|]; simpl; [done|].
    by destruct p, q'.
Qed.

Lemma has_cr_universal_newlines s : has_cr s = false → universal_newlines s = s.
Proof.
  induction s as [|c s IH]; simpl; [done|].
  destruct (Ascii.eqb c CR); simpl; [done|]. intros Hs. by rewrite IH.
Qed.

(** ** The registries *)

Lemma json_assign_ok keys k v doc d :
  json_path keys doc = Ret (JObj d) → ∃ doc', json_assign keys k v doc = Ret doc'.
Proof.
  revert doc. induction keys as [|key keys IH]; intros doc; simpl.
  - intros [= ->]. simpl. by eauto.
  - destruct doc; simpl; try done.
    destruct (dict_get key members) as [child|]; simpl; [|done].
    intros Hp. destruct (IH child Hp) as [child' ->]. simpl. by eauto.
Qed.

Section registries.
Context `{JsonCodec}.

(** C7. The update of the repo-manager registry is idempotent: when the
    settings file exists and its document already holds a branch for
    ["pylav"] under ["170708480"]["GLOBAL"]["repos"] (["master"], or any
    other value), the update returns without writing anything; the file
    system is left as it was. *)
Theorem repo_manager_update_idempotent (st : state) text doc repos branch :
  fs_lookup (fs st) RepoManagerSetting = Some (File text) →
  json_load (universal_newlines text) = Some doc →
  json_path ["170708480"; "GLOBAL"; "repos"] doc = Ret (JObj repos) →
  dict_get "pylav" repos = Some branch →
  create_or_update_repo_manager_setting st =
    (Ret tt,
     {| fs := fs st;
        trace := (trace st ++ [EvLog "Updating RepoManager setting" []])%list |}).
Proof.
  intros Hfile Hload Hrepos Hpylav.
  unfold create_or_update_repo_manager_setting.
  mstep ltac:(unfold path_exists, fs_exists; rewrite Hfile; reflexivity).
  cbn [negb]. unfold log_info.
  mstep ltac:(reflexivity).
  mstep ltac:(unfold read_text; cbn [fs]; rewrite Hfile; reflexivity).
  mstep ltac:(unfold load_json; rewrite Hload; reflexivity).
  mstep ltac:(unfold lift; rewrite Hrepos; reflexivity).
  mstep ltac:(unfold lift, py_contains, dict_mem; rewrite Hpylav; reflexivity).
  reflexivity.
Qed.

(** C9. The update of the downloader registry, when the settings file
    exists and its document has an object under
    ["998240343"]["GLOBAL"]["installed_cogs"]: the file is written back
    with a document in which ["pylav"] of that object is the new payload,
    and every chain of keys that parts ways with
    ["998240343"]["GLOBAL"]["installed_cogs"]["pylav"] reads what it read in
    the old document. *)
Theorem downloader_update_frame (st : state) text doc installed data :
  fs_lookup (fs st) DownloaderSetting = Some (File text) →
  json_load (universal_newlines text) = Some doc →
  json_path ["998240343"; "GLOBAL"; "installed_cogs"] doc = Ret (JObj installed) →
  ∃ doc' root',
    create_or_update_downloader_setting data st =
      (Ret tt,
       {| fs := root';
          trace := (trace st ++ [EvLog "Updating Downloader setting" []]
                             ++ [EvWrite DownloaderSetting (json_dump doc')])%list |})
    ∧ fs_lookup root' DownloaderSetting = Some (File (json_dump doc'))
    ∧ json_path ["998240343"; "GLOBAL"; "installed_cogs"; "pylav"] doc' = Ret data
    ∧ ∀ q, diverge ["998240343"; "GLOBAL"; "installed_cogs"; "pylav"] q = true →
           json_path q doc' = json_path q doc.
Proof.
  intros Hfile Hload Hinstalled.
  destruct (json_assign_ok _ "pylav" data _ _ Hinstalled) as [doc' Hassign].
  destruct (fs_put_exists _ _ _ (File (json_dump doc')) Hfile) as [root' Hput].
  exists doc', root'. split; [|split; [|split]].
  - unfold create_or_update_downloader_setting.
    mstep ltac:(unfold path_exists, fs_exists; rewrite Hfile; reflexivity).
    cbn [negb]. unfold log_info.
    mstep ltac:(reflexivity).
    mstep ltac:(unfold read_text; cbn [fs]; rewrite Hfile; reflexivity).
    mstep ltac:(unfold load_json; rewrite Hload; reflexivity).
    mstep ltac:(unfold lift; rewrite Hassign; reflexivity).
    unfold write_text. cbn [fs trace]. rewrite Hfile, Hput.
    by rewrite <- app_assoc.
  - by apply (fs_put_lookup_eq _ _ _ _ Hput).
  - by apply (json_assign_path_eq _ _ _ _ _ Hassign).
  - intros q Hq. by apply (json_assign_frame _ _ _ _ _ _ Hassign).
Qed.
End registries.

(** ** Computations that only read *)

Lemma reads_eq {A} (m : M A) st r st' : reads m → m st = (r, st') → st' = st.
Proof. intros Hm Heq. specialize (Hm st). by rewrite Heq in Hm. Qed.

Lemma reads_ret {A} (a : A) : reads (mret a).
Proof. by intros st. Qed.

Lemma reads_raise {A} e : reads (@raise A e).
Proof. by intros st. Qed.

Lemma reads_lift {A} (r : res A) : reads (lift r).
Proof. by intros st. Qed.

Lemma reads_bind {A B} (m : M A) (f : A → M B) :
  reads m → (∀ a, reads (f a)) → reads (m ≫= f).
Proof.
  intros Hm Hf st. unfold mbind, M_bind.
  specialize (Hm st). destruct (m st) as [[a|e|c] st']; simpl in *; subst; try done.
  apply Hf.
Qed.

Lemma reads_path_exists p : reads (path_exists p).
Proof. by intros st. Qed.

Lemma reads_is_dir p : reads (is_dir p).
Proof. by intros st. Qed.

Lemma reads_read_text p : reads (read_text p).
Proof. intros st. unfold read_text. by destruct (fs_lookup (fs st) p) as [[]|]. Qed.

Lemma reads_iterdir p : reads (iterdir p).
Proof. intros st. unfold iterdir. by destruct (fs_lookup (fs st) p) as [[]|]. Qed.

Lemma reads_load_json `{JsonCodec} text : reads (load_json text).
Proof. intros st. unfold load_json. by destruct (json_load text). Qed.

Lemma reads_fold_m {A B} (body : B → A → M B) xs acc :
  (∀ b a, reads (body b a)) → reads (fold_m body xs acc).
Proof.
  intros Hb. revert acc. induction xs as [|x xs IH]; intros acc; simpl.
  - apply reads_ret.
  - apply reads_bind; [apply Hb | intros b; apply IH].
Qed.

Create HintDb reads discriminated.
#[export] Hint Resolve reads_ret reads_raise reads_lift reads_path_exists reads_is_dir
  reads_read_text reads_iterdir reads_load_json : reads.

Ltac solve_reads :=
  repeat first
    [ progress intros
    | apply reads_bind
    | apply reads_fold_m
    | solve [auto with reads]
    | match goal with
      | |- reads (if ?b then _ else _) => destruct b
      | |- reads (match ?x with _ => _ end) => destruct x
      end ].

Lemma reads_module_init `{JsonCodec} w : reads (module_init w).
Proof. unfold module_init. solve_reads. Qed.

Lemma reads_get_existing_commit `{JsonCodec} : reads get_existing_commit.
Proof. unfold get_existing_commit. solve_reads. Qed.

Lemma reads_get_pylav_cogs `{JsonCodec} cfg : reads (get_pylav_cogs cfg).
Proof. unfold get_pylav_cogs. solve_reads. Qed.

Lemma reads_get_requirements `{JsonCodec} cogs : reads (get_requirements_for_all_cogs cogs).
Proof. unfold get_requirements_for_all_cogs. solve_reads. Qed.

(** ** What a computation does to the trace and to a path *)

Lemma bind_inv_ret {A B} (m : M A) (f : A → M B) st b st' :
  (m ≫= f) st = (Ret b, st') →
  ∃ a st0, m st = (Ret a, st0) ∧ f a st0 = (Ret b, st').
Proof.
  unfold mbind, M_bind. destruct (m st) as [[a|e|c] st0]; try done. by eauto.
Qed.

Lemma emits_reads {A} P (m : M A) : reads m → emits P m.
Proof. intros Hm st. exists []. rewrite Hm. by rewrite app_nil_r. Qed.

Lemma emits_emit P e : P e = true → emits P (emit e).
Proof. intros He st. exists [e]. simpl. by rewrite He. Qed.

Lemma emits_sys_exit {A} P c : emits P (@sys_exit A c).
Proof. intros st. exists []. simpl. by rewrite app_nil_r. Qed.

Lemma emits_bind {A B} P (m : M A) (f : A → M B) :
  emits P m → (∀ a, emits P (f a)) → emits P (m ≫= f).
Proof.
  intros Hm Hf st. unfold mbind, M_bind.
  destruct (Hm st) as (evs & Ht & Hevs).
  destruct (m st) as [[a|e|c] st']; simpl in *; try by eauto.
  destruct (Hf a st') as (evs' & Ht' & Hevs').
  exists (evs ++ evs')%list. rewrite Ht', Ht, app_assoc. split; [done|].
  by rewrite forallb_app, Hevs, Hevs'.
Qed.

Lemma emits_for_each {A} P (xs : list A) (body : A → M unit) :
  (∀ x, emits P (body x)) → emits P (for_each xs body).
Proof.
  intros Hb. induction xs as [|x xs IH]; simpl.
  - apply emits_reads, reads_ret.
  - apply emits_bind; [apply Hb | intros _; apply IH].
Qed.

Lemma emits_mkdir P p : P (EvMkdir p) = true → emits P (mkdir p).
Proof.
  intros HP st. unfold mkdir.
  destruct (fs_lookup (fs st) p); [exists []; simpl; by rewrite app_nil_r|].
  destruct (fs_mkdir_p (fs st) p); [|exists []; simpl; by rewrite app_nil_r].
  exists [EvMkdir p]. simpl. by rewrite HP.
Qed.

Lemma emits_run_git P w env args cwd :
  P (EvGit args cwd) = true → emits P (run_git w env args cwd).
Proof.
  intros HP st. unfold run_git.
  destruct (fs_lookup (fs st) cwd) as [[|es]|];
    try (exists []; simpl; by rewrite app_nil_r).
  destruct (git w env args es) as [[[code es'] out]|];
    [|exists []; simpl; by rewrite app_nil_r].
  destruct (fs_put (fs st) cwd (Dir es')); [|exists []; simpl; by rewrite app_nil_r].
  exists [EvGit args cwd]. simpl. by rewrite HP.
Qed.

Lemma keeps_reads {A} q (m : M A) : reads m → keeps q m.
Proof. intros Hm st. by rewrite Hm. Qed.

Lemma keeps_emit q e : keeps q (emit e).
Proof. by intros st. Qed.

Lemma keeps_sys_exit {A} q c : keeps q (@sys_exit A c).
Proof. by intros st. Qed.

Lemma keeps_bind {A B} q (m : M A) (f : A → M B) :
  keeps q m → (∀ a, keeps q (f a)) → keeps q (m ≫= f).
Proof.
  intros Hm Hf st. unfold mbind, M_bind. specialize (Hm st).
  destruct (m st) as [[a|e|c] st']; simpl in *; try done.
  by rewrite Hf.
Qed.

Lemma keeps_for_each {A} q (xs : list A) (body : A → M unit) :
  (∀ x, In x xs → keeps q (body x)) → keeps q (for_each xs body).
Proof.
  induction xs as [|x xs IH]; intros Hb; simpl.
  - apply keeps_reads, reads_ret.
  - apply keeps_bind; [apply Hb; by left | intros _; apply IH].
    intros y Hy. apply Hb. by right.
Qed.

Lemma keeps_mkdir q p : diverge p q = true → keeps q (mkdir p).
Proof.
  intros Hd st. unfold mkdir. destruct (fs_lookup (fs st) p); [done|].
  destruct (fs_mkdir_p (fs st) p) as [n|] eqn:Hn; [|done].
  simpl. by apply (fs_mkdir_p_frame _ _ _ _ Hn).
Qed.

Lemma keeps_run_git q w env args cwd :
  diverge cwd q = true → keeps q (run_git w env args cwd).
Proof.
  intros Hd st. unfold run_git. destruct (fs_lookup (fs st) cwd) as [[|es]|]; try done.
  destruct (git w env args es) as [[[code es'] out]|]; [|done].
  destruct (fs_put (fs st) cwd (Dir es')) as [n|] eqn:Hn; [|done].
  simpl. by apply (fs_put_frame _ _ _ _ _ Hn).
Qed.

Ltac solve_emits :=
  repeat first
    [ progress intros
    | apply emits_bind
    | apply emits_for_each
    | apply emits_sys_exit
    | apply emits_emit; solve [auto]
    | apply emits_mkdir; solve [auto]
    | apply emits_run_git; solve [auto]
    | apply emits_reads; solve [solve_reads]
    | match goal with
      | |- emits _ (if ?b then _ else _) => destruct b
      | |- emits _ (match ?x with _ => _ end) => destruct x
      end ].

Ltac solve_keeps :=
  repeat first
    [ progress intros
    | apply keeps_bind
    | apply keeps_sys_exit
    | apply keeps_emit
    | apply keeps_mkdir; solve [auto]
    | apply keeps_run_git; solve [auto]
    | apply keeps_reads; solve [solve_reads]
    | match goal with
      | |- keeps _ (if ?b then _ else _) => destruct b
      | |- keeps _ (match ?x with _ => _ end) => destruct x
      end ].

(** ** The run up to the comparison *)

Section sync.
Context `{JsonCodec}.

(** The working copy is in one of two places. *)
Lemma module_init_folder w st cfg st' :
  module_init w st = (Ret cfg, st') →
  st' = st ∧
  (RepoManagerRepoFolder cfg = ["data"; "cogs"; "RepoManager"; "repos"; "pylav"]
   ∨ RepoManagerRepoFolder cfg = ["data"; "pylav"; "cogs"]).
Proof.
  intros Hinit. split; [by apply (reads_eq _ _ _ _ (reads_module_init w) Hinit)|].
  unfold module_init in Hinit.
  apply bind_inv_ret in Hinit as (storage & st0 & _ & Hinit).
  apply bind_inv_ret in Hinit as (up & st1 & _ & Hinit).
  injection Hinit as <- _. simpl. destruct (String.eqb up "JSON"); auto.
Qed.

Lemma py_getitem_no_exit j k c : py_getitem j k ≠ Exit c.
Proof. destruct j; simpl; try done. by destruct (dict_get k members). Qed.

(** The module-level statements return when they find a storage type, and
    raise when they do not. *)
Lemma module_init_cases w st :
  (storage_type_known w (fs st) ∧ ∃ cfg, module_init w st = (Ret cfg, st))
  ∨ (¬ storage_type_known w (fs st) ∧ ∃ x, module_init w st = (Raise x, st)).
Proof.
  assert (∀ v, environ w !! "STORAGE_TYPE" = v →
               (∃ c s, v = Some (String c s)) ∨ v = None ∨ v = Some EmptyString)
    as Henv by (intros [[|c s]|] _; by eauto).
  destruct (Henv _ eq_refl) as [(c & s & Hset)|Hunset].
  { left. split; [left; by eauto|]. unfold module_init. rewrite Hset. by eauto. }
  unfold module_init. clear Henv.
  set (finish := λ STORAGE_TYPE : json, _ : M config).
  assert (∀ x, ¬ (∃ c s, environ w !! "STORAGE_TYPE" = Some (String c s)) ∧
               (match environ w !! "STORAGE_TYPE" with
                | Some (String c s) => mret (JStr (String c s))
                | _ =>
                    text ← read_text ["data"; "config.json"];
                    doc ← load_json text;
                    docker ← lift (py_getitem doc "docker");
                    lift (py_getitem docker "STORAGE_TYPE")
                end : M json) x =
               (text ← read_text ["data"; "config.json"];
                doc ← load_json text;
                docker ← lift (py_getitem doc "docker");
                lift (py_getitem docker "STORAGE_TYPE")) x) as Hconfig.
  { intros x. destruct Hunset as [-> | ->]; (split; [by intros (? & ? & ?)|done]). }
  unfold storage_type_known.
  destruct (fs_lookup (fs st) ["data"; "config.json"]) as [[text|]|] eqn:Hfile.
  2,3: right; split;
    [by intros [Hs|(? & ? & ? & ? & ? & _)]; [apply (proj1 (Hconfig st))|]|];
    exists OSError; apply bind_raise; rewrite (proj2 (Hconfig st));
    apply bind_raise; by unfold read_text; rewrite Hfile.
  assert (read_text ["data"; "config.json"] st = (Ret (universal_newlines text), st))
    as Hread by (by unfold read_text; rewrite Hfile).
  destruct (json_load (universal_newlines text)) as [doc|] eqn:Hload.
  2: { right. split.
       - intros [Hs|(? & ? & ? & ? & [= <-] & ? & _)]; [by apply (proj1 (Hconfig st))|].
         congruence.
       - exists JSONDecodeError. apply bind_raise. rewrite (proj2 (Hconfig st)).
         rewrite (bind_ret _ _ _ _ _ Hread). apply bind_raise.
         unfold load_json. by rewrite Hload. }
  assert (load_json (universal_newlines text) st = (Ret doc, st))
    as Hdoc by (by unfold load_json; rewrite Hload).
  destruct (py_getitem doc "docker") as [docker|x|x] eqn:Hdocker;
    [| | by apply py_getitem_no_exit in Hdocker].
  2: { right. split.
       - intros [Hs|(? & ? & ? & ? & [= <-] & ? & ? & _)];
           [by apply (proj1 (Hconfig st))|]. congruence.
       - exists x. apply bind_raise. rewrite (proj2 (Hconfig st)).
         rewrite (bind_ret _ _ _ _ _ Hread), (bind_ret _ _ _ _ _ Hdoc).
         apply bind_raise. unfold lift. by rewrite Hdocker. }
  destruct (py_getitem docker "STORAGE_TYPE") as [value|x|x] eqn:Hvalue;
    [| | by apply py_getitem_no_exit in Hvalue].
  2: { right. split.
       - intros [Hs|(? & ? & ? & ? & [= <-] & ? & ? & ?)];
           [by apply (proj1 (Hconfig st))|]. congruence.
       - exists x. apply bind_raise. rewrite (proj2 (Hconfig st)).
         rewrite (bind_ret _ _ _ _ _ Hread), (bind_ret _ _ _ _ _ Hdoc).
         rewrite (bind_ret _ _ st docker st) by (by unfold lift; rewrite Hdocker).
         unfold lift. by rewrite Hvalue. }
  assert ((match environ w !! "STORAGE_TYPE" with
           | Some (String c s) => mret (JStr (String c s))
           | _ =>
               text ← read_text ["data"; "config.json"];
               doc ← load_json text;
               docker ← lift (py_getitem doc "docker");
               lift (py_getitem docker "STORAGE_TYPE")
           end : M json) st = (Ret value, st)) as Hstorage.
  { rewrite (proj2 (Hconfig st)).
    rewrite (bind_ret _ _ _ _ _ Hread), (bind_ret _ _ _ _ _ Hdoc).
    rewrite (bind_ret _ _ st docker st) by (by unfold lift; rewrite Hdocker).
    unfold lift. by rewrite Hvalue. }
  rewrite (bind_ret _ _ _ _ _ Hstorage). unfold finish.
  destruct value as [| | |s| |];
    try (right; split;
         [intros [Hs|(? & ? & ? & ? & [= <-] & ? & ? & ?)];
            [by apply (proj1 (Hconfig st))|]; congruence
         | by exists AttributeError]).
  left. split; [right; by eauto 10 | by eauto].
Qed.

Lemma emits_gate P w : (∀ f a, P (EvLog f a) = true) → emits P (gate w).
Proof. intros HP. unfold gate, log_info. solve_emits. Qed.

Lemma emits_make_folders P cfg :
  (∀ p, P (EvMkdir p) = true) → emits P (make_folders cfg).
Proof. intros HP. unfold make_folders. solve_emits. Qed.

Lemma emits_clone_or_update P w cfg :
  (∀ f a, P (EvLog f a) = true) → (∀ a c, P (EvGit a c) = true) →
  emits P (clone_or_update_pylav_repo w cfg).
Proof.
  intros HL HG.
  unfold clone_or_update_pylav_repo, subprocess_call, subprocess_check_output, log_info.
  solve_emits.
Qed.

(** The run up to the comparison logs, creates its folders and runs [git];
    it has no other effect. *)
Lemma emits_sync_phase P w :
  (∀ f a, P (EvLog f a) = true) → (∀ p, P (EvMkdir p) = true) →
  (∀ a c, P (EvGit a c) = true) →
  emits P (sync_phase w).
Proof.
  intros HL HM HG. unfold sync_phase.
  apply emits_bind; [apply emits_reads, reads_module_init|]. intros cfg.
  apply emits_bind; [by apply emits_gate|]. intros _.
  apply emits_bind; [by apply emits_make_folders|]. intros _.
  apply emits_bind; [by apply emits_clone_or_update|]. intros c.
  apply emits_reads. apply reads_bind; [apply reads_get_existing_commit|]. intros e.
  apply reads_bind; [apply reads_get_pylav_cogs|]. intros cogs. apply reads_ret.
Qed.

Lemma keeps_gate q w : keeps q (gate w).
Proof. unfold gate, log_info. solve_keeps. Qed.

Lemma keeps_make_folders q cfg :
  diverge DownloaderLibFolder q = true →
  diverge (RepoManagerRepoFolder cfg) q = true →
  diverge CogManagerCogFolder q = true →
  keeps q (make_folders cfg).
Proof.
  intros H1 H2 H3. unfold make_folders. apply keeps_for_each.
  intros folder [<-|[<-|[<-|[]]]]; solve_keeps.
Qed.

Lemma keeps_clone_or_update q w cfg :
  diverge (RepoManagerRepoFolder cfg) q = true →
  keeps q (clone_or_update_pylav_repo w cfg).
Proof.
  intros Hd.
  unfold clone_or_update_pylav_repo, subprocess_call, subprocess_check_output, log_info.
  solve_keeps.
Qed.

(** Where the run up to the comparison returns, it returns what
    [get_existing_commit] reads in the state it ends in, and it has kept the
    paths outside its folders. *)
Lemma sync_phase_inv w st cfg c e cogs st1 :
  sync_phase w st = (Ret (cfg, c, e, cogs), st1) →
  get_existing_commit st1 = (Ret e, st1)
  ∧ ∀ q, outside_folders q = true → fs_lookup (fs st1) q = fs_lookup (fs st) q.
Proof.
  intros Hsync. unfold sync_phase in Hsync.
  apply bind_inv_ret in Hsync as (cfg' & st0 & Hinit & Hsync).
  apply bind_inv_ret in Hsync as ([] & sta & Hgate & Hsync).
  apply bind_inv_ret in Hsync as ([] & stb & Hmk & Hsync).
  apply bind_inv_ret in Hsync as (c' & stc & Hclone & Hsync).
  apply bind_inv_ret in Hsync as (e' & std & Hget & Hsync).
  apply bind_inv_ret in Hsync as (cogs' & ste & Hcogs & Hsync).
  injection Hsync as -> -> -> -> ->.
  apply module_init_folder in Hinit as [-> Hfolder].
  pose proof (reads_eq _ _ _ _ reads_get_existing_commit Hget) as ->.
  pose proof (reads_eq _ _ _ _ (reads_get_pylav_cogs cfg) Hcogs) as ->.
  split; [done|]. intros q Hq. unfold outside_folders in Hq.
  apply andb_prop in Hq as [Hq H4]. apply andb_prop in Hq as [Hq H3].
  apply andb_prop in Hq as [H1 H2].
  assert (diverge (RepoManagerRepoFolder cfg) q = true) as Hrepo
    by (destruct Hfolder as [-> | ->]; done).
  pose proof (keeps_clone_or_update q w cfg Hrepo stb) as Hk1.
  pose proof (keeps_make_folders q cfg H1 Hrepo H2 sta) as Hk2.
  pose proof (keeps_gate q w st) as Hk3.
  rewrite Hclone in Hk1. rewrite Hmk in Hk2. rewrite Hgate in Hk3. simpl in *.
  by rewrite Hk1, Hk2, Hk3.
Qed.

(** The run is the run up to the comparison followed by the comparison and
    what it leads to. *)
Lemma main_sync w st :
  main w st =
  match sync_phase w st with
  | (Ret (cfg, c, e, cogs), st1) => compare_phase w cfg c e cogs st1
  | (Raise x, st1) => (Raise x, st1)
  | (Exit x, st1) => (Exit x, st1)
  end.
Proof.
  unfold main, sync_phase, mbind, M_bind.
  repeat match goal with
         | |- context [match ?m ?s with _ => _ end] =>
             lazymatch m with
             | compare_phase _ _ _ _ _ => fail
             | _ => destruct (m s) as [[?|?|?] ?]; try reflexivity
             end
         end.
Qed.
End sync.

(** ** The run *)

Section run.
Context `{JsonCodec}.

Lemma main_equal_commits w st cfg c cogs st1 :
  sync_phase w st = (Ret (cfg, c, c, cogs), st1) →
  main w st =
    (Exit 0,
     {| fs := fs st1; trace := (trace st1 ++ [EvLog "PyLav is up to date" []])%list |}).
Proof.
  intros Hsync. rewrite main_sync, Hsync. unfold compare_phase.
  by rewrite String.eqb_refl.
Qed.

Lemma main_changed_commit w st cfg c e cogs st1 :
  sync_phase w st = (Ret (cfg, c, e, cogs), st1) →
  c ≠ e →
  main w st =
    (install_phase w cfg cogs ≫= λ process, guarded_phase cfg cogs c process) st1.
Proof.
  intros Hsync Hne. rewrite main_sync, Hsync. unfold compare_phase.
  by destruct (String.eqb_spec c e).
Qed.

Lemma get_existing_commit_none st :
  fs_lookup (fs st) PyLavHashFile = None →
  get_existing_commit st = (Ret EmptyString, st).
Proof.
  intros Hnone. unfold get_existing_commit.
  mstep ltac:(unfold path_exists, fs_exists; rewrite Hnone; reflexivity).
  reflexivity.
Qed.

Lemma get_existing_commit_file st text :
  fs_lookup (fs st) PyLavHashFile = Some (File text) →
  get_existing_commit st = (Ret (universal_newlines text), st).
Proof.
  intros Hfile. unfold get_existing_commit.
  mstep ltac:(unfold path_exists, fs_exists; rewrite Hfile; reflexivity).
  unfold read_text. by rewrite Hfile.
Qed.

(** C1. When the run reaches the comparison with a current commit equal to
    the recorded one, it logs that PyLav is up to date and exits with
    status 0.  From its start to its end the run has written no file,
    deleted or copied no directory and started no installer; the two
    registry files are as they were. *)
Theorem up_to_date_run w st cfg c e cogs st1 :
  sync_phase w st = (Ret (cfg, c, e, cogs), st1) →
  c = e →
  main w st =
    (Exit 0,
     {| fs := fs st1; trace := (trace st1 ++ [EvLog "PyLav is up to date" []])%list |})
  ∧ exit_status (main w st).1 = 0%Z
  ∧ (∃ evs, trace (main w st).2 = (trace st ++ evs)%list
            ∧ forallb (λ ev, negb (is_install_effect ev)) evs = true)
  ∧ fs_lookup (fs (main w st).2) RepoManagerSetting = fs_lookup (fs st) RepoManagerSetting
  ∧ fs_lookup (fs (main w st).2) DownloaderSetting = fs_lookup (fs st) DownloaderSetting.
Proof.
  intros Hsync <-.
  pose proof (main_equal_commits _ _ _ _ _ _ Hsync) as Hmain.
  rewrite Hmain. cbn [fst snd fs trace exit_status]. split; [done|]. split; [done|].
  destruct (sync_phase_inv _ _ _ _ _ _ _ Hsync) as [_ Hkeep].
  split; [|split; by apply Hkeep].
  destruct (emits_sync_phase (λ ev, negb (is_install_effect ev)) w) with (st := st)
    as (evs & Htrace & Hevs); try done.
  rewrite Hsync in Htrace. simpl in Htrace.
  exists (evs ++ [EvLog "PyLav is up to date" []])%list.
  rewrite Htrace, app_assoc. split; [done|]. by rewrite forallb_app, Hevs.
Qed.

(** The closed gate (claim C3), on every input.  With the gate variable
    unset, or set to a text that does not contain ["pylav"], the run changes
    nothing in the file system and none of its effects is a write, whatever
    else happens.  When the module-level statements find a storage type, the
    run logs that it skips the set-up and exits with status 0; when they do
    not, they raise before the gate is reached and the run ends with that
    exception. *)
Theorem gate_closed_skips w st :
  gate_open w = false →
  (storage_type_known w (fs st) →
     main w st =
       (Exit 0,
        {| fs := fs st;
           trace := (trace st ++ [EvLog "Skipping PyLav setup and update" []])%list |}))
  ∧ (¬ storage_type_known w (fs st) → ∃ x, main w st = (Raise x, st))
  ∧ fs (main w st).2 = fs st
  ∧ ∃ evs, trace (main w st).2 = (trace st ++ evs)%list
           ∧ forallb (λ ev, negb (is_fs_write ev)) evs = true.
Proof.
  intros Hgate.
  assert (∀ cfg, (gate w ≫= λ _ : unit,
             make_folders cfg ≫= λ _ : unit,
             clone_or_update_pylav_repo w cfg ≫= λ current_commit,
             get_existing_commit ≫= λ existing_commit,
             get_pylav_cogs cfg ≫= λ cogs_mapping,
             compare_phase w cfg current_commit existing_commit cogs_mapping) st =
          (Exit 0,
           {| fs := fs st;
              trace := (trace st ++ [EvLog "Skipping PyLav setup and update" []])%list |}))
    as Hskip.
  { intros cfg. unfold gate_open in Hgate. unfold gate, mbind at 1, M_bind.
    destruct (environ w !! "PCX_DISCORDBOT_TAG") as [tag|]; [rewrite Hgate|]; done. }
  unfold main.
  destruct (module_init_cases w st) as [[Hknown [cfg Hinit]]|[Hunknown [x Hinit]]].
  - rewrite (bind_ret _ _ _ _ _ Hinit), Hskip.
    split; [done|]. split; [done|]. split; [done|].
    exists [EvLog "Skipping PyLav setup and update" []]. by simpl.
  - rewrite (bind_raise _ _ _ _ _ Hinit).
    split; [done|]. split; [by eauto|]. split; [done|].
    exists []. simpl. by rewrite app_nil_r.
Qed.

(** C2, as the code has it.  The guarded block (lines 194-212) exits with
    status 0 however its body ends: after the effects of the body it logs
    the exception, when the body raised one, and then kills and terminates
    the installer, when one was started; it does nothing else.  A run that
    finds a changed commit and whose install phase (lines 191-193) returns
    ends as the guarded block does.  And a run that finds a changed commit
    and whose install phase raises, whatever the exception and wherever in
    the copies, the collection of the requirements or the start of the
    installer it comes from, ends with that exception in the state the
    install phase left: nothing catches it, nothing is logged, no clean-up
    runs, and the exit status is 1. *)
Theorem guarded_phase_exits_zero :
  (∀ cfg cogs commit process st,
     guarded_phase cfg cogs commit process st =
       (Exit 0,
        {| fs := fs (guarded_body cfg cogs commit process st).2;
           trace := (trace (guarded_body cfg cogs commit process st).2
                     ++ failure_log (guarded_body cfg cogs commit process st).1
                     ++ cleanup_events process)%list |}))
  ∧ (∀ w st cfg c e cogs st1 process st2,
       sync_phase w st = (Ret (cfg, c, e, cogs), st1) →
       c ≠ e →
       install_phase w cfg cogs st1 = (Ret process, st2) →
       main w st = guarded_phase cfg cogs c process st2
       ∧ exit_status (main w st).1 = 0%Z)
  ∧ (∀ w st cfg c e cogs st1 x st2,
       sync_phase w st = (Ret (cfg, c, e, cogs), st1) →
       c ≠ e →
       install_phase w cfg cogs st1 = (Raise x, st2) →
       main w st = (Raise x, st2)
       ∧ exit_status (main w st).1 = 1%Z).
Proof.
  assert (∀ cfg cogs commit process st,
     guarded_phase cfg cogs commit process st =
       (Exit 0,
        {| fs := fs (guarded_body cfg cogs commit process st).2;
           trace := (trace (guarded_body cfg cogs commit process st).2
                     ++ failure_log (guarded_body cfg cogs commit process st).1
                     ++ cleanup_events process)%list |})) as Hguarded.
  { intros cfg cogs commit process st.
    unfold guarded_phase, try_finally, try_except.
    destruct (guarded_body cfg cogs commit process st) as [[[]|x|x] st1];
      destruct process as [p|]; destruct st1 as [root tr];
      unfold cleanup, log_info, emit, sys_exit, failure_log, cleanup_events;
      simpl; by rewrite <- ?app_assoc, ?app_nil_r. }
  split; [exact Hguarded|]. split.
  - intros w st cfg c e cogs st1 process st2 Hsync Hne Hinstall.
    rewrite (main_changed_commit _ _ _ _ _ _ _ Hsync Hne).
    rewrite (bind_ret _ _ _ _ _ Hinstall). split; [done|]. by rewrite Hguarded.
  - intros w st cfg c e cogs st1 x st2 Hsync Hne Hinstall.
    rewrite (main_changed_commit _ _ _ _ _ _ _ Hsync Hne).
    by rewrite (bind_raise _ _ _ _ _ Hinstall).
Qed.

(** C6. When the collected requirement set is empty, [install_requirements]
    returns [None] after one log line: no installer is started. *)
Theorem no_requirements_no_installer w cogs st :
  (get_requirements_for_all_cogs cogs st).1 = Ret ∅ →
  install_requirements w cogs st =
    (Ret None,
     {| fs := fs st; trace := (trace st ++ [EvLog "Requirements installed" []])%list |})
  ∧ forallb (λ ev, negb (is_popen ev)) (trace (install_requirements w cogs st).2)
    = forallb (λ ev, negb (is_popen ev)) (trace st).
Proof.
  intros Hreq.
  destruct (get_requirements_for_all_cogs cogs st) as [r st0] eqn:Hget.
  pose proof (reads_eq _ _ _ _ (reads_get_requirements cogs) Hget) as ->.
  simpl in Hreq. subst r.
  assert (install_requirements w cogs st =
    (Ret None,
     {| fs := fs st; trace := (trace st ++ [EvLog "Requirements installed" []])%list |}))
    as Hrun.
  { unfold install_requirements. mstep ltac:(exact Hget).
    rewrite bool_decide_eq_true_2 by done. reflexivity. }
  rewrite Hrun. split; [done|]. simpl. rewrite forallb_app. simpl.
  by rewrite andb_true_r.
Qed.
(** C8. Without a commit file [get_existing_commit] returns the empty
    string; and a run that starts without one and reaches the comparison
    with a current commit that is not empty compares it with the empty
    string and goes on with the install path: the copy of the plugins and
    the installation of their requirements, then the guarded block. *)
Theorem no_prior_commit_installs st :
  fs_lookup (fs st) PyLavHashFile = None →
  get_existing_commit st = (Ret EmptyString, st)
  ∧ ∀ w cfg c e cogs st1,
      sync_phase w st = (Ret (cfg, c, e, cogs), st1) →
      c ≠ EmptyString →
      e = EmptyString
      ∧ main w st =
          (install_phase w cfg cogs ≫= λ process, guarded_phase cfg cogs c process) st1.
Proof.
  intros Hnone. split; [by apply get_existing_commit_none|].
  intros w cfg c e cogs st1 Hsync Hc.
  destruct (sync_phase_inv _ _ _ _ _ _ _ Hsync) as [Hget Hkeep].
  rewrite get_existing_commit_none in Hget by (by rewrite Hkeep).
  injection Hget as <-. split; [done|].
  by apply (main_changed_commit _ _ _ _ _ _ _ Hsync).
Qed.

(** Where C10 holds.  When [/data/pylav] is a directory, the commit file is
    not one, and the commit [s] has no carriage return (no hash that git
    prints has one), [update_existing_commit s] succeeds and
    [get_existing_commit] then returns [s]; and a run that starts with the
    file system it leaves and whose [git] reports [s] again finds the two
    commits equal and exits through the up-to-date path.  The directory is
    there when the storage type is not JSON, as the start-up folders include
    [/data/pylav/cogs]; when it is JSON nothing creates it. *)
Theorem commit_round_trip s st es :
  has_cr s = false →
  fs_lookup (fs st) ["data"; "pylav"] = Some (Dir es) →
  fs_is_dir (fs st) PyLavHashFile = false →
  ∃ st',
    update_existing_commit s st = (Ret tt, st')
    ∧ get_existing_commit st' = (Ret s, st')
    ∧ ∀ w st0 cfg e cogs st2,
        fs st0 = fs st' →
        sync_phase w st0 = (Ret (cfg, s, e, cogs), st2) →
        e = s
        ∧ main w st0 =
            (Exit 0,
             {| fs := fs st2;
                trace := (trace st2 ++ [EvLog "PyLav is up to date" []])%list |}).
Proof.
  intros Hcr Hdir Hnotdir.
  destruct (fs_put_child _ _ _ ".hashfile" (File s) Hdir) as [root' Hput].
  change (["data"; "pylav"] </> ".hashfile") with PyLavHashFile in Hput.
  pose proof (fs_put_lookup_eq _ _ _ _ Hput) as Hfile.
  exists {| fs := root'; trace := (trace st ++ [EvWrite PyLavHashFile s])%list |}.
  split; [|split].
  - unfold update_existing_commit, write_text. unfold fs_is_dir in Hnotdir.
    destruct (fs_lookup (fs st) PyLavHashFile) as [[]|]; try done; by rewrite Hput.
  - rewrite (get_existing_commit_file _ s) by done.
    by rewrite has_cr_universal_newlines.
  - intros w st0 cfg e cogs st2 Hfs Hsync.
    destruct (sync_phase_inv _ _ _ _ _ _ _ Hsync) as [Hget Hkeep].
    rewrite (get_existing_commit_file _ s) in Hget by (by rewrite Hkeep, Hfs).
    rewrite has_cr_universal_newlines in Hget by done.
    injection Hget as <-. split; [done|].
    by apply (main_equal_commits _ _ _ _ _ _ Hsync).
Qed.
End run.

(** ** Plugin discovery *)

Lemma dict_get_keys {V} (k : string) (v : V) d :
  dict_get k d = Some v → existsb (String.eqb k) (dict_keys d) = true.
Proof.
  unfold dict_keys. induction d as [|[k' v'] d IH]; simpl; [done|].
  destruct (String.eqb k k'); [done|]. apply IH.
Qed.

Lemma fs_is_dir_child root repo es name :
  fs_lookup root repo = Some (Dir es) →
  fs_is_dir root (repo </> name) =
  match dict_get name es with Some (Dir _) => true | _ => false end.
Proof.
  intros Hrepo. unfold fs_is_dir, path_child. rewrite fs_lookup_app, Hrepo. simpl.
  by destruct (dict_get name es).
Qed.

Section discovery.
Context `{JsonCodec}.

(** The comprehension of [get_pylav_cogs], started from the mapping [acc]:
    a name among [names] that passes the two tests is bound to its path,
    every other name is bound as in [acc]. *)
Lemma collect_cogs_spec cfg names acc st :
  ∃ cogs,
    fold_m
      (λ cogs name,
         let cog := RepoManagerRepoFolder cfg </> name in
         d ← is_dir cog;
         if d && (startswith "pl" name || String.eqb name "audio")
         then mret (dict_set name cog cogs)
         else mret cogs)
      names acc st = (Ret cogs, st)
    ∧ ∀ name,
        dict_get name cogs =
        if existsb (String.eqb name) names
           && (fs_is_dir (fs st) (RepoManagerRepoFolder cfg </> name)
               && (startswith "pl" name || String.eqb name "audio"))
        then Some (RepoManagerRepoFolder cfg </> name)
        else dict_get name acc.
Proof.
  set (sel := λ name,
         fs_is_dir (fs st) (RepoManagerRepoFolder cfg </> name)
         && (startswith "pl" name || String.eqb name "audio")).
  set (body := λ (cogs : list (string * path)) (name : string), _ : M _).
  assert (∀ y ys a,
    fold_m body (y :: ys) a st =
    fold_m body ys
      (if sel y then dict_set y (RepoManagerRepoFolder cfg </> y) a else a) st)
    as Hstep.
  { intros x ys a.
    assert (body a x st =
            (Ret (if sel x then dict_set x (RepoManagerRepoFolder cfg </> x) a else a),
             st)) as Hbody.
    { unfold body, mbind, M_bind, is_dir. cbv beta. fold (sel x). by destruct (sel x). }
    cbn [fold_m]. by rewrite (bind_ret _ _ _ _ _ Hbody). }
  revert acc. induction names as [|x names IH]; intros acc.
  - exists acc. by split.
  - rewrite Hstep.
    destruct (IH (if sel x then dict_set x (RepoManagerRepoFolder cfg </> x) acc
                  else acc)) as (cogs & Hrun & Hget).
    exists cogs. split; [exact Hrun|]. intros name. rewrite Hget. cbn [existsb].
    fold (sel name).
    destruct (existsb (String.eqb name) names && sel name) eqn:Hrest.
    + apply andb_prop in Hrest as [-> ->]. by rewrite orb_true_r.
    + destruct (String.eqb_spec name x) as [->|Hne]; cbn [orb andb].
      * destruct (sel x); [by rewrite dict_get_set_eq | done].
      * rewrite Hrest. destruct (sel x); [by rewrite dict_get_set_ne | done].
Qed.

(** C4, as the code has it.  When the root of the working copy is a
    directory, discovery returns a mapping that binds a name exactly when
    the root has an entry of that name that is a directory and the name
    starts with ["pl"] or is ["audio"], and it binds the name to the path of
    that entry, which is directly under the root.  So a directory [audio] is
    bound, and [docs], [notanaudioplugin_other] and [pylav-core] are not,
    whatever they are. *)
Theorem plugin_discovery cfg st es :
  fs_lookup (fs st) (RepoManagerRepoFolder cfg) = Some (Dir es) →
  ∃ cogs,
    get_pylav_cogs cfg st = (Ret cogs, st)
    ∧ (∀ name p,
         dict_get name cogs = Some p ↔
         p = RepoManagerRepoFolder cfg </> name
         ∧ (∃ sub, dict_get name es = Some (Dir sub))
         ∧ (startswith "pl" name = true ∨ name = "audio"))
    ∧ (∀ sub, dict_get "audio" es = Some (Dir sub) →
         dict_get "audio" cogs = Some (RepoManagerRepoFolder cfg </> "audio"))
    ∧ dict_get "docs" cogs = None
    ∧ dict_get "notanaudioplugin_other" cogs = None
    ∧ dict_get "pylav-core" cogs = None.
Proof.
  intros Hrepo.
  destruct (collect_cogs_spec cfg (dict_keys es) [] st) as (cogs & Hrun & Hget).
  exists cogs.
  assert (get_pylav_cogs cfg st = (Ret cogs, st)) as Hcogs.
  { unfold get_pylav_cogs.
    mstep ltac:(unfold iterdir; rewrite Hrepo; reflexivity). exact Hrun. }
  assert (∀ name p,
         dict_get name cogs = Some p ↔
         p = RepoManagerRepoFolder cfg </> name
         ∧ (∃ sub, dict_get name es = Some (Dir sub))
         ∧ (startswith "pl" name = true ∨ name = "audio")) as Hiff.
  { intros name p. rewrite Hget, (fs_is_dir_child _ _ _ _ Hrepo). simpl. split.
    - destruct (existsb (String.eqb name) (dict_keys es)); [|done].
      destruct (dict_get name es) as [[|sub]|]; try done. simpl.
      destruct (startswith "pl" name) eqn:Hpl; simpl.
      + intros [= <-]. by eauto.
      + destruct (String.eqb_spec name "audio"); [|done]. intros [= <-]. by eauto.
    - intros (-> & [sub Hsub] & Hname).
      rewrite (dict_get_keys _ _ _ Hsub), Hsub. simpl.
      destruct Hname as [-> | ->]; [done|]. by rewrite orb_true_r. }
  split; [done|]. split; [done|]. split; [|split; [|split]].
  - intros sub Hsub. apply Hiff. by eauto.
  - destruct (dict_get "docs" cogs) eqn:Hd; [|done].
    apply Hiff in Hd as (_ & _ & [Hd|Hd]); done.
  - destruct (dict_get "notanaudioplugin_other" cogs) eqn:Hd; [|done].
    apply Hiff in Hd as (_ & _ & [Hd|Hd]); done.
  - destruct (dict_get "pylav-core" cogs) eqn:Hd; [|done].
    apply Hiff in Hd as (_ & _ & [Hd|Hd]); done.
Qed.
End discovery.

(** ** Requirements *)

Section requirements.
Context `{JsonCodec}.

(** The inner loop over a list of strings adds each of them. *)
Lemma add_requirements_spec (l : list json) (acc : gset atom) st :
  forallb is_jstr l = true →
  fold_m (λ requirements req, a ← lift (py_hashable req); mret (requirements ∪ {[a]}))
    l acc st
  = (Ret (acc ∪ list_to_set (omap string_atom l)), st).
Proof.
  revert acc. induction l as [|j l IH]; intros acc Hl; simpl.
  - unfold mret, M_ret. by rewrite union_empty_r_L.
  - apply andb_prop in Hl as [Hj Hl]. destruct j; try done.
    simpl. mstep ltac:(reflexivity). rewrite (IH _ Hl).
    by rewrite (assoc_L (∪)).
Qed.

(** One turn of the outer loop, on a plugin whose manifest is in order. *)
Lemma manifest_step_spec (acc : gset atom) cog st :
  manifest_ok (fs st) cog = true →
  (ex ← path_exists (cog </> "info.json");
   if (ex : bool) then
     text ← read_text (cog </> "info.json");
     data ← load_json text;
     declared ← lift (py_contains "requirements" data);
     if (declared : bool) then
       field ← lift (py_getitem data "requirements");
       reqs ← lift (py_iter field);
       fold_m
         (λ requirements req,
            a ← lift (py_hashable req); mret (requirements ∪ {[a]}))
         reqs acc
     else mret acc
   else mret acc) st
  = (Ret (acc ∪ declared_requirements (fs st) cog), st).
Proof.
  unfold manifest_ok, declared_requirements. intros Hok.
  destruct (fs_lookup (fs st) (cog </> "info.json")) as [[text|]|] eqn:Hfile; [| done |].
  - mstep ltac:(unfold path_exists, fs_exists; rewrite Hfile; reflexivity).
    mstep ltac:(unfold read_text; rewrite Hfile; reflexivity).
    destruct (json_load (universal_newlines text)) as [[| | | | |d]|] eqn:Hload;
      try done.
    mstep ltac:(unfold load_json; rewrite Hload; reflexivity).
    destruct (dict_get "requirements" d) as [[| | | |l|]|] eqn:Hreq; try done.
    + mstep ltac:(unfold lift, py_contains, dict_mem; rewrite Hreq; reflexivity).
      mstep ltac:(unfold lift, py_getitem; rewrite Hreq; reflexivity).
      mstep ltac:(reflexivity).
      by apply add_requirements_spec.
    + mstep ltac:(unfold lift, py_contains, dict_mem; rewrite Hreq; reflexivity).
      unfold mret, M_ret. by rewrite union_empty_r_L.
  - mstep ltac:(unfold path_exists, fs_exists; rewrite Hfile; reflexivity).
    unfold mret, M_ret. by rewrite union_empty_r_L.
Qed.

(** C5. When every discovered plugin has no manifest or a manifest that is
    a JSON object whose ["requirements"], if present, is a list of strings,
    the collected set is the union, over the plugins, of the strings their
    manifests declare; a plugin without a manifest, or whose manifest has no
    such field, adds nothing. *)
Theorem requirements_are_the_union cogs st :
  forallb (manifest_ok (fs st)) (dict_values cogs) = true →
  get_requirements_for_all_cogs cogs st =
    (Ret (⋃ (declared_requirements (fs st) <$> dict_values cogs)), st)
  ∧ (∀ cog, fs_lookup (fs st) (cog </> "info.json") = None →
       declared_requirements (fs st) cog = ∅)
  ∧ (∀ cog text d,
       fs_lookup (fs st) (cog </> "info.json") = Some (File text) →
       json_load (universal_newlines text) = Some (JObj d) →
       dict_get "requirements" d = None →
       declared_requirements (fs st) cog = ∅).
Proof.
  intros Hok. split; [|split].
  - unfold get_requirements_for_all_cogs.
    assert (∀ l (acc : gset atom),
      forallb (manifest_ok (fs st)) l = true →
      fold_m
        (λ requirements cog,
           ex ← path_exists (cog </> "info.json");
           if (ex : bool) then
             text ← read_text (cog </> "info.json");
             data ← load_json text;
             declared ← lift (py_contains "requirements" data);
             if (declared : bool) then
               field ← lift (py_getitem data "requirements");
               reqs ← lift (py_iter field);
               fold_m
                 (λ requirements req,
                    a ← lift (py_hashable req); mret (requirements ∪ {[a]}))
                 reqs requirements
             else mret requirements
           else mret requirements)
        l acc st
      = (Ret (acc ∪ ⋃ (declared_requirements (fs st) <$> l)), st)) as Hfold.
    { induction l as [|cog l IH]; intros acc Hl.
      - simpl. unfold mret, M_ret. by rewrite union_empty_r_L.
      - cbn [forallb] in Hl. apply andb_prop in Hl as [Hcog Hl].
        cbn [fold_m]. rewrite (bind_ret _ _ _ _ _ (manifest_step_spec acc cog st Hcog)).
        rewrite (IH _ Hl). cbn [fmap list_fmap union_list foldr].
        by rewrite (assoc_L (∪)). }
    rewrite (Hfold _ ∅ Hok). by rewrite union_empty_l_L.
  - intros cog Hnone. unfold declared_requirements. by rewrite Hnone.
  - intros cog text d Hfile Hload Hreq. unfold declared_requirements.
    by rewrite Hfile, Hload, Hreq.
Qed.
End requirements.

(** * Further properties of the script *)

(** X2. The environment handed to git and to pip is the environment of
    the process with [GIT_TERMINAL_PROMPT=0], [LC_ALL=C] and [LANGUAGE=C] set,
    without [GIT_ASKPASS], and with every other variable as it is. *)
Theorem git_env_spec w :
  get_git_env w !! "GIT_TERMINAL_PROMPT" = Some "0"
  ∧ get_git_env w !! "LC_ALL" = Some "C"
  ∧ get_git_env w !! "LANGUAGE" = Some "C"
  ∧ get_git_env w !! "GIT_ASKPASS" = None
  ∧ ∀ k, k ≠ "GIT_TERMINAL_PROMPT" → k ≠ "LC_ALL" → k ≠ "LANGUAGE" → k ≠ "GIT_ASKPASS" →
         get_git_env w !! k = environ w !! k.
Proof.
  unfold get_git_env. repeat split.
  - by rewrite lookup_insert_ne, lookup_insert_ne, lookup_delete_ne, lookup_insert_eq.
  - by rewrite lookup_insert_ne, lookup_insert_eq.
  - by rewrite lookup_insert_eq.
  - by rewrite lookup_insert_ne, lookup_insert_ne, lookup_delete_eq.
  - intros k H1 H2 H3 H4.
    by rewrite lookup_insert_ne, lookup_insert_ne, lookup_delete_ne, lookup_insert_ne.
Qed.

Section storage.
Context `{JsonCodec}.

(** X1. The module-level statements (lines 22-33) return a configuration
    exactly when a storage type is found: a non-empty [STORAGE_TYPE] in the
    environment, or a [/data/config.json] that holds a string under
    ["docker"]["STORAGE_TYPE"].  Otherwise they raise, and in both cases the
    state is as before.  The folder of the working copy follows from
    [IS_JSON]. *)
Theorem module_init_returns_iff w st :
  ((∃ cfg, module_init w st = (Ret cfg, st)) ↔ storage_type_known w (fs st))
  ∧ (¬ storage_type_known w (fs st) → ∃ x, module_init w st = (Raise x, st))
  ∧ ∀ cfg st', module_init w st = (Ret cfg, st') →
      RepoManagerRepoFolder cfg =
        if IS_JSON cfg then ["data"; "cogs"; "RepoManager"; "repos"; "pylav"]
        else ["data"; "pylav"; "cogs"].
Proof.
  split; [|split].
  - destruct (module_init_cases w st) as [[Hk Hr]|[Hk [x Hr]]]; split; try done.
    intros [cfg Hcfg]. congruence.
  - intros Hk. destruct (module_init_cases w st) as [[Hk' _]|[_ Hr]]; done.
  - intros cfg st' Hinit. unfold module_init in Hinit.
    apply bind_inv_ret in Hinit as (storage & st0 & _ & Hinit).
    apply bind_inv_ret in Hinit as (up & st1 & _ & Hinit).
    by injection Hinit as <- _.
Qed.
End storage.

Lemma startswith_nonempty p s : p ≠ EmptyString → startswith p s = true → s ≠ EmptyString.
Proof. intros Hp Hs ->. by destruct p. Qed.

(** X14. The loop over the output of pip logs every line up to and
    including the first that starts with [Successfully installed], and stops
    there; it stops before an empty line and at the end of the stream. *)
Theorem tail_output_stops pre st :
  forallb tail_goes_on pre = true →
  (∀ l post,
     startswith "Successfully installed" l = true →
     tail_output (pre ++ l :: post)%list st =
       (Ret tt,
        {| fs := fs st;
           trace := (trace st
                     ++ map (λ line, EvLog (strip_newlines line) []) (pre ++ [l]))%list |}))
  ∧ (∀ post,
       tail_output (pre ++ EmptyString :: post)%list st =
         (Ret tt,
          {| fs := fs st;
             trace := (trace st ++ map (λ line, EvLog (strip_newlines line) []) pre)%list |}))
  ∧ tail_output pre st =
      (Ret tt,
       {| fs := fs st;
          trace := (trace st ++ map (λ line, EvLog (strip_newlines line) []) pre)%list |}).
Proof.
  revert st. induction pre as [|line pre IH]; intros st Hpre.
  - split; [|split].
    + intros l post Hl. cbn [app tail_output map].
      destruct l as [|c l]; [done|]. unfold log_info.
      mstep ltac:(reflexivity). by rewrite Hl.
    + intros post. simpl. destruct st. by rewrite app_nil_r.
    + simpl. destruct st. by rewrite app_nil_r.
  - cbn [forallb] in Hpre. apply andb_prop in Hpre as [Hline Hpre].
    destruct line as [|c line]; [done|]. cbn [tail_goes_on] in Hline.
    apply negb_true_iff in Hline.
    assert (∀ rest, tail_output (String c line :: rest) st =
              tail_output rest
                {| fs := fs st;
                   trace := (trace st ++ [EvLog (strip_newlines (String c line)) []])%list |})
      as Hstep.
    { intros rest. cbn [tail_output]. unfold log_info.
      mstep ltac:(reflexivity). by rewrite Hline. }
    destruct (IH {| fs := fs st;
                    trace := (trace st ++ [EvLog (strip_newlines (String c line)) []])%list |}
                 Hpre) as (IH1 & IH2 & IH3).
    split; [|split].
    + intros l post Hl. rewrite <- app_comm_cons, Hstep, (IH1 _ _ Hl). cbn [fs trace].
      by rewrite <- app_assoc.
    + intros post. rewrite <- app_comm_cons, Hstep, IH2. cbn [fs trace map].
      by rewrite <- app_assoc.
    + rewrite Hstep, IH3. cbn [fs trace map]. by rewrite <- app_assoc.
Qed.


Lemma tail_output_logs lines st :
  ∃ logs, tail_output lines st =
            (Ret tt, {| fs := fs st; trace := (trace st ++ logs)%list |})
          ∧ forallb is_log logs = true.
Proof.
  revert st. induction lines as [|line lines IH]; intros st.
  - exists []. simpl. destruct st. by rewrite app_nil_r.
  - destruct line as [|c line].
    + exists []. simpl. destruct st. by rewrite app_nil_r.
    + cbn [tail_output]. unfold log_info. mstep ltac:(reflexivity).
      destruct (startswith "Successfully installed" (String c line)).
      * by exists [EvLog (strip_newlines (String c line)) []].
      * edestruct IH as (logs & -> & Hlogs).
        exists (EvLog (strip_newlines (String c line)) [] :: logs).
        cbn [fs trace]. by rewrite <- app_assoc.
Qed.

Lemma fs_mkdir_p_grows n p n' q :
  fs_mkdir_p n p = Some n' →
  (∀ t, fs_lookup n q = Some (File t) ↔ fs_lookup n' q = Some (File t))
  ∧ (fs_is_dir n q = true → fs_is_dir n' q = true).
Proof.
  unfold fs_is_dir.
  revert n n' q. induction p as [|k p IH]; intros n n' q Hmk.
  - destruct n as [|es]; [done|]. by injection Hmk as <-.
  - simpl in Hmk. destruct n as [|es]; [done|].
    destruct (fs_mkdir_p (default (Dir []) (dict_get k es)) p) as [c'|] eqn:Hc; [|done].
    injection Hmk as <-. destruct q as [|b q]; [done|].
    cbn [fs_lookup]. destruct (String.eqb_spec b k) as [->|Hne].
    + rewrite dict_get_set_eq. destruct (IH _ _ q Hc) as [Hfile Hdir].
      destruct (dict_get k es) as [c|]; simpl in *; [done|].
      split; [|by destruct q].
      intros t. rewrite <- Hfile. by destruct q.
    + by rewrite dict_get_set_ne.
Qed.

Lemma fs_mkdir_p_is_dir n p n' : fs_mkdir_p n p = Some n' → fs_is_dir n' p = true.
Proof.
  unfold fs_is_dir. revert n n'. induction p as [|k p IH]; intros n n' Hmk.
  - destruct n; [done|]. by injection Hmk as <-.
  - simpl in Hmk. destruct n as [|es]; [done|].
    destruct (fs_mkdir_p (default (Dir []) (dict_get k es)) p) as [c'|] eqn:Hc; [|done].
    injection Hmk as <-. cbn [fs_lookup]. rewrite dict_get_set_eq. by apply (IH _ _ Hc).
Qed.

Section installer.
Context `{JsonCodec}.

(** X15. With a non-empty set of strings collected, the
    requirements are logged and pip is started once with that set; lines of
    its output are logged, the handle is returned and the file system is as
    before.  When pip cannot be started the function raises [OSError] after
    the first log line. *)
Theorem install_requirements_spawns w cogs st reqs :
  (get_requirements_for_all_cogs cogs st).1 = Ret reqs →
  reqs ≠ ∅ →
  forallb is_str (elements reqs) = true →
  (∀ lines, pip w (get_git_env w) reqs = Some lines →
     ∃ logs,
       install_requirements w cogs st =
         (Ret (Some PipProcess),
          {| fs := fs st;
             trace := (trace st
                       ++ [EvLog "Installing requirements: %s" [LSet reqs]; EvPopen reqs]
                       ++ logs)%list |})
       ∧ forallb is_log logs = true)
  ∧ (pip w (get_git_env w) reqs = None →
       install_requirements w cogs st =
         (Raise OSError,
          {| fs := fs st;
             trace := (trace st ++ [EvLog "Installing requirements: %s" [LSet reqs]])%list |})).
Proof.
  intros Hreq Hne Hstr.
  destruct (get_requirements_for_all_cogs cogs st) as [r st0] eqn:Hget.
  pose proof (reads_eq _ _ _ _ (reads_get_requirements cogs) Hget) as ->.
  simpl in Hreq. subst r. split.
  - intros lines Hpip.
    destruct (tail_output_logs lines
                {| fs := fs st;
                   trace := ((trace st ++ [EvLog "Installing requirements: %s" [LSet reqs]])
                             ++ [EvPopen reqs])%list |}) as (logs & Htail & Hlogs).
    exists logs. split; [|done].
    unfold install_requirements. mstep ltac:(exact Hget).
    rewrite bool_decide_eq_false_2 by done. unfold log_info. mstep ltac:(reflexivity).
    mstep ltac:(unfold popen_pip; cbn [fs trace]; rewrite Hstr, Hpip; reflexivity).
    cbn [fst snd]. mstep ltac:(exact Htail). cbn [fs trace].
    unfold mret, M_ret. by rewrite <- !app_assoc.
  - intros Hpip. unfold install_requirements. mstep ltac:(exact Hget).
    rewrite bool_decide_eq_false_2 by done. unfold log_info. mstep ltac:(reflexivity).
    apply bind_raise. unfold popen_pip. cbn [fs trace]. by rewrite Hstr, Hpip.
Qed.

Lemma make_folder_step folder st :
  (fs_exists (fs st) folder = true
   ∧ (ex ← path_exists folder; if (ex : bool) then mret tt else mkdir folder) st = (Ret tt, st))
  ∨ (fs_exists (fs st) folder = false
     ∧ ∃ n, fs_mkdir_p (fs st) folder = Some n
            ∧ (ex ← path_exists folder; if (ex : bool) then mret tt else mkdir folder) st
              = (Ret tt, {| fs := n; trace := (trace st ++ [EvMkdir folder])%list |}))
  ∨ (fs_exists (fs st) folder = false
     ∧ (ex ← path_exists folder; if (ex : bool) then mret tt else mkdir folder) st
       = (Raise OSError, st)).
Proof.
  unfold path_exists, mbind, M_bind, mkdir, fs_exists.
  destruct (fs_lookup (fs st) folder) eqn:Hl; [by left|]. right.
  rewrite Hl. destruct (fs_mkdir_p (fs st) folder) as [n|]; [left | right]; by eauto.
Qed.
End installer.



Lemma grown_refl root : grown root root.
Proof. by split. Qed.

Lemma grown_trans a b c : grown a b → grown b c → grown a c.
Proof.
  intros [F1 D1] [F2 D2]. split.
  - intros q t. by rewrite F1.
  - intros q Hq. by apply D2, D1.
Qed.

Lemma grown_exists a b q : grown a b → fs_exists a q = true → fs_exists b q = true.
Proof.
  intros [F D]. unfold fs_exists. specialize (D q). specialize (F q). unfold fs_is_dir in D.
  destruct (fs_lookup a q) as [[t|es]|]; [| |done]; intros _.
  - by rewrite (proj1 (F t) eq_refl).
  - specialize (D eq_refl). by destruct (fs_lookup b q).
Qed.

Lemma for_each_folders (folders : list path) st st' :
  for_each folders
    (λ folder, ex ← path_exists folder; if (ex : bool) then mret tt else mkdir folder) st
  = (Ret tt, st') →
  (∀ folder, In folder folders →
     fs_exists (fs st') folder = true
     ∧ (fs_is_dir (fs st') folder = true ∨ ∃ t, fs_lookup (fs st) folder = Some (File t)))
  ∧ grown (fs st) (fs st')
  ∧ for_each folders
      (λ folder, ex ← path_exists folder; if (ex : bool) then mret tt else mkdir folder) st'
    = (Ret tt, st').
Proof.
  revert st. induction folders as [|f folders IH]; intros st Hrun.
  - injection Hrun as <-. split; [done|]. split; [apply grown_refl | done].
  - cbn [for_each] in Hrun. apply bind_inv_ret in Hrun as ([] & s1 & Hstep & Hrest).
    destruct (IH _ Hrest) as (Hall & Hgrown & Hagain).
    assert (grown (fs st) (fs s1)
            ∧ fs_exists (fs s1) f = true
            ∧ (fs_is_dir (fs s1) f = true ∨ ∃ t, fs_lookup (fs st) f = Some (File t)))
      as (Hg1 & Hex1 & Hdir1).
    { revert Hstep. unfold path_exists, mbind, M_bind, mkdir, fs_exists, fs_is_dir.
      destruct (fs_lookup (fs st) f) as [[t|es]|] eqn:Hl.
      - intros [= <-]. rewrite Hl. split; [apply grown_refl|]. by eauto.
      - intros [= <-]. rewrite Hl. split; [apply grown_refl|]. by eauto.
      - rewrite Hl. destruct (fs_mkdir_p (fs st) f) as [n|] eqn:Hn; [|done].
        intros [= <-]. cbn [fs].
        pose proof (fs_mkdir_p_is_dir _ _ _ Hn) as Hd. unfold fs_is_dir in Hd.
        split; [split; intros q; [intros t|]; by apply (fs_mkdir_p_grows _ _ _ q Hn)|].
        destruct (fs_lookup n f) as [[]|]; try done. by eauto. }
    split; [|split].
    + intros folder [<-|Hin].
      * split; [by apply (grown_exists _ _ _ Hgrown)|].
        destruct Hdir1 as [Hd|Hf]; [left; by apply Hgrown | by right].
      * destruct (Hall _ Hin) as [Hex [Hd|[t Hf]]]; split; try done; [by left|].
        right. exists t. by apply Hg1.
    + by apply (grown_trans _ _ _ Hg1).
    + cbn [for_each]. apply (grown_exists _ _ _ Hgrown) in Hex1.
      mstep ltac:(unfold path_exists, mbind, M_bind; rewrite Hex1; reflexivity).
      exact Hagain.
Qed.


(** X19. When the creation of the start-up folders returns, each
    of the three folders exists, and is a directory unless a regular file had
    its place before; no file has changed, and a second pass changes
    nothing. *)
Theorem make_folders_spec cfg st st' :
  make_folders cfg st = (Ret tt, st') →
  (∀ folder,
     In folder [DownloaderLibFolder; RepoManagerRepoFolder cfg; CogManagerCogFolder] →
     fs_exists (fs st') folder = true
     ∧ (fs_is_dir (fs st') folder = true ∨ ∃ t, fs_lookup (fs st) folder = Some (File t)))
  ∧ (∀ q t, fs_lookup (fs st) q = Some (File t) ↔ fs_lookup (fs st') q = Some (File t))
  ∧ make_folders cfg st' = (Ret tt, st').
Proof.
  intros Hrun. destruct (for_each_folders _ _ _ Hrun) as (Hall & [Hfiles _] & Hagain).
  split; [exact Hall | split; [exact Hfiles | exact Hagain]].
Qed.

(** X7. Without a [.git] in the folder of the working copy the
    repository is cloned and then asked for its head; the status of the clone
    is ignored, the status of [rev-parse] is not: the function returns the
    stripped output when it is 0 and raises [CalledProcessError] otherwise. *)
Theorem clone_status_ignored w cfg st es c1 es1 o1 c2 es2 o2 :
  fs_lookup (fs st) (RepoManagerRepoFolder cfg) = Some (Dir es) →
  dict_get ".git" es = None →
  git w (get_git_env w)
    ["git"; "clone"; CogRepoURL; path_str (RepoManagerRepoFolder cfg)] es
  = Some (c1, es1, o1) →
  git w (get_git_env w) ["git"; "rev-parse"; "HEAD"] es1 = Some (c2, es2, o2) →
  ∃ st',
    clone_or_update_pylav_repo w cfg st =
      (if (c2 =? 0)%Z then Ret (strip o2) else Raise CalledProcessError, st')
    ∧ fs_lookup (fs st') (RepoManagerRepoFolder cfg) = Some (Dir es2)
    ∧ trace st' =
        (trace st
         ++ [EvLog "Cloning PyLav repo" [];
             EvGit ["git"; "clone"; CogRepoURL; path_str (RepoManagerRepoFolder cfg)]
               (RepoManagerRepoFolder cfg);
             EvGit ["git"; "rev-parse"; "HEAD"] (RepoManagerRepoFolder cfg)])%list.
Proof.
  intros Hrepo Hgit Hclone Hrev.
  destruct (fs_put_exists _ _ _ (Dir es1) Hrepo) as [n1 Hn1].
  pose proof (fs_put_lookup_eq _ _ _ _ Hn1) as Hl1.
  destruct (fs_put_exists _ _ _ (Dir es2) Hl1) as [n2 Hn2].
  pose proof (fs_put_lookup_eq _ _ _ _ Hn2) as Hl2.
  exists {| fs := n2;
            trace := (((trace st ++ [EvLog "Cloning PyLav repo" []])
                       ++ [EvGit ["git"; "clone"; CogRepoURL;
                                  path_str (RepoManagerRepoFolder cfg)]
                             (RepoManagerRepoFolder cfg)])
                      ++ [EvGit ["git"; "rev-parse"; "HEAD"]
                            (RepoManagerRepoFolder cfg)])%list |}.
  split; [|split; [done | by rewrite <- !app_assoc]].
  unfold clone_or_update_pylav_repo. cbv zeta.
  mstep ltac:(unfold path_exists, fs_exists, path_child; rewrite fs_lookup_app, Hrepo;
              cbn [fs_lookup]; rewrite Hgit; reflexivity).
  unfold log_info, subprocess_call, subprocess_check_output.
  rewrite (bind_ret _ _ st tt
             {| fs := n1;
                trace := ((trace st ++ [EvLog "Cloning PyLav repo" []])
                          ++ [EvGit ["git"; "clone"; CogRepoURL;
                                     path_str (RepoManagerRepoFolder cfg)]
                                (RepoManagerRepoFolder cfg)])%list |}).
  2: { mstep ltac:(reflexivity).
       mstep ltac:(mstep ltac:(unfold run_git; cbn [fs trace];
                               rewrite Hrepo, Hclone, Hn1; reflexivity); reflexivity).
       reflexivity. }
  cbv beta.
  assert (run_git w (get_git_env w) ["git"; "rev-parse"; "HEAD"] (RepoManagerRepoFolder cfg)
            {| fs := n1;
               trace := ((trace st ++ [EvLog "Cloning PyLav repo" []])
                         ++ [EvGit ["git"; "clone"; CogRepoURL;
                                    path_str (RepoManagerRepoFolder cfg)]
                               (RepoManagerRepoFolder cfg)])%list |}
          = (Ret (c2, o2),
             {| fs := n2;
                trace := (((trace st ++ [EvLog "Cloning PyLav repo" []])
                           ++ [EvGit ["git"; "clone"; CogRepoURL;
                                      path_str (RepoManagerRepoFolder cfg)]
                                 (RepoManagerRepoFolder cfg)])
                          ++ [EvGit ["git"; "rev-parse"; "HEAD"]
                                (RepoManagerRepoFolder cfg)])%list |})) as Hrun.
  { unfold run_git. cbn [fs trace]. by rewrite Hl1, Hrev, Hn2. }
  unfold mbind, M_bind. rewrite Hrun. cbn [fst snd]. by destruct (c2 =? 0)%Z.
Qed.

Lemma dict_get_del_eq {V} (k : string) (d : list (string * V)) :
  dict_get k (dict_del k d) = None.
Proof.
  induction d as [|[k' v'] d IH]; simpl; [done|].
  destruct (String.eqb k k') eqn:E; simpl; [done|]. by rewrite E.
Qed.

Lemma dict_get_del_ne {V} (k k0 : string) (d : list (string * V)) :
  k ≠ k0 → dict_get k (dict_del k0 d) = dict_get k d.
Proof.
  intros Hne. induction d as [|[k' v'] d IH]; simpl; [done|].
  destruct (String.eqb_spec k0 k') as [->|Hk]; simpl.
  - by destruct (String.eqb_spec k k').
  - by rewrite IH.
Qed.

Lemma diverge_app p r q : diverge p q = true → diverge (p ++ r)%list q = true.
Proof.
  revert q. induction p as [|a p IH]; intros q; [done|].
  destruct q as [|b q]; simpl; [done|]. destruct (String.eqb a b); [apply IH | done].
Qed.

Lemma diverge_comm p q : diverge p q = diverge q p.
Proof.
  revert q. induction p as [|a p IH]; intros [|b q]; simpl; try done.
  rewrite (String.eqb_sym b a). destruct (String.eqb a b); [apply IH | done].
Qed.

Lemma fs_remove_frame n p q :
  diverge p q = true → fs_lookup (fs_remove n p) q = fs_lookup n q.
Proof.
  revert n q. induction p as [|k p IH]; intros n q Hd; [done|].
  apply diverge_cons_inv in Hd as (b & q' & -> & Hd).
  simpl. destruct n as [|es]; [done|]. destruct p as [|k' p].
  - destruct Hd as [Hne|[_ Hd]]; [|done]. simpl. by rewrite dict_get_del_ne.
  - destruct (dict_get k es) as [c|] eqn:Hk; [|done].
    destruct Hd as [Hne|[<- Hd]].
    + simpl. by rewrite dict_get_set_ne.
    + cbn [fs_lookup]. rewrite dict_get_set_eq, Hk. by apply IH.
Qed.

Lemma fs_remove_gone n p : p ≠ [] → fs_lookup (fs_remove n p) p = None.
Proof.
  revert n. induction p as [|k p IH]; intros n Hp; [done|].
  simpl. destruct n as [|es]; [done|]. destruct p as [|k' p].
  - simpl. by rewrite dict_get_del_eq.
  - destruct (dict_get k es) as [c|] eqn:Hk.
    + cbn [fs_lookup]. rewrite dict_get_set_eq. by apply IH.
    + cbn [fs_lookup]. by rewrite Hk.
Qed.

Lemma fs_mkdir_p_cons es k p :
  fs_mkdir_p (Dir es) (k :: p) =
  match fs_mkdir_p (default (Dir []) (dict_get k es)) p with
  | Some c' => Some (Dir (dict_set k c' es))
  | None => None
  end.
Proof. reflexivity. Qed.

(** A directory that has been removed can be created again. *)
Lemma fs_mkdir_p_removed n p es :
  fs_lookup n p = Some (Dir es) → is_Some (fs_mkdir_p (fs_remove n p) p).
Proof.
  revert n. induction p as [|k p IH]; intros n Hl.
  - injection Hl as ->. by eauto.
  - simpl in Hl. destruct n as [|es0]; [done|].
    destruct (dict_get k es0) as [c|] eqn:Hk; [|done].
    destruct p as [|k' p].
    + simpl. rewrite dict_get_del_eq. by eauto.
    + assert (fs_remove (Dir es0) (k :: k' :: p)
              = Dir (dict_set k (fs_remove c (k' :: p)) es0)) as ->
        by (by simpl; rewrite Hk).
      rewrite fs_mkdir_p_cons, dict_get_set_eq.
      change (default (Dir []) (Some (fs_remove c (k' :: p))))
        with (fs_remove c (k' :: p)).
      destruct (IH c Hl) as [c' ->]. by eauto.
Qed.

(** A name that is free in a directory can be given to a new directory. *)
Lemma fs_mkdir_p_child n p es k :
  fs_lookup n p = Some (Dir es) → dict_get k es = None →
  is_Some (fs_mkdir_p n (p </> k)).
Proof.
  unfold path_child. revert n. induction p as [|k' p IH]; intros n Hl Hk.
  - injection Hl as ->. simpl. rewrite Hk. by eauto.
  - simpl in Hl. destruct n as [|es0]; [done|].
    destruct (dict_get k' es0) as [c|] eqn:Hk'; [|done].
    rewrite <- app_comm_cons, fs_mkdir_p_cons, Hk'.
    change (default (Dir []) (Some c)) with c.
    destruct (IH c Hl Hk) as [c' ->]. by eauto.
Qed.

Lemma keeps_rmtree q p : diverge p q = true → keeps q (rmtree p).
Proof.
  intros Hd st. unfold rmtree. destruct (fs_lookup (fs st) p) as [[|es]|]; try done.
  simpl. by apply fs_remove_frame.
Qed.

Lemma keeps_copytree q src dst : diverge dst q = true → keeps q (copytree src dst).
Proof.
  intros Hd st. unfold copytree.
  destruct (fs_lookup (fs st) src) as [[|es]|]; try done.
  destruct (fs_lookup (fs st) dst); [done|].
  destruct (fs_mkdir_p (fs st) dst) as [n|] eqn:Hn; [|done].
  destruct (fs_put n dst (Dir es)) as [n'|] eqn:Hn'; [|done].
  simpl. rewrite (fs_put_frame _ _ _ _ _ Hn' Hd). by apply (fs_mkdir_p_frame _ _ _ _ Hn).
Qed.

Lemma keeps_copy_and_overwrite q from to :
  diverge to q = true → keeps q (copy_and_overwrite from to).
Proof.
  intros Hd. unfold copy_and_overwrite, log_info.
  apply keeps_bind; [apply keeps_reads, reads_path_exists|]. intros ex.
  apply keeps_bind; [destruct ex; [by apply keeps_rmtree | apply keeps_reads, reads_ret]|].
  intros _. apply keeps_bind; [apply keeps_emit|]. intros _. by apply keeps_copytree.
Qed.

(** X11. Installing the plugins changes nothing outside the
    plugin folder of the cog manager, however it ends. *)
Theorem install_cogs_stays_in_cog_folder cogs st q :
  diverge CogManagerCogFolder q = true →
  fs_lookup (fs (install_or_update_pylav_cogs cogs st).2) q = fs_lookup (fs st) q.
Proof.
  intros Hd. revert st.
  change (keeps q (install_or_update_pylav_cogs cogs)).
  unfold install_or_update_pylav_cogs. apply keeps_for_each. intros cog _.
  apply keeps_copy_and_overwrite. unfold path_child. by apply diverge_app.
Qed.


Lemma fs_mkdir_p_lookup n p n' : fs_mkdir_p n p = Some n' → is_Some (fs_lookup n' p).
Proof.
  intros Hmk. pose proof (fs_mkdir_p_is_dir _ _ _ Hmk) as Hd. unfold fs_is_dir in Hd.
  destruct (fs_lookup n' p); [by eauto | done].
Qed.

(** X9. When the source and the destination part ways (neither path is the
    other or lies below it), copying a directory onto a destination that is
    a directory, or that is absent in an existing directory, replaces the
    destination by the entries of the source: nothing of an older
    destination survives, the source is intact, and every path that parts
    ways with the destination is as before. *)
Theorem copy_and_overwrite_spec from to st es :
  fs_lookup (fs st) from = Some (Dir es) →
  diverge to from = true →
  (fs_is_dir (fs st) to = true
   ∨ (fs_lookup (fs st) to = None
      ∧ ∃ parent name entries,
          to = parent </> name ∧ fs_lookup (fs st) parent = Some (Dir entries))) →
  ∃ st',
    copy_and_overwrite from to st = (Ret tt, st')
    ∧ fs_lookup (fs st') to = Some (Dir es)
    ∧ fs_lookup (fs st') from = Some (Dir es)
    ∧ ∀ q, diverge to q = true → fs_lookup (fs st') q = fs_lookup (fs st) q.
Proof.
  intros Hfrom Hd Hto.
  assert (to ≠ []) as Hne by (by intros ->).
  assert (∃ b st1, path_exists to st = (Ret b, st)
                 ∧ ((if (b : bool) then rmtree to else mret tt) : M unit) st = (Ret tt, st1)
                 ∧ fs_lookup (fs st1) to = None
                 ∧ is_Some (fs_mkdir_p (fs st1) to)
                 ∧ ∀ q, diverge to q = true → fs_lookup (fs st1) q = fs_lookup (fs st) q)
    as (b & st1 & Hex & Hstep & Hgone & [n Hmk] & Hframe1).
  { unfold fs_is_dir in Hto.
    destruct Hto as [Hdir|(Hnone & parent & name & entries & -> & Hp)].
    - destruct (fs_lookup (fs st) to) as [[|old]|] eqn:Hl; try done.
      exists true,
        {| fs := fs_remove (fs st) to; trace := (trace st ++ [EvRmtree to])%list |}.
      split; [|split; [|split; [|split]]].
      + unfold path_exists, fs_exists. by rewrite Hl.
      + unfold rmtree. by rewrite Hl.
      + by apply fs_remove_gone.
      + by apply (fs_mkdir_p_removed _ _ old).
      + intros q Hq. by apply fs_remove_frame.
    - exists false, st. split; [|split; [|split; [|split]]]; try done.
      + unfold path_exists, fs_exists. by rewrite Hnone.
      + apply (fs_mkdir_p_child _ _ entries); [done|].
        unfold path_child in Hnone. rewrite fs_lookup_app, Hp in Hnone. simpl in Hnone.
        by destruct (dict_get name entries). }
  destruct (fs_mkdir_p_lookup _ _ _ Hmk) as [x Hx].
  destruct (fs_put_exists _ _ _ (Dir es) Hx) as [n' Hn'].
  assert (fs_lookup (fs st1) from = Some (Dir es)) as Hfrom1
    by (by rewrite Hframe1).
  exists {| fs := n';
            trace := ((trace st1 ++ [EvLog "Copying %s to %s" [LPath from; LPath to]])
                      ++ [EvCopytree from to])%list |}.
  split; [|split; [|split]].
  - unfold copy_and_overwrite. mstep ltac:(exact Hex). mstep ltac:(exact Hstep).
    unfold log_info. mstep ltac:(reflexivity).
    unfold copytree. cbn [fs trace]. by rewrite Hfrom1, Hgone, Hmk, Hn'.
  - by apply (fs_put_lookup_eq _ _ _ _ Hn').
  - cbn [fs]. rewrite (fs_put_frame _ _ _ _ _ Hn' Hd).
    by rewrite (fs_mkdir_p_frame _ _ _ _ Hmk Hd).
  - intros q Hq. cbn [fs]. rewrite (fs_put_frame _ _ _ _ _ Hn' Hq).
    rewrite (fs_mkdir_p_frame _ _ _ _ Hmk Hq). by apply Hframe1.
Qed.

(** X10. When the destination of the first plugin is a regular file,
    [rmtree] raises: the copy and the whole installation of the plugins end
    with [OSError] and the state is as before. *)
Theorem copy_onto_file_fails cogs cog rest st text :
  dict_values cogs = cog :: rest →
  fs_lookup (fs st) (CogManagerCogFolder </> path_name cog) = Some (File text) →
  copy_and_overwrite cog (CogManagerCogFolder </> path_name cog) st = (Raise OSError, st)
  ∧ install_or_update_pylav_cogs cogs st = (Raise OSError, st).
Proof.
  intros Hcogs Hto.
  assert (copy_and_overwrite cog (CogManagerCogFolder </> path_name cog) st
          = (Raise OSError, st)) as Hcopy.
  { unfold copy_and_overwrite.
    mstep ltac:(unfold path_exists, fs_exists; rewrite Hto; reflexivity).
    apply bind_raise. unfold rmtree. by rewrite Hto. }
  split; [exact Hcopy|].
  unfold install_or_update_pylav_cogs. rewrite Hcogs. cbn [for_each].
  by apply bind_raise.
Qed.

(** ** The registries, continued *)

Lemma json_path_snoc keys k doc v :
  json_path (keys ++ [k])%list doc = Ret v →
  ∃ d, json_path keys doc = Ret (JObj d) ∧ dict_get k d = Some v.
Proof.
  revert doc. induction keys as [|key keys IH]; intros doc; simpl.
  - destruct doc; simpl; try done.
    destruct (dict_get k members) as [x|] eqn:Hk; simpl; [|done].
    intros [= ->]. by eauto.
  - destruct (py_getitem doc key) as [child| |]; simpl; try done. apply IH.
Qed.

Lemma json_assign_raise keys k v doc x :
  json_path keys doc = Raise x → json_assign keys k v doc = Raise x.
Proof.
  revert doc. induction keys as [|key keys IH]; intros doc; simpl; [done|].
  destruct (py_getitem doc key) as [child| |]; simpl; try done.
  intros Hp. by rewrite (IH _ Hp).
Qed.

Lemma json_assign_not_object keys k v doc j :
  json_path keys doc = Ret j → (∀ d, j ≠ JObj d) →
  json_assign keys k v doc = Raise TypeError.
Proof.
  revert doc. induction keys as [|key keys IH]; intros doc; simpl.
  - intros [= ->] Hj. destruct j; try done. by destruct (Hj members).
  - destruct (py_getitem doc key) as [child| |]; simpl; try done.
    intros Hp Hj. by rewrite (IH _ Hp Hj).
Qed.

Section registries_more.
Context `{JsonCodec}.

(** A registry that lists [pylav] is left alone. *)
Lemma repo_manager_present (st : state) text doc v :
  fs_lookup (fs st) RepoManagerSetting = Some (File text) →
  json_load (universal_newlines text) = Some doc →
  json_path ["170708480"; "GLOBAL"; "repos"; "pylav"] doc = Ret v →
  create_or_update_repo_manager_setting st =
    (Ret tt,
     {| fs := fs st;
        trace := (trace st ++ [EvLog "Updating RepoManager setting" []])%list |}).
Proof.
  intros Hfile Hload Hpath.
  apply (json_path_snoc ["170708480"; "GLOBAL"; "repos"]) in Hpath as (repos & Hrepos & Hk).
  unfold create_or_update_repo_manager_setting.
  mstep ltac:(unfold path_exists, fs_exists; rewrite Hfile; reflexivity).
  cbn [negb]. unfold log_info.
  mstep ltac:(reflexivity).
  mstep ltac:(unfold read_text; cbn [fs]; rewrite Hfile; reflexivity).
  mstep ltac:(unfold load_json; rewrite Hload; reflexivity).
  mstep ltac:(unfold lift; rewrite Hrepos; reflexivity).
  mstep ltac:(unfold lift, py_contains, dict_mem; rewrite Hk; reflexivity).
  reflexivity.
Qed.

(** X4. An existing repo manager registry that does not list
    [pylav] is written back with [pylav] on [master]: every other key of the
    document and every other path of the volume is as before, and when the
    text written reads back as the document, a second call writes nothing. *)
Theorem repo_manager_insert (st : state) text doc repos :
  fs_lookup (fs st) RepoManagerSetting = Some (File text) →
  json_load (universal_newlines text) = Some doc →
  json_path ["170708480"; "GLOBAL"; "repos"] doc = Ret (JObj repos) →
  dict_get "pylav" repos = None →
  ∃ doc' st',
    create_or_update_repo_manager_setting st = (Ret tt, st')
    ∧ trace st' =
        (trace st ++ [EvLog "Updating RepoManager setting" [];
                      EvWrite RepoManagerSetting (json_dump doc')])%list
    ∧ fs_lookup (fs st') RepoManagerSetting = Some (File (json_dump doc'))
    ∧ json_path ["170708480"; "GLOBAL"; "repos"; "pylav"] doc' = Ret (JStr "master")
    ∧ (∀ q, diverge ["170708480"; "GLOBAL"; "repos"; "pylav"] q = true →
            json_path q doc' = json_path q doc)
    ∧ (∀ q, diverge RepoManagerSetting q = true →
            fs_lookup (fs st') q = fs_lookup (fs st) q)
    ∧ (json_load (universal_newlines (json_dump doc')) = Some doc' →
       create_or_update_repo_manager_setting st' =
         (Ret tt,
          {| fs := fs st';
             trace := (trace st' ++ [EvLog "Updating RepoManager setting" []])%list |})).
Proof.
  intros Hfile Hload Hrepos Hk.
  destruct (json_assign_ok _ "pylav" (JStr "master") _ _ Hrepos) as [doc' Hassign].
  destruct (fs_put_exists _ _ _ (File (json_dump doc')) Hfile) as [root' Hput].
  pose proof (json_assign_path_eq _ _ _ _ _ Hassign) as Hnew.
  exists doc',
    {| fs := root';
       trace := ((trace st ++ [EvLog "Updating RepoManager setting" []])
                 ++ [EvWrite RepoManagerSetting (json_dump doc')])%list |}.
  split; [|split; [|split; [|split; [|split; [|split]]]]].
  - unfold create_or_update_repo_manager_setting.
    mstep ltac:(unfold path_exists, fs_exists; rewrite Hfile; reflexivity).
    cbn [negb]. unfold log_info.
    mstep ltac:(reflexivity).
    mstep ltac:(unfold read_text; cbn [fs]; rewrite Hfile; reflexivity).
    mstep ltac:(unfold load_json; rewrite Hload; reflexivity).
    mstep ltac:(unfold lift; rewrite Hrepos; reflexivity).
    mstep ltac:(unfold lift, py_contains, dict_mem; rewrite Hk; reflexivity).
    cbn [negb].
    mstep ltac:(unfold lift; rewrite Hassign; reflexivity).
    unfold write_text. cbn [fs trace]. by rewrite Hfile, Hput.
  - cbn [trace]. by rewrite <- app_assoc.
  - by apply (fs_put_lookup_eq _ _ _ _ Hput).
  - exact Hnew.
  - intros q Hq. by apply (json_assign_frame _ _ _ _ _ _ Hassign).
  - intros q Hq. by apply (fs_put_frame _ _ _ _ _ Hput).
  - intros Hround. apply (repo_manager_present _ (json_dump doc') doc' (JStr "master")).
    + by apply (fs_put_lookup_eq _ _ _ _ Hput).
    + exact Hround.
    + exact Hnew.
Qed.

(** X3. Without a settings file, and with its directory in place,
    the repo manager registry is created with the one [pylav] entry on
    [master] and nothing else on the volume changes; when the text written
    reads back as that document, a second call leaves the file alone. *)
Theorem repo_manager_create (st : state) entries :
  fs_lookup (fs st) RepoManagerSetting = None →
  fs_lookup (fs st) ["data"; "cogs"; "RepoManager"] = Some (Dir entries) →
  ∃ st',
    create_or_update_repo_manager_setting st = (Ret tt, st')
    ∧ trace st' =
        (trace st ++ [EvLog "Creating RepoManager setting" [];
                      EvWrite RepoManagerSetting (json_dump repo_manager_default)])%list
    ∧ fs_lookup (fs st') RepoManagerSetting = Some (File (json_dump repo_manager_default))
    ∧ (∀ q, diverge RepoManagerSetting q = true →
            fs_lookup (fs st') q = fs_lookup (fs st) q)
    ∧ (json_load (universal_newlines (json_dump repo_manager_default))
       = Some repo_manager_default →
       create_or_update_repo_manager_setting st' =
         (Ret tt,
          {| fs := fs st';
             trace := (trace st' ++ [EvLog "Updating RepoManager setting" []])%list |})).
Proof.
  intros Hnone Hparent.
  destruct (fs_put_child _ _ _ "settings.json" (File (json_dump repo_manager_default))
              Hparent) as [root' Hput].
  change (["data"; "cogs"; "RepoManager"] </> "settings.json") with RepoManagerSetting in Hput.
  exists {| fs := root';
            trace := ((trace st ++ [EvLog "Creating RepoManager setting" []])
                      ++ [EvWrite RepoManagerSetting (json_dump repo_manager_default)])%list |}.
  split; [|split; [|split; [|split]]].
  - unfold create_or_update_repo_manager_setting.
    mstep ltac:(unfold path_exists, fs_exists; rewrite Hnone; reflexivity).
    cbn [negb]. unfold log_info. mstep ltac:(reflexivity).
    unfold write_text. cbn [fs trace]. rewrite Hnone.
    fold repo_manager_default. by rewrite Hput.
  - cbn [trace]. by rewrite <- app_assoc.
  - by apply (fs_put_lookup_eq _ _ _ _ Hput).
  - intros q Hq. by apply (fs_put_frame _ _ _ _ _ Hput).
  - intros Hround.
    apply (repo_manager_present _ (json_dump repo_manager_default) repo_manager_default
             (JStr "master")).
    + by apply (fs_put_lookup_eq _ _ _ _ Hput).
    + exact Hround.
    + reflexivity.
Qed.

(** X6. An update of an existing downloader registry that is
    not JSON, that lacks a key of the chain ["998240343"]["GLOBAL"]
    ["installed_cogs"], or that holds something other than an object there,
    raises after the log line and writes nothing. *)
Theorem downloader_update_failure (st : state) text data :
  fs_lookup (fs st) DownloaderSetting = Some (File text) →
  (json_load (universal_newlines text) = None →
   create_or_update_downloader_setting data st =
     (Raise JSONDecodeError,
      {| fs := fs st;
         trace := (trace st ++ [EvLog "Updating Downloader setting" []])%list |}))
  ∧ (∀ doc x,
       json_load (universal_newlines text) = Some doc →
       json_path ["998240343"; "GLOBAL"; "installed_cogs"] doc = Raise x →
       create_or_update_downloader_setting data st =
         (Raise x,
          {| fs := fs st;
             trace := (trace st ++ [EvLog "Updating Downloader setting" []])%list |}))
  ∧ (∀ doc j,
       json_load (universal_newlines text) = Some doc →
       json_path ["998240343"; "GLOBAL"; "installed_cogs"] doc = Ret j →
       (∀ d, j ≠ JObj d) →
       create_or_update_downloader_setting data st =
         (Raise TypeError,
          {| fs := fs st;
             trace := (trace st ++ [EvLog "Updating Downloader setting" []])%list |})).
Proof.
  intros Hfile.
  split; [|split].
  - intros Hload. unfold create_or_update_downloader_setting.
    mstep ltac:(unfold path_exists, fs_exists; rewrite Hfile; reflexivity).
    cbn [negb]. unfold log_info. mstep ltac:(reflexivity).
    mstep ltac:(unfold read_text; cbn [fs]; rewrite Hfile; reflexivity).
    apply bind_raise. unfold load_json. by rewrite Hload.
  - intros doc x Hload Hpath. unfold create_or_update_downloader_setting.
    mstep ltac:(unfold path_exists, fs_exists; rewrite Hfile; reflexivity).
    cbn [negb]. unfold log_info. mstep ltac:(reflexivity).
    mstep ltac:(unfold read_text; cbn [fs]; rewrite Hfile; reflexivity).
    mstep ltac:(unfold load_json; rewrite Hload; reflexivity).
    apply bind_raise. unfold lift. by rewrite (json_assign_raise _ _ _ _ _ Hpath).
  - intros doc j Hload Hpath Hj. unfold create_or_update_downloader_setting.
    mstep ltac:(unfold path_exists, fs_exists; rewrite Hfile; reflexivity).
    cbn [negb]. unfold log_info. mstep ltac:(reflexivity).
    mstep ltac:(unfold read_text; cbn [fs]; rewrite Hfile; reflexivity).
    mstep ltac:(unfold load_json; rewrite Hload; reflexivity).
    apply bind_raise. unfold lift. by rewrite (json_assign_not_object _ _ _ _ _ Hpath Hj).
Qed.

(** X5. Without a settings file, and with its directory in
    place, the downloader registry is created with the payload under the
    [pylav] key; when the text written reads back as that document, a later
    update with another payload leaves the file that a creation with that
    payload writes. *)
Theorem downloader_create_then_update (st : state) entries data data2 :
  fs_lookup (fs st) DownloaderSetting = None →
  fs_lookup (fs st) ["data"; "cogs"; "Downloader"] = Some (Dir entries) →
  ∃ st',
    create_or_update_downloader_setting data st = (Ret tt, st')
    ∧ trace st' =
        (trace st ++ [EvLog "Creating Downloader setting" [];
                      EvWrite DownloaderSetting (json_dump (downloader_default data))])%list
    ∧ fs_lookup (fs st') DownloaderSetting
      = Some (File (json_dump (downloader_default data)))
    ∧ (∀ q, diverge DownloaderSetting q = true →
            fs_lookup (fs st') q = fs_lookup (fs st) q)
    ∧ (json_load (universal_newlines (json_dump (downloader_default data)))
       = Some (downloader_default data) →
       ∃ st'',
         create_or_update_downloader_setting data2 st' = (Ret tt, st'')
         ∧ fs_lookup (fs st'') DownloaderSetting
           = Some (File (json_dump (downloader_default data2)))).
Proof.
  intros Hnone Hparent.
  destruct (fs_put_child _ _ _ "settings.json" (File (json_dump (downloader_default data)))
              Hparent) as [root' Hput].
  change (["data"; "cogs"; "Downloader"] </> "settings.json") with DownloaderSetting in Hput.
  pose proof (fs_put_lookup_eq _ _ _ _ Hput) as Hfile.
  exists {| fs := root';
            trace := ((trace st ++ [EvLog "Creating Downloader setting" []])
                      ++ [EvWrite DownloaderSetting
                            (json_dump (downloader_default data))])%list |}.
  split; [|split; [|split; [|split]]].
  - unfold create_or_update_downloader_setting.
    mstep ltac:(unfold path_exists, fs_exists; rewrite Hnone; reflexivity).
    cbn [negb]. unfold log_info. mstep ltac:(reflexivity).
    unfold write_text. cbn [fs trace]. rewrite Hnone.
    fold (downloader_default data). by rewrite Hput.
  - cbn [trace]. by rewrite <- app_assoc.
  - exact Hfile.
  - intros q Hq. by apply (fs_put_frame _ _ _ _ _ Hput).
  - intros Hround.
    destruct (fs_put_exists _ _ _ (File (json_dump (downloader_default data2))) Hfile)
      as [root'' Hput2].
    eexists. split.
    + unfold create_or_update_downloader_setting.
      mstep ltac:(unfold path_exists, fs_exists; cbn [fs]; rewrite Hfile; reflexivity).
      cbn [negb]. unfold log_info. mstep ltac:(reflexivity).
      mstep ltac:(unfold read_text; cbn [fs]; rewrite Hfile; reflexivity).
      mstep ltac:(unfold load_json; rewrite Hround; reflexivity).
      assert (json_assign ["998240343"; "GLOBAL"; "installed_cogs"] "pylav" data2
                (downloader_default data) = Ret (downloader_default data2)) as Hassign
        by reflexivity.
      mstep ltac:(unfold lift; rewrite Hassign; reflexivity).
      unfold write_text. cbn [fs trace]. rewrite Hfile, Hput2. reflexivity.
    + by apply (fs_put_lookup_eq _ _ _ _ Hput2).
Qed.
End registries_more.

(** ** The payload of the downloader registry *)

Lemma payload_lookup commit name (l : list path) acc :
  dict_get name
    (fold_left
       (λ acc cog, dict_set (path_name cog) (cog_record (path_name cog) commit) acc) l acc)
  = if existsb (String.eqb name) (map path_name l)
    then Some (cog_record name commit) else dict_get name acc.
Proof.
  revert acc. induction l as [|cog l IH]; intros acc; [done|].
  cbn [fold_left map existsb]. rewrite IH.
  destruct (existsb (String.eqb name) (map path_name l)); [by rewrite orb_true_r|].
  rewrite orb_false_r. destruct (String.eqb_spec name (path_name cog)) as [->|Hne].
  - by rewrite dict_get_set_eq.
  - by rewrite dict_get_set_ne.
Qed.

Lemma dict_mem_keys {V} (k : string) (d : list (string * V)) :
  dict_mem k d = existsb (String.eqb k) (dict_keys d).
Proof.
  unfold dict_mem, dict_keys. induction d as [|[k' v'] d IH]; simpl; [done|].
  by destruct (String.eqb k k').
Qed.

Lemma dict_set_Forall {V} (P : string * V → Prop) k v d :
  (∀ k', k = k' → P (k', v)) → Forall P d → Forall P (dict_set k v d).
Proof.
  intros Hnew. induction 1 as [|[k' v'] d Hkv Hd IH]; simpl.
  - constructor; [by apply Hnew | constructor].
  - destruct (String.eqb_spec k k') as [->|Hne]; constructor; auto.
Qed.

Lemma path_name_child p name : path_name (p </> name) = name.
Proof. unfold path_name, path_child. apply List.last_last. Qed.

(** X17. The payload for the downloader registry has a record
    for a name exactly when the name is that of one of the plugin
    directories, and the record names the repository [pylav], the module,
    the commit, and is pinned. *)
Theorem downloader_payload_spec cogs commit name :
  py_getitem (generate_updated_downloader_setting cogs commit) name =
    if existsb (String.eqb name) (map path_name (dict_values cogs))
    then Ret (cog_record name commit) else Raise KeyError.
Proof.
  unfold generate_updated_downloader_setting, py_getitem.
  pose proof (payload_lookup commit name (dict_values cogs) []) as Hlook.
  unfold cog_record in Hlook. rewrite Hlook. fold (cog_record name commit).
  by destruct (existsb (String.eqb name) (map path_name (dict_values cogs))).
Qed.


Lemma discovered_paths cfg names acc st cogs st' :
  fold_m
    (λ cogs name,
       let cog := RepoManagerRepoFolder cfg </> name in
       d ← is_dir cog;
       if d && (startswith "pl" name || String.eqb name "audio")
       then mret (dict_set name cog cogs)
       else mret cogs)
    names acc st = (Ret cogs, st') →
  Forall (λ kv, kv.2 = RepoManagerRepoFolder cfg </> kv.1) acc →
  Forall (λ kv, kv.2 = RepoManagerRepoFolder cfg </> kv.1) cogs.
Proof.
  revert acc st. induction names as [|x names IH]; intros acc st Hrun Hacc.
  - by injection Hrun as <- _.
  - cbn [fold_m] in Hrun. apply bind_inv_ret in Hrun as (acc' & st0 & Hbody & Hrest).
    apply (IH _ _ Hrest). cbv zeta in Hbody. unfold is_dir, mbind, M_bind in Hbody.
    destruct (fs_is_dir (fs st) (RepoManagerRepoFolder cfg </> x)
              && (startswith "pl" x || String.eqb x "audio"));
      injection Hbody as <- _; [|done].
    apply dict_set_Forall; [by intros k' <- | done].
Qed.

(** X18. For the mapping that plugin discovery returns, the
    payload has a record under exactly the keys of the mapping. *)
Theorem payload_of_discovered cfg st cogs st' commit name :
  get_pylav_cogs cfg st = (Ret cogs, st') →
  py_getitem (generate_updated_downloader_setting cogs commit) name =
    if dict_mem name cogs then Ret (cog_record name commit) else Raise KeyError.
Proof.
  intros Hrun. unfold get_pylav_cogs in Hrun.
  apply bind_inv_ret in Hrun as (names & st0 & _ & Hrun).
  pose proof (discovered_paths _ _ _ _ _ _ Hrun (List.Forall_nil _)) as Hpaths.
  unfold generate_updated_downloader_setting, py_getitem.
  pose proof (payload_lookup commit name (dict_values cogs) []) as Hlook.
  unfold cog_record in Hlook. rewrite Hlook. fold (cog_record name commit).
  clear Hlook. rewrite dict_mem_keys.
  replace (map path_name (dict_values cogs)) with (dict_keys cogs);
    [by destruct (existsb (String.eqb name) (dict_keys cogs))|].
  unfold dict_keys, dict_values. clear Hrun. induction Hpaths as [|[k v] d Hkv Hd IH]; [done|].
  cbn [map fst snd] in *. subst v. rewrite path_name_child. f_equal. exact IH.
Qed.

(** ** The repository, continued *)

Lemma run_git_ok w env args cwd st es code es' out :
  fs_lookup (fs st) cwd = Some (Dir es) →
  git w env args es = Some (code, es', out) →
  ∃ n,
    run_git w env args cwd st =
      (Ret (code, out), {| fs := n; trace := (trace st ++ [EvGit args cwd])%list |})
    ∧ fs_lookup n cwd = Some (Dir es').
Proof.
  intros Hcwd Hgit. destruct (fs_put_exists _ _ _ (Dir es') Hcwd) as [n Hn].
  exists n. split; [|by apply (fs_put_lookup_eq _ _ _ _ Hn)].
  unfold run_git. by rewrite Hcwd, Hgit, Hn.
Qed.


(** X8. With a [.git] in the folder of the working copy the
    function runs reset, clean, pull and rev-parse in this order, each on
    what the one before left; the statuses of the first three are ignored,
    and the outcome is the stripped output of [rev-parse] or
    [CalledProcessError]. *)
Theorem update_resets_cleans_pulls w cfg st es dotgit
    c1 es1 o1 c2 es2 o2 c3 es3 o3 c4 es4 o4 :
  fs_lookup (fs st) (RepoManagerRepoFolder cfg) = Some (Dir es) →
  dict_get ".git" es = Some dotgit →
  git w (get_git_env w) ["git"; "reset"; "--hard"; "HEAD"; "-q"] es = Some (c1, es1, o1) →
  git w (get_git_env w) ["git"; "clean"; "-f"; "-d"; "-q"] es1 = Some (c2, es2, o2) →
  git w (get_git_env w) ["git"; "pull"; "-q"; "--rebase"; "--autostash"] es2
  = Some (c3, es3, o3) →
  git w (get_git_env w) ["git"; "rev-parse"; "HEAD"] es3 = Some (c4, es4, o4) →
  ∃ st',
    clone_or_update_pylav_repo w cfg st =
      (if (c4 =? 0)%Z then Ret (strip o4) else Raise CalledProcessError, st')
    ∧ fs_lookup (fs st') (RepoManagerRepoFolder cfg) = Some (Dir es4)
    ∧ trace st' =
        (trace st
         ++ [EvLog "Updating PyLav repo" [];
             EvGit ["git"; "reset"; "--hard"; "HEAD"; "-q"] (RepoManagerRepoFolder cfg);
             EvGit ["git"; "clean"; "-f"; "-d"; "-q"] (RepoManagerRepoFolder cfg);
             EvGit ["git"; "pull"; "-q"; "--rebase"; "--autostash"]
               (RepoManagerRepoFolder cfg);
             EvGit ["git"; "rev-parse"; "HEAD"] (RepoManagerRepoFolder cfg)])%list.
Proof.
  intros Hrepo Hgit H1 H2 H3 H4.
  set (s0 := {| fs := fs st; trace := (trace st ++ [EvLog "Updating PyLav repo" []])%list |}).
  destruct (run_git_ok w _ _ _ s0 _ _ _ _ Hrepo H1) as (n1 & R1 & L1).
  destruct (run_git_ok w _ _ (RepoManagerRepoFolder cfg)
              {| fs := n1; trace := (trace s0 ++ [EvGit ["git"; "reset"; "--hard"; "HEAD"; "-q"]
                                                     (RepoManagerRepoFolder cfg)])%list |}
              _ _ _ _ L1 H2) as (n2 & R2 & L2).
  cbn [trace fs] in R2.
  destruct (run_git_ok w _ _ (RepoManagerRepoFolder cfg)
              {| fs := n2;
                 trace := ((trace s0 ++ [EvGit ["git"; "reset"; "--hard"; "HEAD"; "-q"]
                                           (RepoManagerRepoFolder cfg)])
                           ++ [EvGit ["git"; "clean"; "-f"; "-d"; "-q"]
                                 (RepoManagerRepoFolder cfg)])%list |}
              _ _ _ _ L2 H3) as (n3 & R3 & L3).
  cbn [trace fs] in R3.
  destruct (run_git_ok w _ _ (RepoManagerRepoFolder cfg)
              {| fs := n3;
                 trace := (((trace s0 ++ [EvGit ["git"; "reset"; "--hard"; "HEAD"; "-q"]
                                            (RepoManagerRepoFolder cfg)])
                            ++ [EvGit ["git"; "clean"; "-f"; "-d"; "-q"]
                                  (RepoManagerRepoFolder cfg)])
                           ++ [EvGit ["git"; "pull"; "-q"; "--rebase"; "--autostash"]
                                 (RepoManagerRepoFolder cfg)])%list |}
              _ _ _ _ L3 H4) as (n4 & R4 & L4).
  cbn [trace fs] in R4.
  eexists. split; [|split].
  - unfold clone_or_update_pylav_repo. cbv zeta.
    mstep ltac:(unfold path_exists, fs_exists, path_child; rewrite fs_lookup_app, Hrepo;
                cbn [fs_lookup]; rewrite Hgit; reflexivity).
    unfold log_info, subprocess_call, subprocess_check_output.
    erewrite bind_ret.
    2: { mstep ltac:(reflexivity). fold s0.
         mstep ltac:(mstep ltac:(exact R1); reflexivity).
         mstep ltac:(mstep ltac:(exact R2); reflexivity).
         mstep ltac:(mstep ltac:(exact R3); reflexivity).
         reflexivity. }
    cbv beta. unfold mbind, M_bind. rewrite R4. cbn [fst snd].
    destruct (c4 =? 0)%Z; reflexivity.
  - exact L4.
  - unfold s0. cbn [trace]. by rewrite <- !app_assoc.
Qed.

(** ** The guarded block and the commit file *)

Lemma keeps_write_text q p text : diverge p q = true → keeps q (write_text p text).
Proof.
  intros Hd st. unfold write_text. destruct (fs_lookup (fs st) p) as [[|es]|]; try done;
    (destruct (fs_put (fs st) p (File text)) as [n|] eqn:Hn; [|done]);
    simpl; by apply (fs_put_frame _ _ _ _ _ Hn).
Qed.

Lemma emits_write_text P p text :
  P (EvWrite p text) = true → emits P (write_text p text).
Proof.
  intros HP st. unfold write_text.
  destruct (fs_lookup (fs st) p) as [[|es]|];
    try (exists []; simpl; by rewrite app_nil_r);
    (destruct (fs_put (fs st) p (File text)); [|exists []; simpl; by rewrite app_nil_r]);
    exists [EvWrite p text]; simpl; by rewrite HP.
Qed.

Lemma emits_popen_pip P w env reqs :
  P (EvPopen reqs) = true → emits P (popen_pip w env reqs).
Proof.
  intros HP st. unfold popen_pip.
  destruct (forallb is_str (elements reqs)); [|exists []; simpl; by rewrite app_nil_r].
  destruct (pip w env reqs); [|exists []; simpl; by rewrite app_nil_r].
  exists [EvPopen reqs]. simpl. by rewrite HP.
Qed.

Lemma emits_tail_output P lines :
  (∀ format args, P (EvLog format args) = true) → emits P (tail_output lines).
Proof.
  intros HP. induction lines as [|line rest IH]; simpl.
  - apply emits_reads, reads_ret.
  - destruct line as [|c line]; [apply emits_reads, reads_ret|].
    apply emits_bind; [apply emits_emit, HP|]. intros _.
    destruct (startswith "Successfully installed" (String c line));
      [apply emits_reads, reads_ret | apply IH].
Qed.

Lemma emits_try_except {A} P (body : M A) handler :
  emits P body → (∀ e, emits P (handler e)) → emits P (try_except body handler).
Proof.
  intros Hb Hh st. unfold try_except. destruct (Hb st) as (evs & Ht & Hevs).
  destruct (body st) as [[a|e|c] st']; simpl in *; try by eauto.
  destruct (Hh e st') as (evs' & Ht' & Hevs').
  exists (evs ++ evs')%list. rewrite Ht', Ht, app_assoc. split; [done|].
  by rewrite forallb_app, Hevs, Hevs'.
Qed.

Lemma emits_try_finally {A} P (body : M A) final :
  emits P body → emits P final → emits P (try_finally body final).
Proof.
  intros Hb Hf st. unfold try_finally. destruct (Hb st) as (evs & Ht & Hevs).
  destruct (body st) as [r st']. simpl in *.
  destruct (Hf st') as (evs' & Ht' & Hevs').
  exists (evs ++ evs')%list. rewrite forallb_app, Hevs, Hevs'. split; [|done].
  destruct (final st') as [[a|e|c] st'']; simpl in *; by rewrite Ht', Ht, app_assoc.
Qed.

Section guarded.
Context `{JsonCodec}.

Lemma guarded_phase_fs cfg cogs c process st :
  fs (guarded_phase cfg cogs c process st).2 = fs (guarded_body cfg cogs c process st).2.
Proof.
  unfold guarded_phase, try_finally, try_except.
  destruct (guarded_body cfg cogs c process st) as [[[]|x|code] st']; destruct process; done.
Qed.

Lemma keeps_registries cfg data :
  keeps PyLavHashFile
    ((if IS_JSON cfg then
        create_or_update_downloader_setting data;;
        create_or_update_repo_manager_setting
      else mret tt) : M unit).
Proof.
  unfold create_or_update_downloader_setting, create_or_update_repo_manager_setting,
    log_info.
  repeat first
    [ progress intros
    | apply keeps_bind
    | apply keeps_emit
    | apply keeps_write_text; reflexivity
    | apply keeps_reads; solve [solve_reads]
    | match goal with
      | |- keeps _ (if ?b then _ else _) => destruct b
      end ].
Qed.

Lemma guarded_body_commit cfg cogs c process st r st' :
  guarded_body cfg cogs c process st = (r, st') →
  match r with
  | Ret _ => fs_lookup (fs st') PyLavHashFile = Some (File c)
  | _ => fs_lookup (fs st') PyLavHashFile = fs_lookup (fs st) PyLavHashFile
  end.
Proof.
  unfold guarded_body, log_info. cbv zeta.
  mstep ltac:(reflexivity). mstep ltac:(reflexivity).
  match goal with
  | |- context [mbind _ _ ?s] =>
      pose proof (keeps_registries cfg (generate_updated_downloader_setting cogs c) s) as Hk;
      change (fs s) with (fs st) in Hk; revert Hk; generalize s
  end.
  intros s0 Hk. unfold mbind at 1, M_bind at 1.
  match type of Hk with
  | fs_lookup (fs (?t).2) _ = _ => destruct t as [[[]|x|code] s1]
  end; cbn [fst snd] in *; cbv beta iota;
    [|intros [= <- <-]; exact Hk|intros [= <- <-]; exact Hk].
  unfold update_existing_commit, mbind at 1, M_bind at 1, write_text at 1.
  destruct (fs_lookup (fs s1) PyLavHashFile) as [[old|es]|] eqn:Hold; cbv beta iota;
    [|intros [= <- <-]; by rewrite Hold|].
  - destruct (fs_put (fs s1) PyLavHashFile (File c)) as [n|] eqn:Hn; cbv beta iota;
      [|intros [= <- <-]; by rewrite Hold].
    apply fs_put_lookup_eq in Hn. destruct process; intros [= <- <-]; exact Hn.
  - destruct (fs_put (fs s1) PyLavHashFile (File c)) as [n|] eqn:Hn; cbv beta iota;
      [|intros [= <- <-]; by rewrite Hold].
    apply fs_put_lookup_eq in Hn. destruct process; intros [= <- <-]; exact Hn.
Qed.

(** X20. After the guarded block the commit file holds the
    new commit when the body of the [try] has run to its end; when the body
    has ended otherwise, the commit file is what it was before. *)
Theorem commit_recorded_iff_body_succeeds cfg cogs c process st :
  match (guarded_body cfg cogs c process st).1 with
  | Ret _ =>
      fs_lookup (fs (guarded_phase cfg cogs c process st).2) PyLavHashFile = Some (File c)
  | _ =>
      fs_lookup (fs (guarded_phase cfg cogs c process st).2) PyLavHashFile
      = fs_lookup (fs st) PyLavHashFile
  end.
Proof.
  rewrite guarded_phase_fs.
  pose proof (guarded_body_commit cfg cogs c process st) as Hbody.
  destruct (guarded_body cfg cogs c process st) as [r st'].
  exact (Hbody r st' eq_refl).
Qed.

Lemma emits_install_requirements P w cogs :
  (∀ format args, P (EvLog format args) = true) →
  (∀ reqs, P (EvPopen reqs) = true) →
  emits P (install_requirements w cogs).
Proof.
  intros Hlog Hpopen. unfold install_requirements, log_info.
  apply emits_bind; [apply emits_reads, reads_get_requirements|]. intros reqs.
  destruct (bool_decide (reqs = ∅)).
  - apply emits_bind; [apply emits_emit, Hlog | intros _; apply emits_reads, reads_ret].
  - apply emits_bind; [apply emits_emit, Hlog | intros _].
    apply emits_bind; [apply emits_popen_pip, Hpopen | intros started].
    apply emits_bind; [apply emits_tail_output, Hlog | intros _; apply emits_reads, reads_ret].
Qed.

(** X21. When the storage type is not JSON, what follows the
    comparison only logs, runs pip, and writes the commit to the commit
    file: no plugin is copied and no registry is written. *)
Theorem direct_mode_effects w cfg current_commit existing_commit cogs :
  IS_JSON cfg = false →
  emits (direct_mode_effect current_commit)
    (compare_phase w cfg current_commit existing_commit cogs).
Proof.
  intros Hmode. unfold compare_phase.
  destruct (String.eqb current_commit existing_commit).
  { apply emits_bind; [by apply emits_emit | intros _; apply emits_sys_exit]. }
  unfold install_phase. rewrite Hmode.
  apply emits_bind.
  { apply emits_bind; [apply emits_reads, reads_ret | intros _].
    by apply emits_install_requirements. }
  intros process. unfold guarded_phase.
  apply emits_try_finally.
  - apply emits_try_except; [|intros e; by apply emits_emit].
    unfold guarded_body, update_existing_commit, log_info. rewrite Hmode. cbv zeta.
    repeat (apply emits_bind; [|intros _]); try (by apply emits_emit).
    + apply emits_reads, reads_ret.
    + apply emits_write_text. unfold direct_mode_effect. apply andb_true_intro.
      split; [by apply bool_decide_eq_true_2 | apply String.eqb_refl].
    + destruct process; [|apply emits_reads, reads_ret].
      apply emits_bind; [by apply emits_emit | intros _; by apply emits_emit].
  - unfold cleanup. apply emits_bind; [|intros _; apply emits_sys_exit].
    destruct process; [|apply emits_reads, reads_ret].
    apply emits_bind; [by apply emits_emit | intros _; by apply emits_emit].
Qed.
End guarded.

(** ** Manifests that are out of the ordinary *)

Lemma add_requirements_unhashable (l : list json) (acc : gset atom) st :
  existsb unhashable l = true →
  fold_m (λ requirements req, a ← lift (py_hashable req); mret (requirements ∪ {[a]}))
    l acc st
  = (Raise TypeError, st).
Proof.
  revert acc. induction l as [|j l IH]; intros acc Hl; [done|].
  cbn [existsb] in Hl. cbn [fold_m].
  destruct j; cbn [unhashable orb] in Hl;
    try (mstep ltac:(reflexivity); by apply IH);
    by apply bind_raise.
Qed.

Lemma add_characters (l : list ascii) (acc : gset atom) st :
  fold_m (λ requirements req, a ← lift (py_hashable req); mret (requirements ∪ {[a]}))
    (map (λ c, JStr (String c EmptyString)) l) acc st
  = (Ret (acc ∪ list_to_set (map (λ c, AStr (String c EmptyString)) l)), st).
Proof.
  revert acc. induction l as [|c l IH]; intros acc; simpl.
  - unfold mret, M_ret. by rewrite union_empty_r_L.
  - mstep ltac:(reflexivity). rewrite IH. by rewrite (assoc_L (∪)).
Qed.

Section manifests.
Context `{JsonCodec}.

Lemma one_manifest name cog st text d field :
  fs_lookup (fs st) (cog </> "info.json") = Some (File text) →
  json_load (universal_newlines text) = Some (JObj d) →
  dict_get "requirements" d = Some field →
  get_requirements_for_all_cogs [(name, cog)] st =
    (reqs ← lift (py_iter field);
     fold_m (λ requirements req, a ← lift (py_hashable req); mret (requirements ∪ {[a]}))
       reqs ∅) st.
Proof.
  intros Hfile Hload Hfield. unfold get_requirements_for_all_cogs.
  cbn [dict_values map snd fold_m].
  assert (∀ (m : M (gset atom)) s, (m ≫= λ acc, mret acc) s = m s) as Hret.
  { intros m s. unfold mbind, M_bind. by destruct (m s) as [[a|e|c] s']. }
  rewrite Hret.
  mstep ltac:(unfold path_exists, fs_exists; rewrite Hfile; reflexivity).
  mstep ltac:(unfold read_text; rewrite Hfile; reflexivity).
  mstep ltac:(unfold load_json; rewrite Hload; reflexivity).
  mstep ltac:(unfold lift, py_contains, dict_mem; rewrite Hfield; reflexivity).
  mstep ltac:(unfold lift, py_getitem; rewrite Hfield; reflexivity).
  reflexivity.
Qed.

(** X12. A manifest whose ["requirements"] is a text, not a
    list, is iterated by character: the collected set holds the
    one-character strings of the text. *)
Theorem requirements_text_by_character name cog st text d s :
  fs_lookup (fs st) (cog </> "info.json") = Some (File text) →
  json_load (universal_newlines text) = Some (JObj d) →
  dict_get "requirements" d = Some (JStr s) →
  get_requirements_for_all_cogs [(name, cog)] st = (Ret (characters s), st).
Proof.
  intros Hfile Hload Hfield. rewrite (one_manifest _ _ _ _ _ _ Hfile Hload Hfield).
  mstep ltac:(reflexivity). rewrite add_characters. unfold characters.
  by rewrite union_empty_l_L.
Qed.

(** X13. A manifest whose ["requirements"] is a number, a truth
    value or null, or a list that holds a list or an object, makes the
    collection raise [TypeError]; the installation of the requirements ends
    with the same exception and no effect. *)
Theorem requirements_type_error w name cog st text d field :
  fs_lookup (fs st) (cog </> "info.json") = Some (File text) →
  json_load (universal_newlines text) = Some (JObj d) →
  dict_get "requirements" d = Some field →
  not_iterable field = true ∨ (∃ l, field = JArr l ∧ existsb unhashable l = true) →
  get_requirements_for_all_cogs [(name, cog)] st = (Raise TypeError, st)
  ∧ install_requirements w [(name, cog)] st = (Raise TypeError, st).
Proof.
  intros Hfile Hload Hfield Hkind.
  assert (get_requirements_for_all_cogs [(name, cog)] st = (Raise TypeError, st)) as Hget.
  { rewrite (one_manifest _ _ _ _ _ _ Hfile Hload Hfield).
    destruct Hkind as [Hkind|(l & -> & Hl)].
    - apply bind_raise. by destruct field.
    - mstep ltac:(reflexivity). by apply add_requirements_unhashable. }
  split; [exact Hget|]. unfold install_requirements. by apply bind_raise.
Qed.

(** X16. When the collected set holds a member that
    is not a string, [Popen] refuses its arguments: the function raises
    [TypeError] after the log line, and no process is started. *)
Theorem requirement_not_text_stops_installer w cogs st reqs :
  (get_requirements_for_all_cogs cogs st).1 = Ret reqs →
  forallb is_str (elements reqs) = false →
  install_requirements w cogs st =
    (Raise TypeError,
     {| fs := fs st;
        trace := (trace st ++ [EvLog "Installing requirements: %s" [LSet reqs]])%list |}).
Proof.
  intros Hreq Hstr.
  destruct (get_requirements_for_all_cogs cogs st) as [r st0] eqn:Hget.
  pose proof (reads_eq _ _ _ _ (reads_get_requirements cogs) Hget) as ->.
  simpl in Hreq. subst r.
  assert (reqs ≠ ∅) as Hne by (intros ->; by rewrite elements_empty in Hstr).
  unfold install_requirements. mstep ltac:(exact Hget).
  rewrite bool_decide_eq_false_2 by done. unfold log_info. mstep ltac:(reflexivity).
  apply bind_raise. unfold popen_pip. cbn [fs trace]. by rewrite Hstr.
Qed.
End manifests.

(** ** Storage type JSON and the directory of the commit file *)

Lemma fs_put_parent n p k x n' :
  fs_put n (p ++ [k])%list x = Some n' → is_Some (fs_lookup n p).
Proof.
  revert n n'. induction p as [|a p IH]; intros n n' Hput; [by eexists|].
  cbn [app fs_put] in Hput. destruct n as [|es]; [done|].
  destruct (p ++ [k])%list as [|b r] eqn:Hr; [by destruct p|].
  cbn [fs_lookup]. destruct (dict_get a es) as [c|]; [|done].
  destruct (fs_put c (b :: r) x) as [c'|] eqn:Hc; [|done].
  by apply (IH c c').
Qed.

Lemma leaves_absent_keeps {A} q (m : M A) : keeps q m → leaves_absent q m.
Proof. intros Hk st Hq. by rewrite Hk. Qed.

Lemma leaves_absent_bind {A B} q (m : M A) (f : A → M B) :
  leaves_absent q m → (∀ a, leaves_absent q (f a)) → leaves_absent q (m ≫= f).
Proof.
  intros Hm Hf st Hq. unfold mbind, M_bind. specialize (Hm st Hq).
  destruct (m st) as [[a|e|c] st']; simpl in *; try done. by apply Hf.
Qed.

Lemma leaves_absent_try_except {A} q (body : M A) handler :
  leaves_absent q body → (∀ e, leaves_absent q (handler e)) →
  leaves_absent q (try_except body handler).
Proof.
  intros Hb Hh st Hq. unfold try_except. specialize (Hb st Hq).
  destruct (body st) as [[a|e|c] st']; simpl in *; try done. by apply Hh.
Qed.

Lemma leaves_absent_try_finally {A} q (body : M A) final :
  leaves_absent q body → leaves_absent q final →
  leaves_absent q (try_finally body final).
Proof.
  intros Hb Hf st Hq. unfold try_finally. specialize (Hb st Hq).
  destruct (body st) as [r st']. specialize (Hf st' Hb).
  by destruct (final st') as [[a|e|c] st''].
Qed.

Lemma leaves_absent_write_below q k text :
  leaves_absent q (write_text (q </> k) text).
Proof.
  intros st Hq. unfold write_text, path_child.
  destruct (fs_put (fs st) (q ++ [k]) (File text)) as [n|] eqn:Hput.
  - apply fs_put_parent in Hput as [c Hc]. congruence.
  - by destruct (fs_lookup (fs st) (q ++ [k])%list) as [[|es]|].
Qed.

Lemma keeps_popen_pip q w env reqs : keeps q (popen_pip w env reqs).
Proof.
  intros st. unfold popen_pip. destruct (forallb is_str (elements reqs)); [|done].
  by destruct (pip w env reqs).
Qed.

Lemma keeps_tail_output q lines : keeps q (tail_output lines).
Proof.
  induction lines as [|line rest IH]; simpl; [apply keeps_reads, reads_ret|].
  destruct line as [|c line]; [apply keeps_reads, reads_ret|].
  apply keeps_bind; [apply keeps_emit|]. intros _.
  destruct (startswith "Successfully installed" (String c line));
    [apply keeps_reads, reads_ret | apply IH].
Qed.

Section state_dir.
Context `{JsonCodec}.

Lemma module_init_json_folder w st cfg st' :
  module_init w st = (Ret cfg, st') →
  IS_JSON cfg = true →
  st' = st ∧ RepoManagerRepoFolder cfg = ["data"; "cogs"; "RepoManager"; "repos"; "pylav"].
Proof.
  intros Hinit Hjson. split; [by apply (reads_eq _ _ _ _ (reads_module_init w) Hinit)|].
  unfold module_init in Hinit.
  apply bind_inv_ret in Hinit as (storage & st0 & _ & Hinit).
  apply bind_inv_ret in Hinit as (up & st1 & _ & Hinit).
  injection Hinit as <- _. simpl in *. by rewrite Hjson.
Qed.

Lemma keeps_install_requirements q w cogs : keeps q (install_requirements w cogs).
Proof.
  unfold install_requirements, log_info.
  apply keeps_bind; [apply keeps_reads, reads_get_requirements|]. intros reqs.
  destruct (bool_decide (reqs = ∅)).
  - apply keeps_bind; [apply keeps_emit | intros _; apply keeps_reads, reads_ret].
  - apply keeps_bind; [apply keeps_emit | intros _].
    apply keeps_bind; [apply keeps_popen_pip | intros started].
    apply keeps_bind; [apply keeps_tail_output | intros _; apply keeps_reads, reads_ret].
Qed.

Lemma keeps_registry_updates q data :
  diverge DownloaderSetting q = true →
  diverge RepoManagerSetting q = true →
  keeps q (create_or_update_downloader_setting data;;
           create_or_update_repo_manager_setting).
Proof.
  intros Hd Hr.
  unfold create_or_update_downloader_setting, create_or_update_repo_manager_setting,
    log_info.
  repeat first
    [ progress intros
    | apply keeps_bind
    | apply keeps_emit
    | apply keeps_write_text; assumption
    | apply keeps_reads; solve [solve_reads]
    | match goal with
      | |- keeps _ (if ?b then _ else _) => destruct b
      end ].
Qed.

Lemma leaves_absent_compare_phase w cfg c e cogs :
  leaves_absent ["data"; "pylav"] (compare_phase w cfg c e cogs).
Proof.
  unfold compare_phase. destruct (String.eqb c e).
  { apply leaves_absent_keeps. unfold log_info.
    apply keeps_bind; [apply keeps_emit | intros _; apply keeps_sys_exit]. }
  apply leaves_absent_bind.
  { apply leaves_absent_keeps. unfold install_phase.
    apply keeps_bind; [|intros _; apply keeps_install_requirements].
    destruct (IS_JSON cfg); [|apply keeps_reads, reads_ret].
    unfold install_or_update_pylav_cogs. apply keeps_for_each. intros cog _.
    apply keeps_copy_and_overwrite. unfold path_child. by apply diverge_app. }
  intros process. unfold guarded_phase.
  apply leaves_absent_try_finally.
  - apply leaves_absent_try_except;
      [|intros x; apply leaves_absent_keeps, keeps_emit].
    unfold guarded_body, log_info. cbv zeta.
    apply leaves_absent_bind; [apply leaves_absent_keeps, keeps_emit | intros _].
    apply leaves_absent_bind; [apply leaves_absent_keeps, keeps_emit | intros _].
    apply leaves_absent_bind.
    { apply leaves_absent_keeps. destruct (IS_JSON cfg); [|apply keeps_reads, reads_ret].
      by apply keeps_registry_updates. }
    intros _. apply leaves_absent_bind.
    { apply (leaves_absent_write_below ["data"; "pylav"] ".hashfile"). }
    intros _. apply leaves_absent_keeps.
    apply keeps_bind; [|intros _; apply keeps_emit].
    destruct process; [|apply keeps_reads, reads_ret].
    apply keeps_bind; [apply keeps_emit | intros _; apply keeps_emit].
  - apply leaves_absent_keeps. unfold cleanup.
    apply keeps_bind; [|intros _; apply keeps_sys_exit].
    destruct process; [|apply keeps_reads, reads_ret].
    apply keeps_bind; [apply keeps_emit | intros _; apply keeps_emit].
Qed.

(** X22. When the storage type is JSON and [/data/pylav] does not exist,
    no run brings it into being: the start-up folders, git, the copies and
    the registries all lie under [/data/cogs], and the write of the commit
    file fails for want of its directory.  So after the run, however it
    ends, there is still no [/data/pylav], and [get_existing_commit] returns
    the empty string. *)
Theorem json_mode_never_records w st cfg st0 :
  module_init w st = (Ret cfg, st0) →
  IS_JSON cfg = true →
  fs_lookup (fs st) ["data"; "pylav"] = None →
  fs_lookup (fs (main w st).2) ["data"; "pylav"] = None
  ∧ get_existing_commit (main w st).2 = (Ret EmptyString, (main w st).2).
Proof.
  intros Hinit Hjson Habsent.
  destruct (module_init_json_folder _ _ _ _ Hinit Hjson) as [-> Hfolder].
  assert (leaves_absent ["data"; "pylav"]
            (gate w;; make_folders cfg;;
             current_commit ← clone_or_update_pylav_repo w cfg;
             existing_commit ← get_existing_commit;
             cogs_mapping ← get_pylav_cogs cfg;
             compare_phase w cfg current_commit existing_commit cogs_mapping)) as Hrest.
  { apply leaves_absent_bind; [apply leaves_absent_keeps, keeps_gate | intros _].
    apply leaves_absent_bind.
    { apply leaves_absent_keeps, keeps_make_folders; [done | by rewrite Hfolder | done]. }
    intros _. apply leaves_absent_bind.
    { apply leaves_absent_keeps, keeps_clone_or_update. by rewrite Hfolder. }
    intros c. apply leaves_absent_bind.
    { apply leaves_absent_keeps, keeps_reads, reads_get_existing_commit. }
    intros e. apply leaves_absent_bind.
    { apply leaves_absent_keeps, keeps_reads, reads_get_pylav_cogs. }
    intros cogs. apply leaves_absent_compare_phase. }
  assert (fs_lookup (fs (main w st).2) ["data"; "pylav"] = None) as Hend.
  { unfold main. rewrite (bind_ret _ _ _ _ _ Hinit). by apply Hrest. }
  split; [exact Hend|]. apply get_existing_commit_none.
  change PyLavHashFile with (["data"; "pylav"] ++ [".hashfile"])%list.
  by rewrite fs_lookup_app, Hend.
Qed.
End state_dir.

(** * The statements on concrete containers *)

Module Evaluation.
Import Scenario.

(** C1 on a volume that records the commit [git] reports: the run exits
    with status 0. *)
Lemma up_to_date_run_witness :
  exit_status
    (@main SimpleJson.codec (world_of env_pylav checkout) (start (recorded head))).1
  = 0%Z.
Proof.
  edestruct (@up_to_date_run SimpleJson.codec (world_of env_pylav checkout)
               (start (recorded head))) as (_ & Hstatus & _).
  - vm_compute. reflexivity.
  - reflexivity.
  - exact Hstatus.
Defined.

(** C2 as stated fails: the commit has changed, the manifest of a plugin is
    not JSON, and the exception raised while the requirements are collected
    in the install phase ends the run; the exit status is 1. *)
Lemma install_exception_uncaught :
  ∃ cfg c e cogs st1 st2,
    @sync_phase SimpleJson.codec (world_of env_pylav broken_checkout) (start fresh)
    = (Ret (cfg, c, e, cogs), st1)
    ∧ c ≠ e
    ∧ @install_phase SimpleJson.codec (world_of env_pylav broken_checkout) cfg cogs st1
      = (Raise JSONDecodeError, st2)
    ∧ @main SimpleJson.codec (world_of env_pylav broken_checkout) (start fresh)
      = (Raise JSONDecodeError, st2)
    ∧ exit_status
        (@main SimpleJson.codec (world_of env_pylav broken_checkout) (start fresh)).1
      = 1%Z.
Proof.
  do 6 eexists. split; [vm_compute; reflexivity|].
  split; [discriminate|].
  split; [vm_compute; reflexivity|].
  split; vm_compute; reflexivity.
Qed.

(** C2 on a volume whose downloader registry is not JSON: the plugins are
    copied and the installer is started, the exception of the registry
    update is logged, the installer is killed and terminated, and the run
    exits with status 0.  And on three runs whose install phase raises: a
    regular file in the place of a plugin stops the copy, a manifest that is
    not JSON stops the collection of the requirements, and a pip that cannot
    be started stops [Popen]; each run ends with the exception. *)
Lemma guarded_phase_exits_zero_witness :
  (∃ st,
     @guarded_phase SimpleJson.codec json_cfg [] head (Some PipProcess)
       (start broken_registry)
     = (Exit 0, st)
     ∧ trace st =
         [ EvLog "Current PyLav-Cogs Commit: %s" [LStr head];
           EvLog "Updated Downloader Data: %s" [LJson (JObj [])];
           EvLog "Updating Downloader setting" [];
           EvLog "PyLav setup and update failed: %s" [LExn JSONDecodeError];
           EvKill PipProcess;
           EvTerminate PipProcess ])
  ∧ exit_status
      (@main SimpleJson.codec (world_of env_pylav checkout) (start broken_registry)).1
    = 0%Z
  ∧ (@main SimpleJson.codec (world_of env_pylav checkout)
       (start Cases.file_in_the_way)).1
    = Raise OSError
  ∧ (@main SimpleJson.codec (world_of env_pylav broken_checkout) (start fresh)).1
    = Raise JSONDecodeError
  ∧ (@main SimpleJson.codec Cases.no_pip (start fresh)).1 = Raise OSError.
Proof.
  destruct (@guarded_phase_exits_zero SimpleJson.codec) as (Hguarded & Hrun & Hraise).
  split; [|split; [|split; [|split]]].
  - eexists. split; [apply Hguarded|]. vm_compute. reflexivity.
  - edestruct (Hrun (world_of env_pylav checkout) (start broken_registry)) as [_ Hstatus].
    + vm_compute. reflexivity.
    + discriminate.
    + vm_compute. reflexivity.
    + exact Hstatus.
  - edestruct (Hraise (world_of env_pylav checkout) (start Cases.file_in_the_way))
      as [Hmain _].
    + vm_compute. reflexivity.
    + discriminate.
    + vm_compute. reflexivity.
    + rewrite Hmain. reflexivity.
  - edestruct (Hraise (world_of env_pylav broken_checkout) (start fresh)) as [Hmain _].
    + vm_compute. reflexivity.
    + discriminate.
    + vm_compute. reflexivity.
    + rewrite Hmain. reflexivity.
  - edestruct (Hraise Cases.no_pip (start fresh)) as [Hmain _].
    + vm_compute. reflexivity.
    + discriminate.
    + vm_compute. reflexivity.
    + rewrite Hmain. reflexivity.
Defined.

(** C3 at the input on which the code fails it: the script is called
    outside the container, with neither the gate variable nor the storage
    type in the environment and no [/data/config.json].  The gate is closed,
    yet the [open] of line 25 raises before the gate of line 177 is reached:
    the run ends with the exception and the exit status 1, where the claim,
    and the comment of line 178, have it skip with status 0.  Nothing is
    written. *)
Lemma gate_closed_crash :
  gate_open (world_of ∅ checkout) = false
  ∧ @main SimpleJson.codec (world_of ∅ checkout) (start fresh)
    = (Raise OSError, start fresh)
  ∧ exit_status (@main SimpleJson.codec (world_of ∅ checkout) (start fresh)).1 = 1%Z
  ∧ fs (@main SimpleJson.codec (world_of ∅ checkout) (start fresh)).2 = fresh.
Proof. split; [|split; [|split]]; vm_compute; reflexivity. Qed.

(** The closed gate with the storage type in the environment: the run skips
    the set-up. *)
Lemma gate_closed_skips_witness :
  @main SimpleJson.codec (world_of env_no_gate checkout) (start fresh)
  = (Exit 0,
     {| fs := fresh; trace := [EvLog "Skipping PyLav setup and update" []] |}).
Proof.
  edestruct (@gate_closed_skips SimpleJson.codec (world_of env_no_gate checkout)
               (start fresh)) as (Hskip & _).
  - vm_compute. reflexivity.
  - apply Hskip. left. exists "j"%char, "son". vm_compute. reflexivity.
Defined.

(** C4 as stated fails: ["pylav-core"] does not start with ["pl"], and a
    directory of that name in the working copy is not discovered. *)
Lemma pylav_core_not_discovered :
  fs_is_dir (with_checkout checkout) (RepoManagerRepoFolder other_cfg </> "pylav-core")
  = true
  ∧ startswith "pl" "pylav-core" = false
  ∧ ∃ cogs,
      get_pylav_cogs other_cfg (start (with_checkout checkout))
      = (Ret cogs, start (with_checkout checkout))
      ∧ dict_get "pylav-core" cogs = None.
Proof.
  split; [vm_compute; reflexivity|]. split; [vm_compute; reflexivity|].
  eexists. split; vm_compute; reflexivity.
Qed.

(** C4 on a working copy with the directories [audio], [plcontroller],
    [plutils], [plsearch], [pylav-core], [docs] and [notanaudioplugin_other],
    the file [plnotes.txt] and a directory [audio/plugins]. *)
Lemma plugin_discovery_witness :
  ∃ cogs,
    get_pylav_cogs other_cfg (start (with_checkout checkout))
    = (Ret cogs, start (with_checkout checkout))
    ∧ dict_get "audio" cogs = Some ["data"; "pylav"; "cogs"; "audio"]
    ∧ dict_get "plcontroller" cogs = Some ["data"; "pylav"; "cogs"; "plcontroller"]
    ∧ dict_get "plnotes.txt" cogs = None
    ∧ dict_get "plugins" cogs = None
    ∧ dict_get "docs" cogs = None
    ∧ dict_get "notanaudioplugin_other" cogs = None.
Proof.
  edestruct (plugin_discovery other_cfg (start (with_checkout checkout)))
    as (cogs & Hrun & Hiff & Haudio & Hdocs & Hother & _).
  - vm_compute. reflexivity.
  - exists cogs. split; [exact Hrun|]. split; [by eapply Haudio|].
    split; [apply Hiff; split; [reflexivity|]; split; [by eexists | by left]|].
    split.
    { destruct (dict_get "plnotes.txt" cogs) eqn:Hd; [|done].
      apply Hiff in Hd as (_ & [sub Hsub] & _). discriminate Hsub. }
    split; [|done].
    destruct (dict_get "plugins" cogs) eqn:Hd; [|done].
    apply Hiff in Hd as (_ & [sub Hsub] & _). discriminate Hsub.
Defined.

(** C5 on the manifests [{"requirements": ["a", "b"]}] and
    [{"requirements": ["b", "c"]}], next to a plugin without a manifest and
    a plugin whose manifest has no such field: the collected set is
    [{a, b, c}]. *)
Lemma requirements_are_the_union_witness :
  @get_requirements_for_all_cogs SimpleJson.codec
    [("audio", ["data"; "pylav"; "cogs"; "audio"]);
     ("plcontroller", ["data"; "pylav"; "cogs"; "plcontroller"]);
     ("plutils", ["data"; "pylav"; "cogs"; "plutils"]);
     ("plsearch", ["data"; "pylav"; "cogs"; "plsearch"])]
    (start (with_checkout checkout))
  = (Ret {[AStr "a"; AStr "b"; AStr "c"]}, start (with_checkout checkout)).
Proof.
  edestruct (@requirements_are_the_union SimpleJson.codec
               [("audio", ["data"; "pylav"; "cogs"; "audio"]);
                ("plcontroller", ["data"; "pylav"; "cogs"; "plcontroller"]);
                ("plutils", ["data"; "pylav"; "cogs"; "plutils"]);
                ("plsearch", ["data"; "pylav"; "cogs"; "plsearch"])]
               (start (with_checkout checkout))) as (Hrun & _).
  - vm_compute. reflexivity.
  - rewrite Hrun. vm_compute. reflexivity.
Defined.

(** C6 on a plugin without a manifest. *)
Lemma no_requirements_no_installer_witness :
  @install_requirements SimpleJson.codec (world_of env_pylav checkout)
    [("plutils", ["data"; "pylav"; "cogs"; "plutils"])]
    (start (with_checkout checkout))
  = (Ret None,
     {| fs := with_checkout checkout;
        trace := [EvLog "Requirements installed" []] |}).
Proof.
  edestruct (@no_requirements_no_installer SimpleJson.codec
               (world_of env_pylav checkout)
               [("plutils", ["data"; "pylav"; "cogs"; "plutils"])]
               (start (with_checkout checkout))) as (Hrun & _).
  - vm_compute. reflexivity.
  - exact Hrun.
Defined.

(** C7 on a registry that lists [pylav] next to another repository. *)
Lemma repo_manager_update_idempotent_witness :
  @create_or_update_repo_manager_setting SimpleJson.codec (start with_repo_manager)
  = (Ret tt,
     {| fs := with_repo_manager;
        trace := [EvLog "Updating RepoManager setting" []] |}).
Proof.
  eapply (@repo_manager_update_idempotent SimpleJson.codec (start with_repo_manager)).
  - vm_compute. reflexivity.
  - vm_compute. reflexivity.
  - vm_compute. reflexivity.
  - vm_compute. reflexivity.
Defined.

(** C8 on a fresh volume. *)
Lemma no_prior_commit_installs_witness :
  get_existing_commit (start fresh) = (Ret EmptyString, start fresh)
  ∧ ∃ cfg cogs st1,
      @main SimpleJson.codec (world_of env_pylav checkout) (start fresh)
      = (@install_phase SimpleJson.codec (world_of env_pylav checkout) cfg cogs
           ≫= λ process, @guarded_phase SimpleJson.codec cfg cogs head process) st1.
Proof.
  destruct (@no_prior_commit_installs SimpleJson.codec (start fresh) eq_refl)
    as [Hget Hrun].
  split; [exact Hget|].
  edestruct (Hrun (world_of env_pylav checkout)) as [_ Hmain].
  - vm_compute. reflexivity.
  - discriminate.
  - do 3 eexists. exact Hmain.
Defined.

(** C9 on a registry with another key at the top, another key next to
    [installed_cogs] and another repository next to [pylav]. *)
Lemma downloader_update_frame_witness :
  ∃ doc' root',
    @create_or_update_downloader_setting SimpleJson.codec
      (generate_updated_downloader_setting
         [("audio", ["data"; "pylav"; "cogs"; "audio"])] head)
      (start with_downloader)
    = (Ret tt,
       {| fs := root';
          trace := [EvLog "Updating Downloader setting" [];
                    EvWrite DownloaderSetting (SimpleJson.dumps doc')] |})
    ∧ json_path ["998240343"; "GLOBAL"; "installed_cogs"; "pylav"] doc'
      = Ret (generate_updated_downloader_setting
               [("audio", ["data"; "pylav"; "cogs"; "audio"])] head)
    ∧ json_path ["998240343"; "GLOBAL"; "installed_cogs"; "otherrepo"] doc'
      = Ret (JObj [("cog", JObj [("pinned", JBool false)])])
    ∧ json_path ["998240343"; "GLOBAL"; "installed_libraries"] doc' = Ret (JObj [])
    ∧ json_path ["schema"] doc' = Ret (JNum 2).
Proof.
  edestruct (@downloader_update_frame SimpleJson.codec (start with_downloader))
    as (doc' & root' & Hrun & _ & Hnew & Hframe).
  - vm_compute. reflexivity.
  - vm_compute. reflexivity.
  - vm_compute. reflexivity.
  - exists doc', root'. split; [exact Hrun|]. split; [exact Hnew|].
    split; [by rewrite Hframe|]. split; by rewrite Hframe.
Defined.

(** Both functions open the commit file in text mode: a text with a
    carriage return is written as it is and read back with a line feed in
    its place.  No hash that git prints is such a text. *)
Lemma commit_with_carriage_return :
  ∃ st',
    update_existing_commit with_cr (start state_dir) = (Ret tt, st')
    ∧ get_existing_commit st'
      = (Ret (String "a" (String LF (String "b" EmptyString))), st')
    ∧ String "a" (String LF (String "b" EmptyString)) ≠ with_cr.
Proof.
  eexists. split; [vm_compute; reflexivity|]. split; [vm_compute; reflexivity|].
  discriminate.
Qed.

(** C10 at the input on which the code fails it: a container whose storage
    type is JSON, on a fresh volume.  The start-up folders of lines 181-183
    all lie under [/data/cogs], so nothing creates [/data/pylav], the
    directory of the commit file.  The first run clones, copies the plugins,
    starts the installer and writes both registries; the [open] of line 172
    then raises, the exception is logged by the [except] clause and the run
    exits with status 0.  On the volume it leaves, [update_existing_commit]
    raises for the commit of the repository and [get_existing_commit]
    returns the empty string, not that commit.  The second run observes the
    same HEAD, compares it with the empty string, does not take the
    up-to-date path, copies and starts the installer again, and leaves the
    volume without a commit file once more. *)
Lemma fresh_json_volume_reinstalls :
  Cases.first_run.1 = Exit 0
  ∧ In (EvLog "PyLav setup and update failed: %s" [LExn OSError])
      (trace Cases.first_run.2)
  ∧ fs_lookup (fs Cases.first_run.2) ["data"; "pylav"] = None
  ∧ update_existing_commit head (start (fs Cases.first_run.2))
    = (Raise OSError, start (fs Cases.first_run.2))
  ∧ get_existing_commit (start (fs Cases.first_run.2))
    = (Ret EmptyString, start (fs Cases.first_run.2))
  ∧ EmptyString ≠ head
  ∧ (∃ cogs st1,
       @sync_phase SimpleJson.codec (world_of env_pylav checkout)
         (start (fs Cases.first_run.2))
       = (Ret (json_cfg, head, EmptyString, cogs), st1))
  ∧ Cases.second_run.1 = Exit 0
  ∧ existsb (logs "PyLav is up to date") (trace Cases.second_run.2) = false
  ∧ existsb is_popen (trace Cases.second_run.2) = true
  ∧ In (EvLog "PyLav setup and update failed: %s" [LExn OSError])
      (trace Cases.second_run.2)
  ∧ fs_lookup (fs Cases.second_run.2) PyLavHashFile = None.
Proof.
  split; [vm_compute; reflexivity|].
  split; [vm_compute; repeat (first [left; reflexivity | right])|].
  split; [vm_compute; reflexivity|].
  split; [vm_compute; reflexivity|].
  split; [vm_compute; reflexivity|].
  split; [discriminate|].
  split; [do 2 eexists; vm_compute; reflexivity|].
  split; [vm_compute; reflexivity|].
  split; [vm_compute; reflexivity|].
  split; [vm_compute; reflexivity|].
  split; [vm_compute; repeat (first [left; reflexivity | right])|].
  vm_compute. reflexivity.
Qed.

(** The round trip on the commit [git] reports, with the directory of the
    commit file in place. *)
Lemma commit_round_trip_witness :
  ∃ st',
    update_existing_commit head (start state_dir) = (Ret tt, st')
    ∧ get_existing_commit st' = (Ret head, st').
Proof.
  edestruct (@commit_round_trip SimpleJson.codec head (start state_dir))
    as (st' & Hput & Hget & _).
  - vm_compute. reflexivity.
  - vm_compute. reflexivity.
  - vm_compute. reflexivity.
  - exists st'. by split.
Defined.
End Evaluation.

(** * The further properties on concrete containers *)

Module Coverage.
Import Scenario Cases.

(** X3 on a volume with the directory of the registry: the file is created,
    and a second call leaves it alone. *)
Lemma repo_manager_create_witness :
  ∃ st',
    @create_or_update_repo_manager_setting SimpleJson.codec (start registry_dirs)
    = (Ret tt, st')
    ∧ @create_or_update_repo_manager_setting SimpleJson.codec st'
      = (Ret tt,
         {| fs := fs st';
            trace := (trace st' ++ [EvLog "Updating RepoManager setting" []])%list |}).
Proof.
  edestruct (@repo_manager_create SimpleJson.codec (start registry_dirs))
    as (st' & Hrun & _ & _ & _ & Hagain).
  - vm_compute. reflexivity.
  - vm_compute. reflexivity.
  - exists st'. split; [exact Hrun|]. apply Hagain. vm_compute. reflexivity.
Defined.

(** X4 on a registry that lists another repository: [pylav] is added and
    the other entry stays. *)
Lemma repo_manager_insert_witness :
  ∃ doc' st',
    @create_or_update_repo_manager_setting SimpleJson.codec (start with_other_repos)
    = (Ret tt, st')
    ∧ fs_lookup (fs st') RepoManagerSetting = Some (File (SimpleJson.dumps doc'))
    ∧ json_path ["170708480"; "GLOBAL"; "repos"; "pylav"] doc' = Ret (JStr "master")
    ∧ json_path ["170708480"; "GLOBAL"; "repos"; "other"] doc' = Ret (JStr "main")
    ∧ json_path ["1"] doc' = Ret (JNum 7).
Proof.
  edestruct (@repo_manager_insert SimpleJson.codec (start with_other_repos))
    as (doc' & st' & Hrun & _ & Hfile & Hnew & Hframe & _).
  - vm_compute. reflexivity.
  - vm_compute. reflexivity.
  - vm_compute. reflexivity.
  - vm_compute. reflexivity.
  - exists doc', st'. split; [exact Hrun|]. split; [exact Hfile|]. split; [exact Hnew|].
    split; rewrite Hframe; reflexivity.
Defined.

(** X5 on a volume with the directory of the registry: a creation followed
    by an update with the payload of another commit. *)
Lemma downloader_create_then_update_witness :
  ∃ st' st'',
    @create_or_update_downloader_setting SimpleJson.codec
      (generate_updated_downloader_setting audio_only head) (start registry_dirs)
    = (Ret tt, st')
    ∧ @create_or_update_downloader_setting SimpleJson.codec
        (generate_updated_downloader_setting audio_only "0000") st'
      = (Ret tt, st'')
    ∧ fs_lookup (fs st'') DownloaderSetting
      = Some (File (SimpleJson.dumps
                      (downloader_default
                         (generate_updated_downloader_setting audio_only "0000")))).
Proof.
  edestruct (@downloader_create_then_update SimpleJson.codec (start registry_dirs) []
               (generate_updated_downloader_setting audio_only head)
               (generate_updated_downloader_setting audio_only "0000"))
    as (st' & Hrun & _ & _ & _ & Hagain).
  - vm_compute. reflexivity.
  - vm_compute. reflexivity.
  - destruct Hagain as (st'' & Hrun2 & Hfile); [vm_compute; reflexivity|].
    exists st', st''. split; [exact Hrun|]. split; [exact Hrun2 | exact Hfile].
Defined.

(** X6 on a registry that is not JSON, and on one that is an empty object. *)
Lemma downloader_update_failure_witness :
  @create_or_update_downloader_setting SimpleJson.codec (JObj []) (start broken_registry)
  = (Raise JSONDecodeError,
     {| fs := broken_registry; trace := [EvLog "Updating Downloader setting" []] |})
  ∧ @create_or_update_downloader_setting SimpleJson.codec (JObj []) (start empty_registry)
    = (Raise KeyError,
       {| fs := empty_registry; trace := [EvLog "Updating Downloader setting" []] |}).
Proof.
  split.
  - edestruct (@downloader_update_failure SimpleJson.codec (start broken_registry) "]"
                 (JObj [])) as (Hjson & _).
    + vm_compute. reflexivity.
    + apply Hjson. vm_compute. reflexivity.
  - edestruct (@downloader_update_failure SimpleJson.codec (start empty_registry)
                 (SimpleJson.dumps (JObj [])) (JObj [])) as (_ & Hkey & _).
    + vm_compute. reflexivity.
    + eapply Hkey; vm_compute; reflexivity.
Defined.

(** X7 without a network: the failed clone is passed over, the failed
    [rev-parse] is raised. *)
Lemma clone_status_ignored_witness :
  ∃ st',
    clone_or_update_pylav_repo offline other_cfg (start (with_checkout []))
    = (Raise CalledProcessError, st')
    ∧ fs_lookup (fs st') ["data"; "pylav"; "cogs"] = Some (Dir []).
Proof.
  edestruct (clone_status_ignored offline other_cfg (start (with_checkout [])))
    as (st' & Hrun & Hrepo & _).
  - vm_compute. reflexivity.
  - reflexivity.
  - vm_compute. reflexivity.
  - vm_compute. reflexivity.
  - exists st'. split; [exact Hrun | exact Hrepo].
Defined.

(** X8 on a volume that holds the working copy. *)
Lemma update_resets_cleans_pulls_witness :
  ∃ st',
    clone_or_update_pylav_repo (world_of env_pylav checkout) other_cfg
      (start (with_checkout checkout))
    = (Ret head, st')
    ∧ fs_lookup (fs st') ["data"; "pylav"; "cogs"] = Some (Dir checkout).
Proof.
  edestruct (update_resets_cleans_pulls (world_of env_pylav checkout) other_cfg
               (start (with_checkout checkout)))
    as (st' & Hrun & Hrepo & _).
  - vm_compute. reflexivity.
  - vm_compute. reflexivity.
  - vm_compute. reflexivity.
  - vm_compute. reflexivity.
  - vm_compute. reflexivity.
  - vm_compute. reflexivity.
  - exists st'. split; [exact Hrun | exact Hrepo].
Defined.

(** X9 on a volume with an older copy of the plugin: the stale file is gone
    and the manifest of the working copy is in its place. *)
Lemma copy_and_overwrite_spec_witness :
  ∃ st',
    copy_and_overwrite ["data"; "pylav"; "cogs"; "audio"] (CogManagerCogFolder </> "audio")
      (start installed_volume)
    = (Ret tt, st')
    ∧ fs_lookup (fs st') (CogManagerCogFolder </> "audio" </> "stale.py") = None
    ∧ fs_lookup (fs st') (CogManagerCogFolder </> "audio" </> "info.json")
      = Some (manifest ["a"; "b"])
    ∧ fs_lookup (fs st') ["data"; "pylav"; "cogs"; "plnotes.txt"] = Some (File "notes").
Proof.
  edestruct (copy_and_overwrite_spec ["data"; "pylav"; "cogs"; "audio"]
               (CogManagerCogFolder </> "audio") (start installed_volume))
    as (st' & Hrun & Hto & _ & Hframe).
  - vm_compute. reflexivity.
  - reflexivity.
  - left. vm_compute. reflexivity.
  - exists st'. split; [exact Hrun|].
    unfold path_child at 1 3. rewrite !fs_lookup_app, Hto.
    split; [reflexivity|]. split; [reflexivity|].
    rewrite Hframe; reflexivity.
Defined.

(** X10 on a volume on which a file has the place of the plugin. *)
Lemma copy_onto_file_fails_witness :
  install_or_update_pylav_cogs audio_only (start file_in_the_way)
  = (Raise OSError, start file_in_the_way).
Proof.
  edestruct (copy_onto_file_fails audio_only ["data"; "pylav"; "cogs"; "audio"] []
               (start file_in_the_way))
    as (_ & Hinstall).
  - reflexivity.
  - vm_compute. reflexivity.
  - exact Hinstall.
Defined.

(** X11: the commit file is out of reach of the installation. *)
Lemma install_cogs_stays_in_cog_folder_witness :
  fs_lookup
    (fs (install_or_update_pylav_cogs audio_only (start installed_volume)).2)
    ["data"; "pylav"; "cogs"; "plnotes.txt"]
  = Some (File "notes").
Proof.
  rewrite (install_cogs_stays_in_cog_folder audio_only (start installed_volume)
             ["data"; "pylav"; "cogs"; "plnotes.txt"]); reflexivity.
Defined.

(** X12 on a manifest that declares the text [ab] where a list is meant. *)
Lemma requirements_text_by_character_witness :
  @get_requirements_for_all_cogs SimpleJson.codec audio_only
    (start (declaring (JStr "ab")))
  = (Ret (characters "ab"), start (declaring (JStr "ab"))).
Proof.
  eapply (@requirements_text_by_character SimpleJson.codec); vm_compute; reflexivity.
Defined.

(** X13 on a manifest that declares a number. *)
Lemma requirements_type_error_witness :
  @install_requirements SimpleJson.codec (world_of env_pylav checkout) audio_only
    (start (declaring (JNum 3)))
  = (Raise TypeError, start (declaring (JNum 3))).
Proof.
  edestruct (@requirements_type_error SimpleJson.codec (world_of env_pylav checkout)
               "audio" ["data"; "pylav"; "cogs"; "audio"] (start (declaring (JNum 3))))
    as (_ & Hinstall).
  - vm_compute. reflexivity.
  - vm_compute. reflexivity.
  - vm_compute. reflexivity.
  - left. reflexivity.
  - exact Hinstall.
Defined.

(** X14 on two lines of progress followed by the closing line: what comes
    after the closing line is not read. *)
Lemma tail_output_stops_witness :
  tail_output ["Collecting a"; "Downloading a"; "Successfully installed a"; "unread"]
    (start fresh)
  = (Ret tt,
     {| fs := fresh;
        trace := [EvLog "Collecting a" []; EvLog "Downloading a" [];
                  EvLog "Successfully installed a" []] |}).
Proof.
  edestruct (tail_output_stops ["Collecting a"; "Downloading a"] (start fresh))
    as (Hstop & _).
  - reflexivity.
  - apply (Hstop "Successfully installed a" ["unread"]). reflexivity.
Defined.

(** X15 on the working copy of the scenario. *)
Lemma install_requirements_spawns_witness :
  (∃ logs,
     @install_requirements SimpleJson.codec (world_of env_pylav checkout)
       [("audio", ["data"; "pylav"; "cogs"; "audio"]);
        ("plcontroller", ["data"; "pylav"; "cogs"; "plcontroller"])]
       (start (with_checkout checkout))
     = (Ret (Some PipProcess),
        {| fs := with_checkout checkout;
           trace :=
             [EvLog "Installing requirements: %s" [LSet {[AStr "a"; AStr "b"; AStr "c"]}];
              EvPopen {[AStr "a"; AStr "b"; AStr "c"]}] ++ logs |})
     ∧ forallb is_log logs = true)
  ∧ @install_requirements SimpleJson.codec no_pip
      [("audio", ["data"; "pylav"; "cogs"; "audio"]);
       ("plcontroller", ["data"; "pylav"; "cogs"; "plcontroller"])]
      (start (with_checkout checkout))
    = (Raise OSError,
       {| fs := with_checkout checkout;
          trace :=
            [EvLog "Installing requirements: %s"
               [LSet {[AStr "a"; AStr "b"; AStr "c"]}]] |}).
Proof.
  split.
  - edestruct (@install_requirements_spawns SimpleJson.codec (world_of env_pylav checkout)
                 [("audio", ["data"; "pylav"; "cogs"; "audio"]);
                  ("plcontroller", ["data"; "pylav"; "cogs"; "plcontroller"])]
                 (start (with_checkout checkout)) {[AStr "a"; AStr "b"; AStr "c"]})
      as (Hspawn & _).
    + vm_compute. reflexivity.
    + intros Hempty. apply (f_equal (λ s : gset atom, bool_decide (AStr "a" ∈ s))) in Hempty.
      vm_compute in Hempty. discriminate Hempty.
    + vm_compute. reflexivity.
    + edestruct Hspawn as (logs & Hrun & Hlogs); [vm_compute; reflexivity|].
      exists logs. split; [exact Hrun | exact Hlogs].
  - edestruct (@install_requirements_spawns SimpleJson.codec no_pip
                 [("audio", ["data"; "pylav"; "cogs"; "audio"]);
                  ("plcontroller", ["data"; "pylav"; "cogs"; "plcontroller"])]
                 (start (with_checkout checkout)) {[AStr "a"; AStr "b"; AStr "c"]})
      as (_ & Hfail).
    + vm_compute. reflexivity.
    + intros Hempty. apply (f_equal (λ s : gset atom, bool_decide (AStr "a" ∈ s))) in Hempty.
      vm_compute in Hempty. discriminate Hempty.
    + vm_compute. reflexivity.
    + apply Hfail. reflexivity.
Defined.

(** X16 on a manifest that declares a number next to a name. *)
Lemma requirement_not_text_stops_installer_witness :
  @install_requirements SimpleJson.codec (world_of env_pylav checkout) audio_only
    (start (declaring (JArr [JStr "a"; JNum 3])))
  = (Raise TypeError,
     {| fs := declaring (JArr [JStr "a"; JNum 3]);
        trace := [EvLog "Installing requirements: %s" [LSet {[AStr "a"; AInt 3]}]] |}).
Proof.
  apply (@requirement_not_text_stops_installer SimpleJson.codec
           (world_of env_pylav checkout) audio_only
           (start (declaring (JArr [JStr "a"; JNum 3]))) {[AStr "a"; AInt 3]}).
  - vm_compute. reflexivity.
  - vm_compute. reflexivity.
Defined.

(** X18 on the working copy of the scenario: a record for [audio], none for
    [docs]. *)
Lemma payload_of_discovered_witness :
  ∃ cogs,
    get_pylav_cogs other_cfg (start (with_checkout checkout))
    = (Ret cogs, start (with_checkout checkout))
    ∧ py_getitem (generate_updated_downloader_setting cogs head) "audio"
      = Ret (cog_record "audio" head)
    ∧ py_getitem (generate_updated_downloader_setting cogs head) "docs" = Raise KeyError.
Proof.
  eexists. split; [vm_compute; reflexivity|]. split.
  - erewrite (payload_of_discovered other_cfg (start (with_checkout checkout)));
      [|vm_compute; reflexivity]. reflexivity.
  - erewrite (payload_of_discovered other_cfg (start (with_checkout checkout)));
      [|vm_compute; reflexivity]. reflexivity.
Defined.

(** X19 on a fresh volume. *)
Lemma make_folders_spec_witness :
  ∃ st',
    make_folders json_cfg (start fresh) = (Ret tt, st')
    ∧ fs_is_dir (fs st') DownloaderLibFolder = true
    ∧ fs_is_dir (fs st') ["data"; "cogs"; "RepoManager"; "repos"; "pylav"] = true
    ∧ fs_is_dir (fs st') CogManagerCogFolder = true
    ∧ make_folders json_cfg st' = (Ret tt, st').
Proof.
  edestruct (make_folders_spec json_cfg (start fresh)) as (Hall & _ & Hagain).
  - vm_compute. reflexivity.
  - eexists. split; [vm_compute; reflexivity|].
    split; [vm_compute; reflexivity|]. split; [vm_compute; reflexivity|].
    split; [vm_compute; reflexivity|]. exact Hagain.
Defined.

(** X21 on the working copy of the scenario. *)
Lemma direct_mode_effects_witness :
  emits (direct_mode_effect head)
    (@compare_phase SimpleJson.codec (world_of env_pylav checkout) other_cfg head
       EmptyString audio_only).
Proof.
  apply (@direct_mode_effects SimpleJson.codec). reflexivity.
Defined.

(** X22 on a fresh volume: after the run there is no [/data/pylav], and the
    next run reads the empty string. *)
Lemma json_mode_never_records_witness :
  fs_lookup (fs first_run.2) ["data"; "pylav"] = None
  ∧ get_existing_commit first_run.2 = (Ret EmptyString, first_run.2).
Proof.
  apply (@json_mode_never_records SimpleJson.codec (world_of env_pylav checkout)
           (start fresh) json_cfg (start fresh)).
  - vm_compute. reflexivity.
  - reflexivity.
  - reflexivity.
Defined.
End Coverage.
